(** * Manthan: the registration / check-in / certificate lifecycle

    A shallow embedding of the backend's models ([models/Event.js],
    [models/User.js], [models/Registration.js], [models/Certificate.js]), of
    [utils/qrCode.js] and of the handlers of [routes/registrations.js] and
    [routes/certificates.js], followed by the properties of the
    specification that concern them.

    Conventions.
    - A document collection addressed by [_id] is a [gmap] from ids to
      documents; the registrations and the certificates, which the code also
      queries by other fields ([findOne]), are lists in insertion order.
    - A [Date] is its number of milliseconds since the epoch; counters, fees
      and points are integers; the attendance percentage, a quotient, is a
      binary64 floating-point number.
    - A handler is a function from the request and the store to a response
      and the new store.  Handlers are modelled from the point where the
      express-validator checks have passed; the bearer token is already
      decoded to the id it carries.
    - [throw] is the constructor [Throw] of [Result]; an exception that
      reaches the handler's [catch] becomes the response [next].
    - A request reads the clock once: [now] stands for each [new Date()] and
      [Date.now()] of the request. *)

From Stdlib Require Import PrimFloat Uint63.
From stdpp Require Import base gmap strings list numbers pretty.

Local Open Scope Z_scope.
Set Warnings "-register-all,-inexact-float".

Definition ObjectId := string.
Definition Date := Z.

Inductive Result (A : Type) :=
| Ok (a : A)
| Throw (message : string).
Arguments Ok {A} a.
Arguments Throw {A} message.

(** ** JavaScript numbers that may be missing *)
Module Js.

(** A [Number] schema path without [required] or [default]. *)
Inductive Number :=
| Undefined
| Null
| Num (n : Z).

(** [ToNumber]; [None] is NaN. *)
Definition toNumber (v : Number) : option Z :=
  match v with
  | Undefined => None
  | Null => Some 0
  | Num n => Some n
  end.

(** The relational operators answer [false] as soon as one side is NaN. *)
Definition lt (a b : option Z) : bool :=
  match a, b with
  | Some x, Some y => bool_decide (x < y)
  | _, _ => false
  end.

Definition gt (a b : option Z) : bool := lt b a.

Definition ge (a b : option Z) : bool :=
  match a, b with
  | Some x, Some y => bool_decide (y <= x)
  | _, _ => false
  end.

Definition sub (a b : option Z) : option Z :=
  match a, b with
  | Some x, Some y => Some (x - y)
  | _, _ => None
  end.

End Js.

(** ** models/Event.js *)
Module Event.

Inductive Status :=
| draft | pending | approved | rejected | active | completed | cancelled.

#[global] Instance Status_eq_dec : EqDecision Status :=
  ltac:(solve_decision).

Record t := {
  _id : ObjectId;
  startDate : Date;
  endDate : Date;
  registrationDeadline : Date;
  organizer : ObjectId;
  coOrganizers : list ObjectId;
  maxParticipants : Js.Number;      (* no [required], no [default] *)
  currentParticipants : Z;          (* default: 0 *)
  registrationFee : Z;              (* default: 0, min: 0 *)
  status : Status;
  isTeamEvent : bool;
  teamSize_max : Z                  (* teamSize.max, default: 1 *)
}.

Definition set_currentParticipants (n : Z) (this : t) : t :=
  {| _id := _id this; startDate := startDate this; endDate := endDate this;
     registrationDeadline := registrationDeadline this;
     organizer := organizer this; coOrganizers := coOrganizers this;
     maxParticipants := maxParticipants this;
     currentParticipants := n;
     registrationFee := registrationFee this; status := status this;
     isTeamEvent := isTeamEvent this; teamSize_max := teamSize_max this |}.

(** [this.currentParticipants < this.maxParticipants] *)
Definition belowCapacity (this : t) : bool :=
  Js.lt (Some (currentParticipants this)) (Js.toNumber (maxParticipants this)).

(** virtual [isRegistrationOpen] *)
Definition isRegistrationOpen (now : Date) (this : t) : bool :=
  bool_decide (now <= registrationDeadline this)
  && bool_decide (status this = approved)
  && belowCapacity this.

(** [addParticipant]: the saved document, or the thrown error.  Here and in
    [removeParticipant], [this.save()] is the write of the document; the
    validation that runs before it reads the dates and the team sizes only
    ([EventMore.pre_save] below), which these methods do not change, and
    throws on an event stored with dates or sizes that fail it.  A property
    that rests on such a write names the validation as a hypothesis. *)
Definition addParticipant (this : t) : Result t :=
  if belowCapacity this
  then Ok (set_currentParticipants (currentParticipants this + 1) this)
  else Throw "Event is full".

(** [removeParticipant]: the document it saves, or [None] when it returns
    [this] as it is. *)
Definition removeParticipant (this : t) : option t :=
  if bool_decide (currentParticipants this > 0)
  then Some (set_currentParticipants (currentParticipants this - 1) this)
  else None.

End Event.

(** ** models/User.js *)
Module User.

Inductive Role := student | organizer | admin.

#[global] Instance Role_eq_dec : EqDecision Role :=
  ltac:(solve_decision).

Record t := {
  _id : ObjectId;
  name : string;
  email : string;
  role : Role;                      (* default: student *)
  points : Z;                       (* default: 0 *)
  isActive : bool                   (* default: true *)
}.

Definition roleName (r : Role) : string :=
  match r with
  | student => "student"
  | organizer => "organizer"
  | admin => "admin"
  end.

(** [addPoints(points, reason)] *)
Definition addPoints (pts : Z) (reason : string) (this : t) : t :=
  {| _id := _id this; name := name this; email := email this;
     role := role this; points := points this + pts;
     isActive := isActive this |}.

End User.

(** ** models/Registration.js *)
Module Registration.

Inductive Status :=
| pending | confirmed | cancelled | waitlisted | checked_in | completed.

#[global] Instance Status_eq_dec : EqDecision Status :=
  ltac:(solve_decision).

Inductive PaymentStatus :=
| payment_pending | payment_completed | failed | refunded | not_required.

#[global] Instance PaymentStatus_eq_dec : EqDecision PaymentStatus :=
  ltac:(solve_decision).

Inductive Method := qr_code | manual | self_checkin.

#[global] Instance Method_eq_dec : EqDecision Method :=
  ltac:(solve_decision).

Record TeamMember := {
  member_user : ObjectId;
  member_name : string;
  member_email : string;
  member_role : string
}.

Record TeamInfo := {
  isTeamLead : bool;                  (* default: false *)
  teamName : option string;
  teamMembers : list TeamMember;
  teamCode : option string;
  maxMembers : Js.Number
}.

Record CheckIn := {
  isCheckedIn : bool;                 (* default: false *)
  checkInTime : option Date;
  checkInMethod : option Method;
  checkInLocation : option string;
  checkedInBy : option ObjectId
}.

Record Session := {
  sessionName : string;
  attended : bool;
  session_checkInTime : option Date
}.

(** The path [attendance] with its two counters written.  The schema gives
    [totalSessions] and [attendedSessions] no default: on a registration on
    which nothing has written them they are [undefined], which is the value
    [None] of the field [attendance] below. *)
Record Attendance := {
  sessions : list Session;
  totalSessions : Z;
  attendedSessions : Z;
  attendancePercentage : float        (* a Number, default: 0 *)
}.

Record QrCode := {
  code : string;
  url : string
}.

Record t := {
  _id : ObjectId;
  user : ObjectId;
  event : ObjectId;
  status : Status;                    (* default: pending *)
  paymentStatus : PaymentStatus;      (* default: not-required *)
  amountPaid : Z;
  teamInfo : option TeamInfo;
  checkIn : CheckIn;
  attendance : option Attendance;     (* None: no session, counters undefined *)
  qrCode : option QrCode
}.

Definition set_status (s : Status) (this : t) : t :=
  {| _id := _id this; user := user this; event := event this; status := s;
     paymentStatus := paymentStatus this; amountPaid := amountPaid this;
     teamInfo := teamInfo this; checkIn := checkIn this;
     attendance := attendance this; qrCode := qrCode this |}.

Definition set_teamInfo (ti : option TeamInfo) (this : t) : t :=
  {| _id := _id this; user := user this; event := event this;
     status := status this;
     paymentStatus := paymentStatus this; amountPaid := amountPaid this;
     teamInfo := ti; checkIn := checkIn this;
     attendance := attendance this; qrCode := qrCode this |}.

Definition set_checkIn (c : CheckIn) (this : t) : t :=
  {| _id := _id this; user := user this; event := event this;
     status := status this;
     paymentStatus := paymentStatus this; amountPaid := amountPaid this;
     teamInfo := teamInfo this; checkIn := c;
     attendance := attendance this; qrCode := qrCode this |}.

Definition set_attendance (a : option Attendance) (this : t) : t :=
  {| _id := _id this; user := user this; event := event this;
     status := status this;
     paymentStatus := paymentStatus this; amountPaid := amountPaid this;
     teamInfo := teamInfo this; checkIn := checkIn this;
     attendance := a; qrCode := qrCode this |}.

Definition set_qrCode (q : option QrCode) (this : t) : t :=
  {| _id := _id this; user := user this; event := event this;
     status := status this;
     paymentStatus := paymentStatus this; amountPaid := amountPaid this;
     teamInfo := teamInfo this; checkIn := checkIn this;
     attendance := attendance this; qrCode := q |}.

(** virtual [teamSize]: the recorded members and the team lead. *)
Definition teamSize (this : t) : Z :=
  match teamInfo this with
  | Some ti => Z.of_nat (length (teamMembers ti)) + 1
  | None => 1
  end.

(** An integer counter as a Number, a binary64 floating-point number (exact
    below 2^53). *)
Definition float_of_Z (n : Z) : float :=
  if bool_decide (n < 0)
  then PrimFloat.opp (PrimFloat.of_uint63 (Uint63.of_Z (- n)))
  else PrimFloat.of_uint63 (Uint63.of_Z n).

(** [attendedSessions / totalSessions * 100], in floating point. *)
Definition percentage (attendedCount total : Z) : float :=
  PrimFloat.mul (PrimFloat.div (float_of_Z attendedCount) (float_of_Z total))
    (float_of_Z 100).

(** [pre('save')]: recompute the attendance percentage; with undefined
    counters the test [totalSessions > 0] is false. *)
Definition pre_save (this : t) : t :=
  match attendance this with
  | Some a =>
      if bool_decide (totalSessions a > 0)
      then set_attendance
             (Some {| sessions := sessions a;
                      totalSessions := totalSessions a;
                      attendedSessions := attendedSessions a;
                      attendancePercentage :=
                        percentage (attendedSessions a) (totalSessions a) |})
             this
      else this
  | None => this
  end.

(** The instance methods.  The schema has both a path and a method called
    [checkIn] (see [checkIn] below); the methods live in a module of their
    own. *)
Module methods.

Definition emptyTeamInfo : TeamInfo :=
  {| isTeamLead := false; teamName := None; teamMembers := [];
     teamCode := None; maxMembers := Js.Undefined |}.

Definition push_member (m : TeamMember) (ti : TeamInfo) : TeamInfo :=
  {| isTeamLead := isTeamLead ti; teamName := teamName ti;
     teamMembers := teamMembers ti ++ [m];
     teamCode := teamCode ti; maxMembers := maxMembers ti |}.

(** [addTeamMember(memberData)] *)
Definition addTeamMember (memberData : TeamMember) (this : t) : Result t :=
  let ti := default emptyTeamInfo (teamInfo this) in
  if Js.ge (Some (Z.of_nat (length (teamMembers ti))))
           (Js.sub (Js.toNumber (maxMembers ti)) (Some 1))
  then Throw "Team is full"
  else Ok (pre_save (set_teamInfo (Some (push_member memberData ti)) this)).

(** The call [registration.checkIn(method, location, checkedInBy)].  The
    schema declares the path [checkIn] (the sub-document that the handler
    reads as [registration.checkIn.isCheckedIn]) and, under the same name,
    the method.  Mongoose refuses a method that has the name of a path, and
    on a document the name is the path: [registration.checkIn] is the
    sub-document, not a function, and the call throws.  The body of the
    method (it would set the sub-document and the status and save) is never
    run. *)
Definition checkIn (now : Date) (method : Method) (location : string)
    (by_ : option ObjectId) (this : t) : Result t :=
  Throw "TypeError: registration.checkIn is not a function".

Definition named (name : string) (s : Session) : bool :=
  bool_decide (sessionName s = name).

(** The assignments to [existingSession], the first session of that name. *)
Fixpoint update_session (now : Date) (name : string) (att : bool)
    (l : list Session) : list Session :=
  match l with
  | [] => []
  | s :: rest =>
      if named name s
      then {| sessionName := sessionName s;
              attended := att;
              session_checkInTime :=
                if att then Some now else session_checkInTime s |} :: rest
      else s :: update_session now name att rest
  end.

(** [markSessionAttendance(sessionName, attended)].  [attendance] is a
    nested path, an object on every document, so the branch
    [if (!this.attendance)] that would write the counters 0 is never taken.
    With undefined counters and no session the name is new, and
    [totalSessions += 1] is [undefined + 1], that is NaN: the Number path
    refuses it and [save()] rejects with a validation error, nothing is
    written.  With the counters written the method counts. *)
Definition markSessionAttendance (now : Date) (name : string) (att : bool)
    (this : t) : Result t :=
  match attendance this with
  | None =>
      Throw "ValidationError: attendance.totalSessions: Cast to Number failed for value NaN"
  | Some a =>
  let a' :=
    match List.find (named name) (sessions a) with
    | Some existingSession =>
        let wasAttended := attended existingSession in
        {| sessions := update_session now name att (sessions a);
           totalSessions := totalSessions a;
           attendedSessions :=
             if att && negb wasAttended then attendedSessions a + 1
             else if negb att && wasAttended then attendedSessions a - 1
             else attendedSessions a;
           attendancePercentage := attendancePercentage a |}
    | None =>
        {| sessions :=
             sessions a ++
               [{| sessionName := name; attended := att;
                   session_checkInTime := if att then Some now else None |}];
           totalSessions := totalSessions a + 1;
           attendedSessions :=
             if att then attendedSessions a + 1 else attendedSessions a;
           attendancePercentage := attendancePercentage a |}
    end in
  Ok (pre_save (set_attendance (Some a') this))
  end.

End methods.

End Registration.

(** ** models/Certificate.js *)
Module Certificate.

Inductive Status := active | revoked | expired | pending.

#[global] Instance Status_eq_dec : EqDecision Status :=
  ltac:(solve_decision).

Inductive Kind :=
| participation | winner | completion | achievement | appreciation.

Record t := {
  _id : ObjectId;
  user : ObjectId;
  event : ObjectId;
  registration : ObjectId;
  certificateId : string;             (* unique *)
  type : Kind;
  verificationCode : string;          (* verification.verificationCode, unique *)
  status : Status;                    (* default: active *)
  revokedAt : option Date;
  revokedBy : option ObjectId;
  revokedReason : option string
}.

(** [revoke(revokedBy, reason)]; [now] is [new Date()]. *)
Definition revoke (now : Date) (by_ : ObjectId) (reason : string)
    (this : t) : t :=
  {| _id := _id this; user := user this; event := event this;
     registration := registration this;
     certificateId := certificateId this; type := type this;
     verificationCode := verificationCode this;
     status := revoked;
     revokedAt := Some now;
     revokedBy := Some by_;
     revokedReason := Some reason |}.

(** The query [{ 'verification.verificationCode': code, status: 'active' }]. *)
Definition verifiable (code : string) (c : t) : bool :=
  bool_decide (verificationCode c = code) && bool_decide (status c = active).

(** static [verifyCertificate(verificationCode)], on the collection. *)
Definition verifyCertificate (code : string) (collection : list t)
    : option t :=
  List.find (verifiable code) collection.

Definition findById (id : ObjectId) (collection : list t) : option t :=
  List.find (fun c => bool_decide (_id c = id)) collection.

(** [save()] of a loaded document: the stored document of that [_id] is
    replaced. *)
Fixpoint save (doc : t) (collection : list t) : list t :=
  match collection with
  | [] => []
  | c :: rest =>
      if bool_decide (_id c = _id doc) then doc :: rest
      else c :: save doc rest
  end.

End Certificate.

(** ** JSON values, as [JSON.parse] returns them *)
Module JSON.

Inductive t :=
| JNull
| JBool (b : bool)
| JNumber (n : Z)
| JString (s : string)
| JArray (items : list t)
| JObject (fields : list (string * t)).

(** Property read [v.key] for the keys the code reads ([type], [eventId],
    [timestamp], [registrationId]): a [TypeError] on [null], the own
    property of an object, [undefined] ([None]) otherwise. *)
Definition get (key : string) (v : t) : Result (option t) :=
  match v with
  | JNull => Throw "TypeError: Cannot read properties of null"
  | JObject fields =>
      Ok (snd <$> List.find (fun kv => bool_decide (fst kv = key)) fields)
  | _ => Ok None
  end.

(** The same read on a value already known not to be [null]. *)
Definition prop (key : string) (v : t) : option t :=
  match get key v with
  | Ok x => x
  | Throw _ => None
  end.

Definition truthy (v : t) : bool :=
  match v with
  | JNull => false
  | JBool b => b
  | JNumber n => negb (bool_decide (n = 0))
  | JString s => negb (bool_decide (s = ""%string))
  | JArray _ | JObject _ => true
  end.

(** [v === s] for a string [s]. *)
Definition strict_eq_string (v : option t) (s : string) : bool :=
  match v with
  | Some (JString x) => bool_decide (x = s)
  | _ => false
  end.

End JSON.

(** What the handlers use of the runtime and of the [qrcode] package.
    [JSON_parse] answers [None] where [JSON.parse] throws; [toDataURL]
    renders the image and may throw; [ToNumber_other] is [ToNumber] on
    strings, arrays and objects ([None] is NaN). *)
Class Runtime := {
  JSON_parse : string -> option JSON.t;
  JSON_stringify : JSON.t -> string;
  toDataURL : string -> Result string;
  ToNumber_other : JSON.t -> option Z
}.

(** ** utils/qrCode.js *)
Module qrCode.

Record Generated := {
  code : string;
  dataURL : string;
  data : JSON.t
}.

(** [generateEventQR(registrationId, eventId)]; [now] is [Date.now()]. *)
Definition generateEventQR `{Runtime} (now : Date)
    (registrationId eventId : ObjectId) : Result Generated :=
  let qrData :=
    JSON.JObject
      [("type", JSON.JString "event-checkin");
       ("registrationId", JSON.JString registrationId);
       ("eventId", JSON.JString eventId);
       ("timestamp", JSON.JNumber now)]%string in
  let qrString := JSON_stringify qrData in
  match toDataURL qrString with
  | Ok qrCodeDataURL =>
      Ok {| code := qrString; dataURL := qrCodeDataURL; data := qrData |}
  | Throw message =>
      Throw ("Failed to generate QR code: " +:+ message)
  end.

Record Parsed := {
  success : bool;
  parsed_data : JSON.t;
  parsed_type : JSON.t
}.

(** The [catch] branch of [parseQRData]: the string is kept as a URL. *)
Definition asUrl (qrString : string) : Parsed :=
  {| success := true;
     parsed_data := JSON.JObject [("url"%string, JSON.JString qrString)];
     parsed_type := JSON.JString "url" |}.

(** [parseQRData(qrString)] *)
Definition parseQRData `{Runtime} (qrString : string) : Parsed :=
  match JSON_parse qrString with
  | Some data =>
      match JSON.get "type" data with
      | Ok ty =>
          {| success := true;
             parsed_data := data;
             parsed_type :=
               match ty with
               | Some v => if JSON.truthy v then v else JSON.JString "unknown"
               | None => JSON.JString "unknown"
               end |}
      | Throw _ => asUrl qrString
      end
  | None => asUrl qrString
  end.

Record Validation := {
  valid : bool;
  message : option string;
  registrationId : option JSON.t;
  eventId : option JSON.t
}.

Definition invalid (msg : string) : Validation :=
  {| valid := false; message := Some msg;
     registrationId := None; eventId := None |}.

(** [ToNumber] of a property that may be [undefined]. *)
Definition toNumber `{Runtime} (v : option JSON.t) : option Z :=
  match v with
  | None => None
  | Some JSON.JNull => Some 0
  | Some (JSON.JBool b) => Some (if b then 1 else 0)
  | Some (JSON.JNumber n) => Some n
  | Some other => ToNumber_other other
  end.

(** 24 hours in milliseconds *)
Definition maxAge : Z := 24 * 60 * 60 * 1000.

(** [validateCheckInQR(qrData, expectedEventId)]; [now] is [Date.now()]. *)
Definition validateCheckInQR `{Runtime} (now : Date) (qrData : JSON.t)
    (expectedEventId : string) : Validation :=
  match qrData with
  | JSON.JNull => invalid "Invalid QR code format"
  | _ =>
      if negb (JSON.strict_eq_string (JSON.prop "type" qrData) "event-checkin")
      then invalid "Invalid QR code type for check-in"
      else if negb (JSON.strict_eq_string (JSON.prop "eventId" qrData)
                      expectedEventId)
      then invalid "QR code is for a different event"
      else
        let age := Js.sub (Some now) (toNumber (JSON.prop "timestamp" qrData)) in
        if Js.gt age (Some maxAge)
        then invalid "QR code has expired"
        else {| valid := true; message := None;
                registrationId := JSON.prop "registrationId" qrData;
                eventId := JSON.prop "eventId" qrData |}
  end.

End qrCode.

(** ** The store *)
Record DB := {
  events : gmap ObjectId Event.t;
  users : gmap ObjectId User.t;
  registrations : list Registration.t;
  certificates : list Certificate.t
}.

Definition save_event (e : Event.t) (db : DB) : DB :=
  {| events := <[Event._id e := e]> (events db); users := users db;
     registrations := registrations db; certificates := certificates db |}.

Definition save_user (u : User.t) (db : DB) : DB :=
  {| events := events db; users := <[User._id u := u]> (users db);
     registrations := registrations db; certificates := certificates db |}.

Definition set_registrations (l : list Registration.t) (db : DB) : DB :=
  {| events := events db; users := users db;
     registrations := l; certificates := certificates db |}.

Definition set_certificates (l : list Certificate.t) (db : DB) : DB :=
  {| events := events db; users := users db;
     registrations := registrations db; certificates := l |}.

(** Readers used to state the properties. *)
Definition participantsOf (eventId : ObjectId) (db : DB) : option Z :=
  Event.currentParticipants <$> events db !! eventId.

Definition pointsOf (userId : ObjectId) (db : DB) : option Z :=
  User.points <$> users db !! userId.

(** The queries and writes of the handlers on the registration collection. *)
Module Registrations.

Definition findById (id : ObjectId) (l : list Registration.t)
    : option Registration.t :=
  List.find (fun r => bool_decide (Registration._id r = id)) l.

(** The query [{ user, event }]: the status takes no part in it. *)
Definition sameUserEvent (user event : ObjectId) (r : Registration.t) : bool :=
  bool_decide (Registration.user r = user)
  && bool_decide (Registration.event r = event).

Definition findOne (user event : ObjectId) (l : list Registration.t)
    : option Registration.t :=
  List.find (sameUserEvent user event) l.

(** The query [{ 'teamInfo.teamCode', event, 'teamInfo.isTeamLead': true }]. *)
Definition isLeadOf (teamCode : string) (event : ObjectId)
    (r : Registration.t) : bool :=
  match Registration.teamInfo r with
  | Some ti =>
      bool_decide (Registration.teamCode ti = Some teamCode)
      && bool_decide (Registration.event r = event)
      && Registration.isTeamLead ti
  | None => false
  end.

Definition findTeamLead (teamCode : string) (event : ObjectId)
    (l : list Registration.t) : option Registration.t :=
  List.find (isLeadOf teamCode event) l.

(** [save()] of a loaded document. *)
Fixpoint save (doc : Registration.t) (l : list Registration.t)
    : list Registration.t :=
  match l with
  | [] => []
  | r :: rest =>
      if bool_decide (Registration._id r = Registration._id doc)
      then doc :: rest
      else r :: save doc rest
  end.

(** [Registration.create(data)]: [_id] is unique, and so is the pair
    (user, event) by the index [{ user: 1, event: 1 }, { unique: true }]. *)
Definition create (doc : Registration.t) (l : list Registration.t)
    : Result (list Registration.t) :=
  if existsb (fun r => bool_decide (Registration._id r = Registration._id doc)) l
  then Throw "E11000 duplicate key error: _id"
  else if existsb (sameUserEvent (Registration.user doc)
                     (Registration.event doc)) l
  then Throw "E11000 duplicate key error: user_1_event_1"
  else Ok (l ++ [Registration.pre_save doc]).

End Registrations.

(** ** Responses *)
Inductive Response :=
| json (status : Z) (success : bool) (message : string)  (* res.status(..).json(..) *)
| next (error : string).                                  (* next(error) *)

(** ** middleware/auth.js *)
Module auth.

(** [authenticate], from the id the verified token carries; the write of
    [lastLogin] is left out. *)
Definition authenticate (id : ObjectId) (db : DB) : Response + User.t :=
  match users db !! id with
  | None => inl (json 401 false "User not found")
  | Some user =>
      if User.isActive user then inr user
      else inl (json 401 false "Account has been deactivated")
  end.

End auth.

(** [n.toString(36).toUpperCase()] for an integer [n]. *)
Definition digit36 (d : Z) : Ascii.ascii :=
  if bool_decide (d < 10)
  then Ascii.ascii_of_nat (48 + Z.to_nat d)
  else Ascii.ascii_of_nat (55 + Z.to_nat d).

Fixpoint digits36 (fuel : nat) (n : Z) (acc : string) : string :=
  match fuel with
  | O => acc
  | S fuel' =>
      let acc' := String (digit36 (n `mod` 36)) acc in
      if bool_decide (n `div` 36 = 0) then acc'
      else digits36 fuel' (n `div` 36) acc'
  end.

Definition toString36 (n : Z) : string :=
  if bool_decide (n < 0)
  then "-" +:+ digits36 (S (Z.to_nat (Z.log2 (- n)))) (- n) ""
  else digits36 (S (Z.to_nat (Z.log2 n))) n "".

(** The number that a string of digits in base 36 denotes, after the digits
    already read: the inverse of [toString36] on clock readings.  It is not
    in the program; it serves to tell two team codes apart. *)
Definition digitValue (c : Ascii.ascii) : Z :=
  let k := Z.of_nat (Ascii.nat_of_ascii c) in
  if bool_decide (k < 58) then k - 48 else k - 55.

Fixpoint parse36 (s : string) (v : Z) : Z :=
  match s with
  | EmptyString => v
  | String c rest => parse36 rest (36 * v + digitValue c)
  end.

(** ** routes/registrations.js *)
Module registrations.

(** [req.body.teamInfo] *)
Record TeamInput := { input_teamName : option string }.

Definition notCheckedIn : Registration.CheckIn :=
  {| Registration.isCheckedIn := false; Registration.checkInTime := None;
     Registration.checkInMethod := None; Registration.checkInLocation := None;
     Registration.checkedInBy := None |}.

(** [paymentStatus: event.registrationFee > 0 ? 'pending' : 'not-required'] *)
Definition paymentFor (event : Event.t) : Registration.PaymentStatus :=
  if bool_decide (Event.registrationFee event > 0)
  then Registration.payment_pending
  else Registration.not_required.

(** [`TEAM-${Date.now().toString(36).toUpperCase()}`] *)
Definition newTeamCode (now : Date) : string := "TEAM-" +:+ toString36 now.

(** [registrationData] of [POST /]. *)
Definition registrationData (now : Date) (newId : ObjectId) (user : User.t)
    (eventId : ObjectId) (event : Event.t) (teamInfo : option TeamInput)
    : Registration.t :=
  {| Registration._id := newId;
     Registration.user := User._id user;
     Registration.event := eventId;
     Registration.status := Registration.confirmed;
     Registration.paymentStatus := paymentFor event;
     Registration.amountPaid := Event.registrationFee event;
     Registration.teamInfo :=
       match teamInfo with
       | Some input =>
           if Event.isTeamEvent event
           then Some {| Registration.isTeamLead := true;
                        Registration.teamName := input_teamName input;
                        Registration.teamMembers := [];
                        Registration.teamCode := Some (newTeamCode now);
                        Registration.maxMembers :=
                          Js.Num (Event.teamSize_max event) |}
           else None
       | None => None
       end;
     Registration.checkIn := notCheckedIn;
     Registration.attendance := None;
     Registration.qrCode := None |}.

(** The [try] block that attaches the QR code; its [catch] only logs. *)
Definition attachQR `{Runtime} (now : Date) (registration : Registration.t)
    (eventId : ObjectId) (db : DB) : DB :=
  match qrCode.generateEventQR now (Registration._id registration) eventId with
  | Ok generated =>
      set_registrations
        (Registrations.save
           (Registration.pre_save
              (Registration.set_qrCode
                 (Some {| Registration.code := qrCode.code generated;
                          Registration.url := qrCode.dataURL generated |})
                 registration))
           (registrations db))
        db
  | Throw _ => db
  end.

(** [POST /api/registrations] *)
Definition register `{Runtime} (now : Date) (newId : ObjectId)
    (req_user_id : ObjectId) (eventId : ObjectId)
    (teamInfo : option TeamInput) (db : DB) : Response * DB :=
  match auth.authenticate req_user_id db with
  | inl res => (res, db)
  | inr req_user =>
  match events db !! eventId with
  | None => (json 404 false "Event not found", db)
  | Some event =>
  if negb (bool_decide (Event.status event = Event.approved))
  then (json 400 false "Event is not available for registration", db)
  else if negb (Event.isRegistrationOpen now event)
  then (json 400 false "Registration for this event is closed", db)
  else
  match Registrations.findOne (User._id req_user) eventId (registrations db) with
  | Some existingRegistration =>
      (json 400 false "You are already registered for this event", db)
  | None =>
  if Js.ge (Some (Event.currentParticipants event))
           (Js.toNumber (Event.maxParticipants event))
  then (json 400 false "Event is full", db)
  else
  let data := registrationData now newId req_user eventId event teamInfo in
  match Registrations.create data (registrations db) with
  | Throw error => (next error, db)
  | Ok created =>
  let db1 := set_registrations created db in
  let db2 := attachQR now (Registration.pre_save data) eventId db1 in
  match Event.addParticipant event with
  | Throw error => (next error, db2)
  | Ok event' =>
  let db3 := save_event event' db2 in
  let db4 := save_user (User.addPoints 10 "Event registration" req_user) db3 in
  (json 201 true "Successfully registered for the event", db4)
  end end end end end.

(** [DELETE /api/registrations/:id] *)
Definition cancel (now : Date) (req_user_id : ObjectId) (id : ObjectId)
    (db : DB) : Response * DB :=
  match auth.authenticate req_user_id db with
  | inl res => (res, db)
  | inr req_user =>
  match Registrations.findById id (registrations db) with
  | None => (json 404 false "Registration not found", db)
  | Some registration =>
  let isOwner := bool_decide (Registration.user registration = User._id req_user) in
  let isAdmin := bool_decide (User.role req_user = User.admin) in
  if negb isOwner && negb isAdmin
  then (json 403 false "Not authorized to cancel this registration", db)
  else
  (* populate('event'): reading [startDate] of a missing event throws *)
  match events db !! Registration.event registration with
  | None => (next "TypeError: Cannot read properties of null", db)
  | Some event =>
  if bool_decide (now >= Event.startDate event)
  then (json 400 false "Cannot cancel registration after event has started", db)
  else
  let registration' :=
    Registration.pre_save
      (Registration.set_status Registration.cancelled registration) in
  let db1 :=
    set_registrations (Registrations.save registration' (registrations db)) db in
  let db2 :=
    match Event.removeParticipant event with
    | Some event' => save_event event' db1
    | None => db1
    end in
  (json 200 true "Registration cancelled successfully", db2)
  end end end.

(** The block [if (method === 'qr-code' && qrData)] of the check-in: the
    rejection it returns, if any. *)
Definition validateQR `{Runtime} (now : Date) (method : Registration.Method)
    (qrData : option string) (registration : Registration.t)
    (event : Event.t) : option Response :=
  match method, qrData with
  | Registration.qr_code, Some qrString =>
      if bool_decide (qrString = ""%string) then None
      else
        let parsedQR := qrCode.parseQRData qrString in
        if negb (qrCode.success parsedQR)
        then Some (json 400 false "Invalid QR code format")
        else
          let validation :=
            qrCode.validateCheckInQR now (qrCode.parsed_data parsedQR)
              (Event._id event) in
          if negb (qrCode.valid validation)
          then Some (json 400 false (default ""%string (qrCode.message validation)))
          else if negb (JSON.strict_eq_string
                          (qrCode.registrationId validation)
                          (Registration._id registration))
          then Some (json 400 false "QR code does not match this registration")
          else None
  | _, _ => None
  end.

(** The authorization test of the check-in. *)
Definition mayCheckIn (req_user : User.t) (event : Event.t) : bool :=
  let isOrganizer := bool_decide (Event.organizer event = User._id req_user) in
  let isCoOrganizer :=
    existsb (fun coOrg => bool_decide (coOrg = User._id req_user))
      (Event.coOrganizers event) in
  let isAdmin := bool_decide (User.role req_user = User.admin) in
  negb (negb isOrganizer && negb isCoOrganizer && negb isAdmin).

(** [POST /api/registrations/:id/checkin]; a missing [method] is
    ['manual'], a missing [location] is the empty string. *)
Definition checkin `{Runtime} (now : Date) (req_user_id : ObjectId)
    (id : ObjectId) (method : option Registration.Method)
    (location : option string) (qrData : option string) (db : DB)
    : Response * DB :=
  match auth.authenticate req_user_id db with
  | inl res => (res, db)
  | inr req_user =>
  match Registrations.findById id (registrations db) with
  | None => (json 404 false "Registration not found", db)
  | Some registration =>
  (* populate('event'): reading [organizer] of a missing event throws *)
  match events db !! Registration.event registration with
  | None => (next "TypeError: Cannot read properties of null", db)
  | Some event =>
  if negb (mayCheckIn req_user event)
  then (json 403 false "Not authorized to check-in users for this event", db)
  else if Registration.isCheckedIn (Registration.checkIn registration)
  then (json 400 false "User is already checked in", db)
  else
  let method := default Registration.manual method in
  let location := default ""%string location in
  match validateQR now method qrData registration event with
  | Some rejection => (rejection, db)
  | None =>
  match Registration.methods.checkIn now method location
          (Some (User._id req_user)) registration with
  | Throw error => (next error, db)
  | Ok registration' =>
  let db1 :=
    set_registrations (Registrations.save registration' (registrations db)) db in
  match users db1 !! Registration.user registration with
  | None => (next "TypeError: Cannot read properties of null", db1)
  | Some user =>
  let db2 := save_user (User.addPoints 20 "Event attendance" user) db1 in
  (json 200 true "User checked in successfully", db2)
  end end end end end end.

(** The registration created for a member by [POST /join-team]. *)
Definition memberData (newId : ObjectId) (user : User.t) (eventId : ObjectId)
    (event : Event.t) (teamCode : string) (lead : Registration.TeamInfo)
    : Registration.t :=
  {| Registration._id := newId;
     Registration.user := User._id user;
     Registration.event := eventId;
     Registration.status := Registration.confirmed;
     Registration.paymentStatus := paymentFor event;
     Registration.amountPaid := Event.registrationFee event;
     Registration.teamInfo :=
       Some {| Registration.isTeamLead := false;
               Registration.teamName := Registration.teamName lead;
               Registration.teamMembers := [];
               Registration.teamCode := Some teamCode;
               Registration.maxMembers := Js.Undefined |};
     Registration.checkIn := notCheckedIn;
     Registration.attendance := None;
     Registration.qrCode := None |}.

(** [POST /api/registrations/join-team] *)
Definition joinTeam (newId : ObjectId) (req_user_id : ObjectId)
    (teamCode : string) (eventId : ObjectId) (db : DB) : Response * DB :=
  match auth.authenticate req_user_id db with
  | inl res => (res, db)
  | inr req_user =>
  match Registrations.findTeamLead teamCode eventId (registrations db) with
  | None => (json 404 false "Team not found or invalid team code", db)
  | Some teamLeadRegistration =>
  match Registrations.findOne (User._id req_user) eventId (registrations db) with
  | Some existingRegistration =>
      (json 400 false "You are already registered for this event", db)
  | None =>
  let lead :=
    default Registration.methods.emptyTeamInfo
      (Registration.teamInfo teamLeadRegistration) in
  let currentTeamSize := Z.of_nat (length (Registration.teamMembers lead)) + 1 in
  if Js.ge (Some currentTeamSize) (Js.toNumber (Registration.maxMembers lead))
  then (json 400 false "Team is already full", db)
  else
  (* populate('event'): reading [registrationFee] of a missing event throws *)
  match events db !! Registration.event teamLeadRegistration with
  | None => (next "TypeError: Cannot read properties of null", db)
  | Some event =>
  match Registrations.create
          (memberData newId req_user eventId event teamCode lead)
          (registrations db) with
  | Throw error => (next error, db)
  | Ok created =>
  let db1 := set_registrations created db in
  match Registration.methods.addTeamMember
          {| Registration.member_user := User._id req_user;
             Registration.member_name := User.name req_user;
             Registration.member_email := User.email req_user;
             Registration.member_role := "Member" |}
          teamLeadRegistration with
  | Throw error => (next error, db1)
  | Ok lead' =>
  let db2 :=
    set_registrations (Registrations.save lead' (registrations db1)) db1 in
  match Event.addParticipant event with
  | Throw error => (next error, db2)
  | Ok event' =>
  let db3 := save_event event' db2 in
  let db4 := save_user (User.addPoints 10 "Event registration" req_user) db3 in
  (json 201 true "Successfully joined the team", db4)
  end end end end end end end.

End registrations.

(** ** routes/certificates.js *)
Module certificates.

(** [GET /api/certificates/verify/:verificationCode], public: the response
    and the certificate it reports, if any. *)
Definition verify (verificationCode : string) (db : DB)
    : Response * option Certificate.t :=
  match Certificate.verifyCertificate verificationCode (certificates db) with
  | None =>
      (json 404 false "Certificate not found or invalid verification code",
       None)
  | Some certificate =>
      (json 200 true "Certificate verified successfully", Some certificate)
  end.

(** [PATCH /api/certificates/:id/revoke], behind [authorize('admin')]. *)
Definition revoke (now : Date) (req_user_id : ObjectId) (id : ObjectId)
    (reason : string) (db : DB) : Response * DB :=
  match auth.authenticate req_user_id db with
  | inl res => (res, db)
  | inr req_user =>
  if negb (bool_decide (User.role req_user = User.admin))
  then (json 403 false
          ("User role " +:+ User.roleName (User.role req_user)
           +:+ " is not authorized to access this route"), db)
  else
  match Certificate.findById id (certificates db) with
  | None => (json 404 false "Certificate not found", db)
  | Some certificate =>
  if bool_decide (Certificate.status certificate = Certificate.revoked)
  then (json 400 false "Certificate is already revoked", db)
  else
  let certificate' :=
    Certificate.revoke now (User._id req_user) reason certificate in
  (json 200 true "Certificate revoked successfully",
   set_certificates (Certificate.save certificate' (certificates db)) db)
  end end.

End certificates.

(** ** Sequences of check-in requests on one registration *)
Record CheckinCall := {
  call_now : Date;
  call_user : ObjectId;
  call_method : option Registration.Method;
  call_location : option string;
  call_qrData : option string
}.

Definition checkin_call `{Runtime} (id : ObjectId) (c : CheckinCall) (db : DB)
    : Response * DB :=
  registrations.checkin (call_now c) (call_user c) id (call_method c)
    (call_location c) (call_qrData c) db.

Fixpoint checkin_calls `{Runtime} (id : ObjectId) (calls : list CheckinCall)
    (db : DB) : list Response * DB :=
  match calls with
  | [] => ([], db)
  | c :: rest =>
      let db1 := snd (checkin_call id c db) in
      (fst (checkin_call id c db) :: fst (checkin_calls id rest db1),
       snd (checkin_calls id rest db1))
  end.

(** The [success] flag of an answer; an error handed to [next] is a failure. *)
Definition succeeded (res : Response) : bool :=
  match res with
  | json _ success _ => success
  | next _ => false
  end.

(** ** Sequences of requests, and teams *)
Inductive Request :=
| Register (now : Date) (newId req_user_id eventId : ObjectId)
    (teamInfo : option registrations.TeamInput)
| JoinTeam (newId req_user_id : ObjectId) (teamCode : string)
    (eventId : ObjectId)
| Cancel (now : Date) (req_user_id id : ObjectId)
| Checkin (now : Date) (req_user_id id : ObjectId)
    (method : option Registration.Method) (location qrData : option string).

Definition handle `{Runtime} (req : Request) (db : DB) : Response * DB :=
  match req with
  | Register now newId uid eventId teamInfo =>
      registrations.register now newId uid eventId teamInfo db
  | JoinTeam newId uid teamCode eventId =>
      registrations.joinTeam newId uid teamCode eventId db
  | Cancel now uid id => registrations.cancel now uid id db
  | Checkin now uid id method location qrData =>
      registrations.checkin now uid id method location qrData db
  end.

(** The store after a sequence of requests, handled one after the other. *)
Definition run `{Runtime} (requests : list Request) (db : DB) : DB :=
  fold_left (fun db req => snd (handle req db)) requests db.

(** The team code a registration carries, whether it is a team lead's, and
    the lead's bound. *)
Definition codeOf (r : Registration.t) : option string :=
  match Registration.teamInfo r with
  | Some ti => Registration.teamCode ti
  | None => None
  end.

Definition isLead (r : Registration.t) : bool :=
  match Registration.teamInfo r with
  | Some ti => Registration.isTeamLead ti
  | None => false
  end.

Definition maxMembersOf (r : Registration.t) : Js.Number :=
  match Registration.teamInfo r with
  | Some ti => Registration.maxMembers ti
  | None => Js.Undefined
  end.

Definition hasCode (code : string) (r : Registration.t) : bool :=
  bool_decide (codeOf r = Some code).

(** The number of registrations that share a team code. *)
Definition sharing (code : string) (l : list Registration.t) : nat :=
  length (List.filter (hasCode code) l).

(** The code generated for a new team is not in use.  The code is derived
    from the clock alone and the route does not look for it in the
    collection: this is a condition on the requests, which holds when no two
    teams are created in the same millisecond. *)
Definition freshCode (req : Request) (db : DB) : Prop :=
  match req with
  | Register now _ _ _ (Some _) =>
      sharing (registrations.newTeamCode now) (registrations db) = 0%nat
  | _ => True
  end.

Fixpoint freshCodes `{Runtime} (requests : list Request) (db : DB) : Prop :=
  match requests with
  | [] => True
  | req :: rest => freshCode req db /\ freshCodes rest (snd (handle req db))
  end.

(** The registrations of a store form teams: ids are unique; a team code
    has one lead; the registrations sharing a lead's code are the lead and
    its recorded members, no more than the lead's [maxMembers]. *)
Record teams_ok (l : list Registration.t) : Prop := {
  ids_unique : NoDup (map Registration._id l);
  lead_unique :
    forall l1 l2 code,
      In l1 l -> In l2 l -> isLead l1 = true -> isLead l2 = true ->
      codeOf l1 = Some code -> codeOf l2 = Some code ->
      Registration._id l1 = Registration._id l2;
  team_counted :
    forall lead code,
      In lead l -> isLead lead = true -> codeOf lead = Some code ->
      exists m,
        maxMembersOf lead = Js.Num m
        /\ Z.of_nat (sharing code l) = Registration.teamSize lead
        /\ Registration.teamSize lead <= m
}.

(** A team has room for its lead: [teamSize.max] of an event is at least 1
    (its default).  The routes that write events do not check it: this is a
    condition on the store. *)
Definition team_policy (db : DB) : Prop :=
  forall k e, events db !! k = Some e -> 1 <= Event.teamSize_max e.

Definition teams_invariant (db : DB) : Prop :=
  teams_ok (registrations db) /\ team_policy db.

(** ** Sequences of session-attendance calls on one registration *)
Record SessionCall := {
  mark_now : Date;
  mark_session : string;
  mark_attended : bool
}.

(** The document after a call: the saved one, or the one there was when the
    call fails. *)
Definition mark (c : SessionCall) (r : Registration.t) : Registration.t :=
  match Registration.methods.markSessionAttendance
          (mark_now c) (mark_session c) (mark_attended c) r with
  | Ok r' => r'
  | Throw _ => r
  end.

Definition markAll (calls : list SessionCall) (r : Registration.t)
    : Registration.t :=
  fold_left (fun r c => mark c r) calls r.

(** A registration as the routes create it and leave it: not checked in, no
    session, the counters undefined. *)
Definition untouched (r : Registration.t) : Prop :=
  Registration.checkIn r = registrations.notCheckedIn
  /\ Registration.attendance r = None.

(** ** Sample data for the scenarios *)
Module Sample.

Definition quote : string := String (Ascii.ascii_of_nat 34) "".

(** [JSON.stringify] on the values the samples use: strings without
    characters to escape, integers, and objects of such. *)
Definition stringify_atom (v : JSON.t) : string :=
  match v with
  | JSON.JNull => "null"
  | JSON.JBool b => if b then "true" else "false"
  | JSON.JNumber n => pretty n
  | JSON.JString s => quote +:+ s +:+ quote
  | JSON.JArray _ => "[]"
  | JSON.JObject _ => "{}"
  end.

Fixpoint stringify_fields (fields : list (string * JSON.t)) : string :=
  match fields with
  | [] => ""
  | [(k, v)] => quote +:+ k +:+ quote +:+ ":" +:+ stringify_atom v
  | (k, v) :: rest =>
      quote +:+ k +:+ quote +:+ ":" +:+ stringify_atom v +:+ ","
      +:+ stringify_fields rest
  end.

Definition stringify (v : JSON.t) : string :=
  match v with
  | JSON.JObject fields => "{" +:+ stringify_fields fields +:+ "}"
  | _ => stringify_atom v
  end.

Definition payload (type : string) (registrationId eventId : string)
    (timestamp : Z) : JSON.t :=
  JSON.JObject
    [("type", JSON.JString type);
     ("registrationId", JSON.JString registrationId);
     ("eventId", JSON.JString eventId);
     ("timestamp", JSON.JNumber timestamp)]%string.

(** The payloads the sample parser knows. *)
Definition known : list JSON.t :=
  [ payload "event-checkin" "r1" "e-workshop" 1000;
    payload "event-checkin" "r1" "e-openday" 1000;
    payload "event-checkin" "r2" "e-workshop" 1000;
    payload "team-join" "r1" "e-workshop" 1000 ].

(** A runtime for the scenarios: [JSON_parse] inverts [stringify] on the
    known payloads and throws on every other string. *)
Definition runtime : Runtime :=
  {| JSON_parse := fun s =>
       List.find (fun v => bool_decide (stringify v = s)) known;
     JSON_stringify := stringify;
     toDataURL := fun s => Ok ("data:image/png;base64," +:+ s);
     ToNumber_other := fun _ => None |}.


Definition mkUser (id name : string) (role : User.Role) : User.t :=
  {| User._id := id; User.name := name; User.email := name +:+ "@example.edu";
     User.role := role; User.points := 0; User.isActive := true |}.

Definition alice : User.t := mkUser "u-alice" "alice" User.student.
Definition bob : User.t := mkUser "u-bob" "bob" User.student.
Definition carol : User.t := mkUser "u-carol" "carol" User.student.
Definition dave : User.t := mkUser "u-dave" "dave" User.student.
Definition olga : User.t := mkUser "u-olga" "olga" User.organizer.
Definition adam : User.t := mkUser "u-adam" "adam" User.admin.

(** An approved event that starts at 2000, with the deadline at 1500. *)
Definition mkEvent (id : string) (capacity : Js.Number) (team : bool)
    (teamMax : Z) : Event.t :=
  {| Event._id := id; Event.startDate := 2000; Event.endDate := 3000;
     Event.registrationDeadline := 1500;
     Event.organizer := "u-olga"; Event.coOrganizers := [];
     Event.maxParticipants := capacity; Event.currentParticipants := 0;
     Event.registrationFee := 0; Event.status := Event.approved;
     Event.isTeamEvent := team; Event.teamSize_max := teamMax |}.

(** [maxParticipants = 1], [registrationFee = 0] *)
Definition workshop : Event.t := mkEvent "e-workshop" (Js.Num 1) false 1.
(** [maxParticipants] unset *)
Definition openDay : Event.t := mkEvent "e-openday" Js.Undefined false 1.
(** [maxParticipants = null] *)
Definition fair : Event.t := mkEvent "e-fair" Js.Null false 1.
(** a team event with [teamSize.max = 3] *)
Definition hackathon : Event.t := mkEvent "e-hack" (Js.Num 10) true 3.

Definition db0 : DB :=
  {| events :=
       <["e-workshop" := workshop]>
         (<["e-openday" := openDay]>
            (<["e-fair" := fair]> (<["e-hack" := hackathon]> ∅)));
     users :=
       <["u-alice" := alice]>
         (<["u-bob" := bob]>
            (<["u-carol" := carol]>
               (<["u-dave" := dave]>
                  (<["u-olga" := olga]> (<["u-adam" := adam]> ∅)))));
     registrations := [];
     certificates := [] |}.

(** The capacity scenario: alice registers for the workshop, bob tries to,
    alice cancels before the start. *)
Definition alice_registers : Response * DB :=
  @registrations.register runtime 1000 "r1" "u-alice" "e-workshop" None db0.
Definition bob_registers : Response * DB :=
  @registrations.register runtime 1001 "r2" "u-bob" "e-workshop" None
    (snd alice_registers).
Definition alice_cancels : Response * DB :=
  registrations.cancel 1002 "u-alice" "r1" (snd bob_registers).
(** alice asks again while the workshop is full, and again after her
    cancellation. *)
Definition alice_again_full : Response * DB :=
  @registrations.register runtime 1001 "r3" "u-alice" "e-workshop" None
    (snd alice_registers).
Definition alice_again_cancelled : Response * DB :=
  @registrations.register runtime 1003 "r3" "u-alice" "e-workshop" None
    (snd alice_cancels).

(** alice and her registration [r1] as stored after [alice_registers]. *)
Definition alice10 : User.t := User.addPoints 10 "Event registration" alice.
Definition r1_code : string :=
  stringify (payload "event-checkin" "r1" "e-workshop" 1000).
Definition r1 : Registration.t :=
  {| Registration._id := "r1"; Registration.user := "u-alice";
     Registration.event := "e-workshop";
     Registration.status := Registration.confirmed;
     Registration.paymentStatus := Registration.not_required;
     Registration.amountPaid := 0; Registration.teamInfo := None;
     Registration.checkIn := registrations.notCheckedIn;
     Registration.attendance := None;
     Registration.qrCode :=
       Some {| Registration.code := r1_code;
               Registration.url := "data:image/png;base64," +:+ r1_code |} |}.
(** the workshop once alice is in *)
Definition workshop1 : Event.t := Event.set_currentParticipants 1 workshop.

(** alice asks for the event without capacity, and for the one whose
    capacity is [null]. *)
Definition alice_registers_openDay : Response * DB :=
  @registrations.register runtime 1000 "r1" "u-alice" "e-openday" None db0.
Definition alice_registers_fair : Response * DB :=
  @registrations.register runtime 1000 "r1" "u-alice" "e-fair" None db0.


(** Check-in requests on alice's registration [r1]: by alice herself with
    the method [self-checkin]; by the organizer with a QR payload that is
    not JSON, with an empty one, with one of another type; by the organizer
    by hand. *)
Definition alice_self_checkin : Response * DB :=
  @registrations.checkin runtime 2100 "u-alice" "r1"
    (Some Registration.self_checkin) None None (snd alice_registers).
Definition olga_checks_in : Response * DB :=
  @registrations.checkin runtime 2100 "u-olga" "r1" None None None
    (snd alice_registers).

(** What the validation block answers at time [now] for a known payload
    presented for alice's registration [r1] of the workshop. *)
Definition scan (now : Date) (type registrationId eventId : string)
    (timestamp : Z) : option Response :=
  @registrations.validateQR runtime now Registration.qr_code
    (Some (stringify (payload type registrationId eventId timestamp)))
    r1 workshop1.

(** The requests that follow the organizer's: by the organizer again, by
    the admin with a QR payload that is not JSON, by alice with the method
    [self-checkin]. *)
Definition later_calls : list CheckinCall :=
  [ {| call_now := 2200; call_user := "u-olga"; call_method := None;
       call_location := None; call_qrData := None |};
    {| call_now := 2300; call_user := "u-adam";
       call_method := Some Registration.qr_code;
       call_location := Some "gate"%string;
       call_qrData := Some "garbage"%string |};
    {| call_now := 2400; call_user := "u-alice";
       call_method := Some Registration.self_checkin;
       call_location := None; call_qrData := None |} ].

(** Attendance calls on alice's registration: three sessions, the first one
    toggled off and on again, the other two never attended. *)
Definition attendance_calls : list SessionCall :=
  [ {| mark_now := 2100; mark_session := "keynote"; mark_attended := true |};
    {| mark_now := 2200; mark_session := "lab"; mark_attended := false |};
    {| mark_now := 2300; mark_session := "keynote"; mark_attended := false |};
    {| mark_now := 2400; mark_session := "keynote"; mark_attended := true |};
    {| mark_now := 2500; mark_session := "keynote"; mark_attended := true |};
    {| mark_now := 2600; mark_session := "panel"; mark_attended := false |}
  ]%string.

(** alice's registration with the two counters written as 0 by hand. *)
Definition r1_counted : Registration.t :=
  Registration.set_attendance
    (Some {| Registration.sessions := []; Registration.totalSessions := 0;
             Registration.attendedSessions := 0;
             Registration.attendancePercentage := 0%float |})
    r1.

(** The team scenario on the hackathon ([teamSize.max = 3]): alice registers
    with the team name "Rocket"; bob, carol and dave join with her code. *)
Definition rocket : string := registrations.newTeamCode 1000.
Definition team_requests : list Request :=
  [ Register 1000 "t1" "u-alice" "e-hack"
      (Some {| registrations.input_teamName := Some "Rocket"%string |});
    JoinTeam "t2" "u-bob" rocket "e-hack";
    JoinTeam "t3" "u-carol" rocket "e-hack" ].
Definition team_of_three : DB := @run runtime team_requests db0.
Definition dave_joins : Response * DB :=
  registrations.joinTeam "t4" "u-dave" rocket "e-hack" team_of_three.

(** Two teams created at the same clock reading: alice and dave register a
    team each at 1000, bob and carol join with alice's code. *)
Definition same_tick_requests : list Request :=
  [ Register 1000 "t1" "u-alice" "e-hack"
      (Some {| registrations.input_teamName := Some "Rocket"%string |});
    Register 1000 "t5" "u-dave" "e-hack"
      (Some {| registrations.input_teamName := Some "Comet"%string |});
    JoinTeam "t2" "u-bob" rocket "e-hack";
    JoinTeam "t3" "u-carol" rocket "e-hack" ].
Definition two_leads : DB := @run runtime same_tick_requests db0.
(** The same requests with dave one millisecond later. *)
Definition next_tick_requests : list Request :=
  [ Register 1000 "t1" "u-alice" "e-hack"
      (Some {| registrations.input_teamName := Some "Rocket"%string |});
    Register 1001 "t5" "u-dave" "e-hack"
      (Some {| registrations.input_teamName := Some "Comet"%string |});
    JoinTeam "t2" "u-bob" rocket "e-hack";
    JoinTeam "t3" "u-carol" rocket "e-hack" ].

(** A team event with [teamSize] from 0 to 0, and alice registering a team
    for it. *)
Definition solo : Event.t := mkEvent "e-solo" (Js.Num 10) true 0.
Definition alice_leads_solo : Response * DB :=
  @registrations.register runtime 1000 "s1" "u-alice" "e-solo"
    (Some {| registrations.input_teamName := Some "Solo"%string |})
    (save_event solo db0).

(** Certificates: alice's participation certificate, and bob's, which is
    still pending. *)
Definition mkCertificate (id user code : string) (st : Certificate.Status)
    : Certificate.t :=
  {| Certificate._id := id; Certificate.user := user;
     Certificate.event := "e-workshop"; Certificate.registration := "r1";
     Certificate.certificateId := "CERT-" +:+ id;
     Certificate.type := Certificate.participation;
     Certificate.verificationCode := code; Certificate.status := st;
     Certificate.revokedAt := None; Certificate.revokedBy := None;
     Certificate.revokedReason := None |}.

Definition db_certificates : DB :=
  set_certificates
    [ mkCertificate "c1" "u-alice" "4F7K2M9QX1AB" Certificate.active;
      mkCertificate "c2" "u-bob" "8H3N5P0RZ6CD" Certificate.pending ]
    db0.

Definition adam_revokes : Response * DB :=
  certificates.revoke 5000 "u-adam" "c1" "issued by mistake" db_certificates.

End Sample.

(** * The rest of the models, of the middleware and of the routes

    The virtuals and the validation of [models/Event.js], [addBadge] of
    [models/User.js], [removeTeamMember] of [models/Registration.js], the
    download and share records of [models/Certificate.js],
    [models/ForumPost.js] with the like and apply routes of
    [routes/forum.js], [generateBulkEventQRs] of [utils/qrCode.js],
    [authorizeEventAccess] and [sensitiveOperationLimit] of
    [middleware/auth.js], the team-name and feedback routes of
    [routes/registrations.js] and the delete route of [routes/events.js].
    Fields that the records above leave out are kept in records of their
    own. *)

(** ** models/Event.js: the virtuals and the validation *)
Module EventMore.

(** virtual [eventStatus] *)
Inductive Phase := upcoming | ongoing | completed.

#[global] Instance Phase_eq_dec : EqDecision Phase :=
  ltac:(solve_decision).

Definition eventStatus (now : Date) (this : Event.t) : Phase :=
  if bool_decide (now < Event.startDate this) then upcoming
  else if bool_decide (now >= Event.startDate this)
          && bool_decide (now <= Event.endDate this)
  then ongoing
  else completed.

(** The order of the phases in time. *)
Definition rank (p : Phase) : Z :=
  match p with
  | upcoming => 0
  | ongoing => 1
  | completed => 2
  end.

(** [1000 * 60 * 60 * 24] *)
Definition day : Z := 1000 * 60 * 60 * 24.

(** [Math.ceil(a / d)] for integers [a] and [d > 0]; the quotients of
    millisecond counts by a day are far inside the range where the
    floating-point division rounds to the same integer. *)
Definition ceilDiv (a d : Z) : Z := - ((- a) `div` d).

(** virtual [duration], in days *)
Definition duration (this : Event.t) : Z :=
  ceilDiv (Z.abs (Event.endDate this - Event.startDate this)) day.

(** [pre('save')]: the validation of the dates and of the team sizes;
    [teamSize_min] is [this.teamSize.min]. *)
Definition pre_save (teamSize_min : Z) (this : Event.t) : Result Event.t :=
  if bool_decide (Event.startDate this >= Event.endDate this)
  then Throw "End date must be after start date"
  else if bool_decide (Event.registrationDeadline this > Event.startDate this)
  then Throw "Registration deadline must be before or on start date"
  else if Event.isTeamEvent this
          && bool_decide (teamSize_min > Event.teamSize_max this)
  then Throw "Minimum team size cannot be greater than maximum team size"
  else Ok this.

(** [removeParticipant()] with the validation that its [this.save()] runs:
    the saved document, the validation error, or the document as it is when
    the counter is 0 (no save). *)
Definition removeParticipant (teamSize_min : Z) (this : Event.t)
    : Result Event.t :=
  if bool_decide (Event.currentParticipants this > 0)
  then pre_save teamSize_min
         (Event.set_currentParticipants (Event.currentParticipants this - 1)
            this)
  else Ok this.

Definition set_status (s : Event.Status) (this : Event.t) : Event.t :=
  {| Event._id := Event._id this; Event.startDate := Event.startDate this;
     Event.endDate := Event.endDate this;
     Event.registrationDeadline := Event.registrationDeadline this;
     Event.organizer := Event.organizer this;
     Event.coOrganizers := Event.coOrganizers this;
     Event.maxParticipants := Event.maxParticipants this;
     Event.currentParticipants := Event.currentParticipants this;
     Event.registrationFee := Event.registrationFee this;
     Event.status := s;
     Event.isTeamEvent := Event.isTeamEvent this;
     Event.teamSize_max := Event.teamSize_max this |}.

End EventMore.

(** ** models/User.js: [addBadge], on the array [this.badges] *)
Module Badges.

Record Badge := {
  name : string;
  icon : string;
  description : string;
  earnedAt : Date
}.

(** [addBadge(badge)]: the array after the call. *)
Definition addBadge (badge : Badge) (badges : list Badge) : list Badge :=
  match List.find (fun b => bool_decide (name b = name badge)) badges with
  | Some existingBadge => badges
  | None => badges ++ [badge]
  end.

Definition addBadges (new : list Badge) (badges : list Badge) : list Badge :=
  fold_left (fun bs b => addBadge b bs) new badges.

End Badges.

(** ** models/Registration.js: [removeTeamMember] *)
Module RegistrationMore.

Definition keep_others (userId : ObjectId) (m : Registration.TeamMember)
    : bool :=
  negb (bool_decide (Registration.member_user m = userId)).

(** [this.teamInfo.teamMembers = this.teamInfo.teamMembers.filter(...)] *)
Definition filter_members (userId : ObjectId) (ti : Registration.TeamInfo)
    : Registration.TeamInfo :=
  {| Registration.isTeamLead := Registration.isTeamLead ti;
     Registration.teamName := Registration.teamName ti;
     Registration.teamMembers :=
       List.filter (keep_others userId) (Registration.teamMembers ti);
     Registration.teamCode := Registration.teamCode ti;
     Registration.maxMembers := Registration.maxMembers ti |}.

(** [removeTeamMember(userId)] *)
Definition removeTeamMember (userId : ObjectId) (this : Registration.t)
    : Registration.t :=
  match Registration.teamInfo this with
  | Some ti =>
      Registration.pre_save
        (Registration.set_teamInfo (Some (filter_members userId ti)) this)
  | None => this
  end.

Definition members (this : Registration.t) : list Registration.TeamMember :=
  match Registration.teamInfo this with
  | Some ti => Registration.teamMembers ti
  | None => []
  end.

End RegistrationMore.

(** ** models/Certificate.js: downloads and shares, on their sub-documents *)
Module CertificateMore.

Record DownloadRecord := {
  downloadedAt : Date;
  ipAddress : string;
  userAgent : string
}.

Record Downloads := {
  count : Z;                          (* default: 0 *)
  lastDownloaded : option Date;
  downloadHistory : list DownloadRecord
}.

(** [l.slice(-n)] *)
Definition lastN {A} (n : nat) (l : list A) : list A :=
  skipn (length l - n) l.

(** [recordDownload(ipAddress, userAgent)]; [now] is [new Date()]. *)
Definition recordDownload (now : Date) (ip ua : string) (d : Downloads)
    : Downloads :=
  let history :=
    downloadHistory d
      ++ [{| downloadedAt := now; ipAddress := ip; userAgent := ua |}] in
  {| count := count d + 1;
     lastDownloaded := Some now;
     downloadHistory :=
       if bool_decide (Z.of_nat (length history) > 100)
       then lastN 100 history else history |}.

Inductive Platform := linkedin | twitter | facebook.

Record Sharing := {
  isPublic : bool;
  shareCount : Z;                     (* default: 0 *)
  shares_linkedin : Js.Number;        (* socialShares.*: no default *)
  shares_twitter : Js.Number;
  shares_facebook : Js.Number
}.

Definition socialShares (p : Platform) (s : Sharing) : Js.Number :=
  match p with
  | linkedin => shares_linkedin s
  | twitter => shares_twitter s
  | facebook => shares_facebook s
  end.

(** Truthiness of a counter: a number other than 0. *)
Definition truthy (v : Js.Number) : bool :=
  match v with
  | Js.Num n => negb (bool_decide (n = 0))
  | _ => false
  end.

Definition increment (v : Js.Number) : Js.Number :=
  match v with
  | Js.Num n => Js.Num (n + 1)
  | other => other
  end.

(** [recordShare(platform)] *)
Definition recordShare (p : Platform) (s : Sharing) : Sharing :=
  let bump (q : Platform) :=
    if truthy (socialShares p s)
    then match p, q with
         | linkedin, linkedin | twitter, twitter | facebook, facebook =>
             increment (socialShares q s)
         | _, _ => socialShares q s
         end
    else socialShares q s in
  {| isPublic := isPublic s;
     shareCount := shareCount s + 1;
     shares_linkedin := bump linkedin;
     shares_twitter := bump twitter;
     shares_facebook := bump facebook |}.

(** Calls one after the other. *)
Definition recordDownloads (calls : list DownloadRecord) (d : Downloads)
    : Downloads :=
  fold_left
    (fun d c => recordDownload (downloadedAt c) (ipAddress c) (userAgent c) d)
    calls d.

Definition recordShares (ps : list Platform) (s : Sharing) : Sharing :=
  fold_left (fun s p => recordShare p s) ps s.

End CertificateMore.

(** ** utils/qrCode.js: the codes of many registrations *)
Module qrCodeMore.

Record BulkEntry := {
  registrationId : ObjectId;
  userId : ObjectId;
  qrCode_ : qrCode.Generated
}.

(** The loop of [generateBulkEventQRs]; each registration comes with the
    reading of the clock in its turn, [qrCodes] is the array so far. *)
Fixpoint loop `{Runtime} (registrations : list (Date * Registration.t))
    (qrCodes : list BulkEntry) : Result (list BulkEntry) :=
  match registrations with
  | [] => Ok qrCodes
  | (now, registration) :: rest =>
      match qrCode.generateEventQR now (Registration._id registration)
              (Registration.event registration) with
      | Ok qr =>
          loop rest
            (qrCodes
               ++ [{| registrationId := Registration._id registration;
                      userId := Registration.user registration;
                      qrCode_ := qr |}])
      | Throw message => Throw message
      end
  end.

(** [generateBulkEventQRs(registrations)] *)
Definition generateBulkEventQRs `{Runtime}
    (registrations : list (Date * Registration.t)) : Result (list BulkEntry) :=
  match loop registrations [] with
  | Ok qrCodes => Ok qrCodes
  | Throw message => Throw ("Failed to generate bulk QR codes: " +:+ message)
  end.

(** The entry made for a registration. *)
Definition entryOf `{Runtime} (turn : Date * Registration.t) (e : BulkEntry)
    : Prop :=
  qrCode.generateEventQR (fst turn) (Registration._id (snd turn))
    (Registration.event (snd turn)) = Ok (qrCode_ e)
  /\ registrationId e = Registration._id (snd turn)
  /\ userId e = Registration.user (snd turn).

End qrCodeMore.

(** ** middleware/auth.js: access to an event, and the limit on attempts *)
Module authMore.

(** [authorizeEventAccess], after [authenticate]; [eventId] is
    [req.params.id || req.params.eventId]. *)
Definition authorizeEventAccess (req_user : User.t) (eventId : string)
    (db : DB) : Response + Event.t :=
  if bool_decide (eventId = ""%string)
  then inl (json 400 false "Event ID is required")
  else
  match events db !! eventId with
  | None => inl (json 404 false "Event not found")
  | Some event =>
      let isAuthorized :=
        bool_decide (User.role req_user = User.admin)
        || bool_decide (Event.organizer event = User._id req_user)
        || existsb (fun coOrg => bool_decide (coOrg = User._id req_user))
             (Event.coOrganizers event) in
      if negb isAuthorized
      then inl (json 403 false "Not authorized to access this event")
      else inr event
  end.

(** An entry of [req.app.locals.userAttempts]. *)
Record Attempts := {
  count : Z;
  firstAttempt : Date
}.

Definition windowMs : Z := 15 * 60 * 1000.
Definition maxAttempts : Z := 5.

Definition tooMany : Response :=
  json 429 false "Too many attempts. Please try again later.".

(** [sensitiveOperationLimit]: the rejection, if any ([None] is [next()]),
    and the table afterwards.  The table is one object shared by all the
    requests, updated in place: the count it holds grows also when the
    request is rejected. *)
Definition sensitiveOperationLimit (now : Date) (userId : ObjectId)
    (userAttempts : gmap ObjectId Attempts)
    : option Response * gmap ObjectId Attempts :=
  match userAttempts !! userId with
  | None =>
      (None, <[userId := {| count := 1; firstAttempt := now |}]> userAttempts)
  | Some a =>
      let timePassed := now - firstAttempt a in
      if bool_decide (timePassed > windowMs)
      then (None,
            <[userId := {| count := 1; firstAttempt := now |}]> userAttempts)
      else
        let a' := {| count := count a + 1; firstAttempt := firstAttempt a |} in
        let userAttempts' := <[userId := a']> userAttempts in
        if bool_decide (count a' > maxAttempts)
        then (Some tooMany, userAttempts')
        else (None, userAttempts')
  end.

(** The requests of one user at the given times, one after the other. *)
Fixpoint attempts (userId : ObjectId) (times : list Date)
    (userAttempts : gmap ObjectId Attempts)
    : list (option Response) * gmap ObjectId Attempts :=
  match times with
  | [] => ([], userAttempts)
  | now :: rest =>
      let r := sensitiveOperationLimit now userId userAttempts in
      (fst r :: fst (attempts userId rest (snd r)),
       snd (attempts userId rest (snd r)))
  end.

End authMore.

(** ** routes/registrations.js: the team name and the feedback *)
Module registrationsMore.

Definition rename (teamName : string) (ti : Registration.TeamInfo)
    : Registration.TeamInfo :=
  {| Registration.isTeamLead := Registration.isTeamLead ti;
     Registration.teamName := Some teamName;
     Registration.teamMembers := Registration.teamMembers ti;
     Registration.teamCode := Registration.teamCode ti;
     Registration.maxMembers := Registration.maxMembers ti |}.

(** [PUT /api/registrations/:id/team] *)
Definition updateTeam (req_user_id : ObjectId) (id : ObjectId)
    (teamName : option string) (db : DB) : Response * DB :=
  match auth.authenticate req_user_id db with
  | inl res => (res, db)
  | inr req_user =>
  match Registrations.findById id (registrations db) with
  | None => (json 404 false "Registration not found", db)
  | Some registration =>
  if negb (isLead registration)
     || negb (bool_decide (Registration.user registration = User._id req_user))
  then (json 403 false "Only team lead can update team information", db)
  else
  let db1 :=
    match teamName, Registration.teamInfo registration with
    | Some name, Some ti =>
        if bool_decide (name = ""%string) then db
        else
          set_registrations
            (Registrations.save
               (Registration.pre_save
                  (Registration.set_teamInfo (Some (rename name ti))
                     registration))
               (registrations db))
            db
    | _, _ => db
    end in
  (json 200 true "Team information updated successfully", db1)
  end end.

(** [req.body] of the feedback route, and the sub-document [feedback] of a
    registration. *)
Record FeedbackInput := {
  input_rating : Z;
  input_comments : option string;
  input_recommendations : option string;
  input_wouldRecommend : option bool
}.

Record Feedback := {
  rating : Z;
  comments : option string;
  recommendations : option string;
  wouldRecommend : option bool;
  submittedAt : Date
}.

(** The store with the [feedback] sub-documents of the registrations, kept
    by the registration's [_id]. *)
Record Store := {
  db : DB;
  feedbacks : gmap ObjectId Feedback
}.

(** [submitFeedback(feedbackData)]; [now] is [new Date()]. *)
Definition submitFeedback (now : Date) (feedbackData : FeedbackInput)
    (this : Registration.t) (st : Store) : Store :=
  {| db :=
       set_registrations
         (Registrations.save (Registration.pre_save this)
            (registrations (db st)))
         (db st);
     feedbacks :=
       <[Registration._id this :=
           {| rating := input_rating feedbackData;
              comments := input_comments feedbackData;
              recommendations := input_recommendations feedbackData;
              wouldRecommend := input_wouldRecommend feedbackData;
              submittedAt := now |}]> (feedbacks st) |}.

(** [POST /api/registrations/:id/feedback] *)
Definition feedback (now : Date) (req_user_id : ObjectId) (id : ObjectId)
    (body : FeedbackInput) (st : Store) : Response * Store :=
  match auth.authenticate req_user_id (db st) with
  | inl res => (res, st)
  | inr req_user =>
  match Registrations.findById id (registrations (db st)) with
  | None => (json 404 false "Registration not found", st)
  | Some registration =>
  if negb (bool_decide (Registration.user registration = User._id req_user))
  then (json 403 false
          "Not authorized to submit feedback for this registration", st)
  else
  (* populate('event'): reading [endDate] of a missing event throws *)
  match events (db st) !! Registration.event registration with
  | None => (next "TypeError: Cannot read properties of null", st)
  | Some event =>
  if bool_decide (now < Event.endDate event)
  then (json 400 false "Cannot submit feedback before event completion", st)
  else
  match feedbacks st !! Registration._id registration with
  | Some given => (json 400 false "Feedback has already been submitted", st)
  | None =>
  let st1 := submitFeedback now body registration st in
  let st2 :=
    {| db := save_user (User.addPoints 5 "Event feedback" req_user) (db st1);
       feedbacks := feedbacks st1 |} in
  (json 200 true "Feedback submitted successfully", st2)
  end end end end.

End registrationsMore.

(** ** routes/events.js: deleting an event *)
Module eventRoutes.

(** [Registration.countDocuments({ event })] *)
Definition registrationCount (eventId : ObjectId) (l : list Registration.t)
    : Z :=
  Z.of_nat
    (length
       (List.filter (fun r => bool_decide (Registration.event r = eventId)) l)).

Definition set_events (m : gmap ObjectId Event.t) (db : DB) : DB :=
  {| events := m; users := users db;
     registrations := registrations db; certificates := certificates db |}.

(** [DELETE /api/events/:id], behind [authenticate] and
    [authorizeEventAccess].  As in [addParticipant], [save()] is the write
    of the document: the stored events have passed the validation of their
    dates, and the status takes no part in it. *)
Definition deleteEvent (req_user_id : ObjectId) (id : string) (db : DB)
    : Response * DB :=
  match auth.authenticate req_user_id db with
  | inl res => (res, db)
  | inr req_user =>
  match authMore.authorizeEventAccess req_user id db with
  | inl res => (res, db)
  | inr event =>
  let count := registrationCount (Event._id event) (registrations db) in
  if bool_decide (count > 0)
     && negb (bool_decide (User.role req_user = User.admin))
  then (json 400 false
          "Cannot delete event with existing registrations. Cancel the event instead.",
        db)
  else if bool_decide (count > 0)
  then (json 200 true "Event cancelled successfully",
        save_event (EventMore.set_status Event.cancelled event) db)
  else (json 200 true "Event deleted successfully",
        set_events (delete (Event._id event) (events db)) db)
  end end.

End eventRoutes.

(** ** The counter of an event and its capacity *)



(** Events are stored under their [_id]. *)
Definition keyed (db : DB) : Prop :=
  forall k e, events db !! k = Some e -> Event._id e = k.

(** ** models/ForumPost.js *)
Module ForumPost.

(** An entry of [likes] or of [bookmarks]: the user and the time. *)
Record Mark := {
  mark_user : ObjectId;
  markedAt : Date                     (* default: Date.now *)
}.

Record View := {
  view_user : ObjectId;
  viewedAt : Date;                    (* default: Date.now *)
  ipAddress : string
}.

Record Reply := {
  reply_author : ObjectId;
  reply_content : string
}.

Inductive ApplicationStatus := pending | accepted | rejected.

Record Application := {
  application_id : ObjectId;
  application_user : ObjectId;
  application_message : string;
  skills : list string;
  appliedAt : Date;                   (* default: Date.now *)
  application_status : ApplicationStatus   (* default: pending *)
}.

Record Member := {
  member_user : ObjectId;
  member_role : string;
  joinedAt : Date;                    (* default: Date.now *)
  member_status : ApplicationStatus   (* default: pending *)
}.

Record TeamFormation := {
  isLookingForTeam : bool;            (* default: false *)
  maxTeamSize : Js.Number;            (* no default *)
  currentTeamSize : Z;                (* default: 1 *)
  teamMembers : list Member;
  applications : list Application;
  isTeamComplete : bool               (* default: false *)
}.

(** The counters of [analytics]; the engagement score, a floating-point
    number computed from them, is left out. *)
Record Analytics := {
  viewCount : Z;
  likeCount : Z;
  replyCount : Z;
  bookmarkCount : Z
}.

Record t := {
  _id : ObjectId;
  author : ObjectId;
  likes : list Mark;
  bookmarks : list Mark;
  views : list View;
  replies : list Reply;
  teamFormation : TeamFormation;
  analytics : Analytics
}.

Definition set_likes (l : list Mark) (this : t) : t :=
  {| _id := _id this; author := author this; likes := l;
     bookmarks := bookmarks this; views := views this;
     replies := replies this; teamFormation := teamFormation this;
     analytics := analytics this |}.

Definition set_bookmarks (l : list Mark) (this : t) : t :=
  {| _id := _id this; author := author this; likes := likes this;
     bookmarks := l; views := views this;
     replies := replies this; teamFormation := teamFormation this;
     analytics := analytics this |}.

Definition set_views (l : list View) (this : t) : t :=
  {| _id := _id this; author := author this; likes := likes this;
     bookmarks := bookmarks this; views := l;
     replies := replies this; teamFormation := teamFormation this;
     analytics := analytics this |}.

Definition set_replies (l : list Reply) (this : t) : t :=
  {| _id := _id this; author := author this; likes := likes this;
     bookmarks := bookmarks this; views := views this;
     replies := l; teamFormation := teamFormation this;
     analytics := analytics this |}.

Definition set_teamFormation (tf : TeamFormation) (this : t) : t :=
  {| _id := _id this; author := author this; likes := likes this;
     bookmarks := bookmarks this; views := views this;
     replies := replies this; teamFormation := tf;
     analytics := analytics this |}.

(** [pre('save')]: the counters are the lengths of the arrays. *)
Definition pre_save (this : t) : t :=
  {| _id := _id this; author := author this; likes := likes this;
     bookmarks := bookmarks this; views := views this;
     replies := replies this; teamFormation := teamFormation this;
     analytics :=
       {| viewCount := Z.of_nat (length (views this));
          likeCount := Z.of_nat (length (likes this));
          replyCount := Z.of_nat (length (replies this));
          bookmarkCount := Z.of_nat (length (bookmarks this)) |} |}.

Definition by_user (userId : ObjectId) (m : Mark) : bool :=
  bool_decide (mark_user m = userId).

(** [addLike(userId)]; [now] is the [Date.now] of the new entry. *)
Definition addLike (now : Date) (userId : ObjectId) (this : t) : t :=
  match List.find (by_user userId) (likes this) with
  | Some existingLike => this
  | None =>
      pre_save
        (set_likes (likes this ++ [{| mark_user := userId; markedAt := now |}])
           this)
  end.

(** [removeLike(userId)] *)
Definition removeLike (userId : ObjectId) (this : t) : t :=
  pre_save
    (set_likes (List.filter (fun like => negb (by_user userId like)) (likes this))
       this).

(** [addBookmark(userId)] *)
Definition addBookmark (now : Date) (userId : ObjectId) (this : t) : t :=
  match List.find (by_user userId) (bookmarks this) with
  | Some existingBookmark => this
  | None =>
      pre_save
        (set_bookmarks
           (bookmarks this ++ [{| mark_user := userId; markedAt := now |}])
           this)
  end.

(** [view.user === userId && view.viewedAt > oneHourAgo] *)
Definition recent (now : Date) (userId : ObjectId) (view : View) : bool :=
  bool_decide (view_user view = userId)
  && bool_decide (viewedAt view > now - 60 * 60 * 1000).

(** [addView(userId, ipAddress)]; [now] is [Date.now()]. *)
Definition addView (now : Date) (userId : ObjectId) (ip : string) (this : t)
    : t :=
  match List.find (recent now userId) (views this) with
  | Some recentView => this
  | None =>
      pre_save
        (set_views
           (views this
              ++ [{| view_user := userId; viewedAt := now; ipAddress := ip |}])
           this)
  end.

(** [addReply(replyData)] *)
Definition addReply (replyData : Reply) (this : t) : t :=
  pre_save (set_replies (replies this ++ [replyData]) this).

(** [applyForTeam(userId, applicationData)]; [newId] is the [_id] given to
    the new sub-document, [now] its [appliedAt]. *)
Definition applyForTeam (now : Date) (newId : ObjectId) (userId : ObjectId)
    (message : string) (skills_ : list string) (this : t) : Result t :=
  let tf := teamFormation this in
  if negb (isLookingForTeam tf)
  then Throw "This post is not looking for team members"
  else if isTeamComplete tf
  then Throw "Team is already complete"
  else
    match List.find (fun app => bool_decide (application_user app = userId))
            (applications tf) with
    | Some existingApplication =>
        Throw "You have already applied for this team"
    | None =>
        Ok (pre_save
              (set_teamFormation
                 {| isLookingForTeam := isLookingForTeam tf;
                    maxTeamSize := maxTeamSize tf;
                    currentTeamSize := currentTeamSize tf;
                    teamMembers := teamMembers tf;
                    applications :=
                      applications tf
                        ++ [{| application_id := newId;
                               application_user := userId;
                               application_message := message;
                               skills := skills_;
                               appliedAt := now;
                               application_status := pending |}];
                    isTeamComplete := isTeamComplete tf |}
                 this))
    end.





Definition applicants (this : t) : list ObjectId :=
  map application_user (applications (teamFormation this)).

(** Two views of one user lie at least an hour apart, the later one
    further down the array. *)
Definition apart (earlier later : View) : Prop :=
  view_user earlier = view_user later ->
  viewedAt later - viewedAt earlier >= 60 * 60 * 1000.

Definition spaced (l : list View) : Prop := ForallOrdPairs apart l.

(** Calls of [addView] one after the other. *)
Definition addViews (calls : list View) (this : t) : t :=
  fold_left
    (fun post c => addView (viewedAt c) (view_user c) (ipAddress c) post)
    calls this.

End ForumPost.

(** ** routes/forum.js *)
Module forum.

(** [haystack.includes(needle)] *)
Fixpoint includes (needle haystack : string) : bool :=
  String.prefix needle haystack
  || match haystack with
     | EmptyString => false
     | String _ rest => includes needle rest
     end.

(** [POST /api/forum/:id/like]; the posts are kept by [_id].  In this
    route and in the next, [id] is a well-formed id ([findById] on another
    string rejects with a CastError, which goes to the error handler), and
    the save of the post is the write: a save that the database refuses is
    not modelled. *)
Definition like (now : Date) (req_user_id : ObjectId) (id : ObjectId)
    (db : DB) (posts : gmap ObjectId ForumPost.t)
    : Response * gmap ObjectId ForumPost.t :=
  match auth.authenticate req_user_id db with
  | inl res => (res, posts)
  | inr req_user =>
  match posts !! id with
  | None => (json 404 false "Forum post not found", posts)
  | Some post =>
  let hasLiked :=
    existsb (ForumPost.by_user (User._id req_user)) (ForumPost.likes post) in
  let post' :=
    if hasLiked then ForumPost.removeLike (User._id req_user) post
    else ForumPost.addLike now (User._id req_user) post in
  (json 200 true (if hasLiked then "Post unliked" else "Post liked"),
   <[ForumPost._id post' := post']> posts)
  end end.

(** [POST /api/forum/:id/apply], with its [catch]: an error is answered 400
    when its text is one that the [catch] looks for, and handed to the error
    handler otherwise. *)
Definition apply (now : Date) (newId : ObjectId) (req_user_id : ObjectId)
    (id : ObjectId) (message : string) (skills : list string)
    (db : DB) (posts : gmap ObjectId ForumPost.t)
    : Response * gmap ObjectId ForumPost.t :=
  match auth.authenticate req_user_id db with
  | inl res => (res, posts)
  | inr req_user =>
  match posts !! id with
  | None => (json 404 false "Forum post not found", posts)
  | Some post =>
  match ForumPost.applyForTeam now newId (User._id req_user) message skills
          post with
  | Ok post' =>
      (json 200 true "Team application submitted successfully",
       <[ForumPost._id post' := post']> posts)
  | Throw error =>
      if includes "already applied" error
         || includes "not looking for team" error
         || includes "already complete" error
      then (json 400 false error, posts)
      else (next error, posts)
  end end end.

End forum.

(** ** Sample data for the rest of the code *)
Module Sample2.

Definition badge (n : string) (at_ : Date) : Badges.Badge :=
  {| Badges.name := n; Badges.icon := "trophy";
     Badges.description := "Won an event"; Badges.earnedAt := at_ |}.

Definition eve : Registration.TeamMember :=
  {| Registration.member_user := "u-eve"; Registration.member_name := "Eve";
     Registration.member_email := "eve@example.org";
     Registration.member_role := "Member" |}.

Definition lead : Registration.t :=
  {| Registration._id := "r-lead"; Registration.user := "u-alice";
     Registration.event := "e-hack";
     Registration.status := Registration.confirmed;
     Registration.paymentStatus := Registration.not_required;
     Registration.amountPaid := 0;
     Registration.teamInfo :=
       Some {| Registration.isTeamLead := true;
               Registration.teamName := Some "Rocket";
               Registration.teamMembers := [];
               Registration.teamCode := Some "TEAM-A";
               Registration.maxMembers := Js.Num 3 |};
     Registration.checkIn := registrations.notCheckedIn;
     Registration.attendance := None;
     Registration.qrCode := None |}.

Definition download (n : Z) : CertificateMore.DownloadRecord :=
  {| CertificateMore.downloadedAt := n;
     CertificateMore.ipAddress := "10.0.0.1";
     CertificateMore.userAgent := "curl" |}.

Definition noDownloads : CertificateMore.Downloads :=
  {| CertificateMore.count := 0;
     CertificateMore.lastDownloaded := None;
     CertificateMore.downloadHistory := [] |}.

(** The sharing state of a new certificate: the schema's defaults. *)
Definition notShared : CertificateMore.Sharing :=
  {| CertificateMore.isPublic := false;
     CertificateMore.shareCount := 0;
     CertificateMore.shares_linkedin := Js.Undefined;
     CertificateMore.shares_twitter := Js.Undefined;
     CertificateMore.shares_facebook := Js.Undefined |}.




(** A team event with one place: alice takes it as a team lead; bob then
    joins her team. *)
Definition duo : Event.t := Sample.mkEvent "e-duo" (Js.Num 1) true 3.

Definition db_duo : DB :=
  @run Sample.runtime
    [ Register 1000 "d1" "u-alice" "e-duo"
        (Some {| registrations.input_teamName := Some "Duo"%string |}) ]
    (save_event duo Sample.db0).

Definition duo_lead : Registration.t :=
  default lead (Registrations.findById "d1" (registrations db_duo)).

Definition duo_full : Event.t := default duo (events db_duo !! "e-duo").

Definition bob_joins_duo : Response * DB :=
  registrations.joinTeam "d2" "u-bob" Sample.rocket "e-duo" db_duo.

(** alice sends feedback on the workshop after its end. *)
Definition someFeedback : registrationsMore.FeedbackInput :=
  {| registrationsMore.input_rating := 5;
     registrationsMore.input_comments := Some "Great"%string;
     registrationsMore.input_recommendations := None;
     registrationsMore.input_wouldRecommend := Some true |}.

Definition store1 : registrationsMore.Store :=
  {| registrationsMore.db := snd Sample.alice_registers;
     registrationsMore.feedbacks := ∅ |}.

Definition alice_feedback : Response * registrationsMore.Store :=
  registrationsMore.feedback 4000 "u-alice" "r1" someFeedback store1.

(** A post that looks for a team of three; its author is the first
    member. *)
Definition teamPost : ForumPost.t :=
  {| ForumPost._id := "p1"; ForumPost.author := "u-alice";
     ForumPost.likes := []; ForumPost.bookmarks := [];
     ForumPost.views := []; ForumPost.replies := [];
     ForumPost.teamFormation :=
       {| ForumPost.isLookingForTeam := true;
          ForumPost.maxTeamSize := Js.Num 2;
          ForumPost.currentTeamSize := 1;
          ForumPost.teamMembers := [];
          ForumPost.applications := [];
          ForumPost.isTeamComplete := false |};
     ForumPost.analytics :=
       {| ForumPost.viewCount := 0; ForumPost.likeCount := 0;
          ForumPost.replyCount := 0; ForumPost.bookmarkCount := 0 |} |}.







Definition view (user : string) (at_ : Z) : ForumPost.View :=
  {| ForumPost.view_user := user; ForumPost.viewedAt := at_;
     ForumPost.ipAddress := "10.0.0.1" |}.

(** What [generateEventQR] returns for alice's registration [r1]. *)
Definition r1_generated : qrCode.Generated :=
  {| qrCode.code := Sample.r1_code;
     qrCode.dataURL := "data:image/png;base64," +:+ Sample.r1_code;
     qrCode.data := Sample.payload "event-checkin" "r1" "e-workshop" 1000 |}.

End Sample2.

(** * Properties *)

(** ** Registration: capacity and the order of the checks *)

Lemma isRegistrationOpen_belowCapacity now event :
  Event.isRegistrationOpen now event = true -> Event.belowCapacity event = true.
Proof.
  unfold Event.isRegistrationOpen. intros H.
  apply andb_true_iff in H as [_ H]. exact H.
Qed.

(** Below capacity, the test [currentParticipants >= maxParticipants] of the
    handler fails. *)
Lemma belowCapacity_not_full event :
  Event.belowCapacity event = true ->
  Js.ge (Some (Event.currentParticipants event))
    (Js.toNumber (Event.maxParticipants event)) = false.
Proof.
  unfold Event.belowCapacity.
  destruct (Js.toNumber (Event.maxParticipants event)) as [m|]; cbn;
    [| reflexivity].
  intros Hlt. apply bool_decide_eq_true in Hlt.
  apply bool_decide_eq_false_2. lia.
Qed.

(** The handler has an answer "Event is full", but no request receives it:
    an event that is full has already been answered "closed". *)
Lemma register_never_answers_full `{Runtime} now newId uid eventId teamInfo db :
  fst (registrations.register now newId uid eventId teamInfo db)
  <> json 400 false "Event is full".
Proof.
  unfold registrations.register.
  destruct (auth.authenticate uid db) as [res | user] eqn:Hauth.
  - unfold auth.authenticate in Hauth.
    destruct (users db !! uid) as [u|];
      [destruct (User.isActive u) |]; inversion Hauth; discriminate.
  - destruct (events db !! eventId) as [event|]; [| discriminate].
    destruct (negb (bool_decide _)); [discriminate |].
    destruct (Event.isRegistrationOpen now event) eqn:Hopen; cbn [negb];
      [| discriminate].
    destruct (Registrations.findOne _ _ _); [discriminate |].
    rewrite (belowCapacity_not_full event
               (isRegistrationOpen_belowCapacity now event Hopen)).
    destruct (Registrations.create _ _); [| discriminate].
    destruct (Event.addParticipant event); discriminate.
Qed.

(** An event whose capacity is unset or [null] is never open. *)
Lemma no_capacity_never_open now event :
  Event.maxParticipants event = Js.Undefined
  \/ Event.maxParticipants event = Js.Null ->
  0 <= Event.currentParticipants event ->
  Event.isRegistrationOpen now event = false.
Proof.
  intros Hmax Hcur. unfold Event.isRegistrationOpen, Event.belowCapacity.
  destruct Hmax as [-> | ->]; cbn.
  - apply andb_false_r.
  - apply andb_false_iff. right. apply bool_decide_eq_false_2. lia.
Qed.

(** [removeParticipant] takes one off a positive counter and never goes
    below zero. *)
Lemma removeParticipant_floor event :
  0 <= Event.currentParticipants event ->
  match Event.removeParticipant event with
  | Some event' =>
      Event.currentParticipants event' = Event.currentParticipants event - 1
      /\ 0 <= Event.currentParticipants event'
  | None => Event.currentParticipants event = 0
  end.
Proof.
  intros Hcur. unfold Event.removeParticipant.
  destruct (bool_decide_reflect (Event.currentParticipants event > 0));
    cbn; lia.
Qed.

(** A registration for an event without a capacity is rejected at the
    "registration open" gate, whatever else holds. *)
Lemma register_without_capacity `{Runtime} now newId uid eventId teamInfo db
    user event :
  auth.authenticate uid db = inr user ->
  events db !! eventId = Some event ->
  Event.maxParticipants event = Js.Undefined
  \/ Event.maxParticipants event = Js.Null ->
  0 <= Event.currentParticipants event ->
  Event.status event = Event.approved ->
  registrations.register now newId uid eventId teamInfo db
  = (json 400 false "Registration for this event is closed", db).
Proof.
  intros Hauth Hev Hmax Hcur Hst. unfold registrations.register.
  rewrite Hauth, Hev, Hst.
  rewrite bool_decide_eq_true_2 by reflexivity. cbn [negb].
  rewrite (no_capacity_never_open now event Hmax Hcur). reflexivity.
Qed.

(** C1 (as the code behaves): an approved event whose [maxParticipants] is
    unset (or [null]), before its deadline, and a user without a registration
    for it: the registration is not created; the handler answers 400
    "Registration for this event is closed" and leaves the store as it was,
    because [currentParticipants < maxParticipants] is evaluated without a
    test for a missing capacity and is false on [undefined] and on [null]. *)
Theorem C1_unset_capacity_registration_closed :
  Event.maxParticipants Sample.openDay = Js.Undefined
  /\ Event.maxParticipants Sample.fair = Js.Null
  /\ Event.status Sample.openDay = Event.approved
  /\ 1000 <= Event.registrationDeadline Sample.openDay
  /\ Registrations.findOne "u-alice" "e-openday"
       (registrations Sample.db0) = None
  /\ Sample.alice_registers_openDay
     = (json 400 false "Registration for this event is closed", Sample.db0)
  /\ Sample.alice_registers_fair
     = (json 400 false "Registration for this event is closed", Sample.db0).
Proof.
  split; [reflexivity |]. split; [reflexivity |]. split; [reflexivity |].
  split; [vm_compute; discriminate |]. split; [reflexivity |].
  split.
  - apply register_without_capacity with (user := Sample.alice)
      (event := Sample.openDay);
      solve [reflexivity | now left | vm_compute; discriminate].
  - apply register_without_capacity with (user := Sample.alice)
      (event := Sample.fair);
      solve [reflexivity | now right | vm_compute; discriminate].
Qed.

(** C2 (as the code behaves): [workshop] has [maxParticipants = 1] and
    [registrationFee = 0].  Alice's registration succeeds, the counter
    becomes 1 and she gains 10 points.  Bob's attempt is rejected, but with
    "Registration for this event is closed": [isRegistrationOpen] already
    contains the capacity test, so the later "Event is full" answer is never
    given.  Alice's cancellation before the start sets her registration to
    [cancelled], brings the counter back to 0 and leaves her points as they
    were. *)
Theorem C2_capacity_scenario :
  Event.maxParticipants Sample.workshop = Js.Num 1
  /\ Event.registrationFee Sample.workshop = 0
  /\ fst Sample.alice_registers
     = json 201 true "Successfully registered for the event"
  /\ participantsOf "e-workshop" (snd Sample.alice_registers) = Some 1
  /\ pointsOf "u-alice" Sample.db0 = Some 0
  /\ pointsOf "u-alice" (snd Sample.alice_registers) = Some 10
  /\ Sample.bob_registers
     = (json 400 false "Registration for this event is closed",
        snd Sample.alice_registers)
  /\ fst Sample.bob_registers <> json 400 false "Event is full"
  /\ fst Sample.alice_cancels
     = json 200 true "Registration cancelled successfully"
  /\ Registration.status
       <$> Registrations.findById "r1" (registrations (snd Sample.alice_cancels))
     = Some Registration.cancelled
  /\ participantsOf "e-workshop" (snd Sample.alice_cancels) = Some 0
  /\ pointsOf "u-alice" (snd Sample.alice_cancels) = Some 10.
Proof.
  repeat (split; [vm_compute; first [reflexivity | discriminate] |]).
  vm_compute; reflexivity.
Qed.

(** A request that does not pass [authenticate] is answered 401. *)
Lemma authenticate_inl uid db res :
  auth.authenticate uid db = inl res -> exists message, res = json 401 false message.
Proof.
  unfold auth.authenticate. destruct (users db !! uid) as [u|].
  - destruct (User.isActive u); [discriminate |]. intros [= <-]. eauto.
  - intros [= <-]. eauto.
Qed.

Lemma authenticate_inr uid db user :
  auth.authenticate uid db = inr user ->
  users db !! uid = Some user /\ User.isActive user = true.
Proof.
  unfold auth.authenticate. destruct (users db !! uid) as [u|]; [| discriminate].
  destruct (User.isActive u) eqn:E; [| discriminate]. intros [= <-]. auto.
Qed.

(** *** The registration collection *)

Lemma find_some_existsb {A} (p : A -> bool) l x :
  List.find p l = Some x -> existsb p l = true.
Proof.
  intros Hf. apply find_some in Hf as [Hin Hp].
  apply existsb_exists. eauto.
Qed.

Lemma existsb_false_find {A} (p : A -> bool) l :
  existsb p l = false -> List.find p l = None.
Proof.
  induction l as [|a l IH]; cbn; [reflexivity |].
  intros Hf. apply orb_false_iff in Hf as [-> Hl]. auto.
Qed.

Lemma find_app_none {A} (p : A -> bool) l d :
  List.find p l = None -> List.find p (l ++ [d]) = if p d then Some d else None.
Proof.
  induction l as [|a l IH]; cbn; [reflexivity |].
  destruct (p a); [discriminate | exact IH].
Qed.

Lemma create_inv doc l l' :
  Registrations.create doc l = Ok l' ->
  l' = l ++ [Registration.pre_save doc]
  /\ Registrations.findById (Registration._id doc) l = None
  /\ Registrations.findOne (Registration.user doc) (Registration.event doc) l
     = None.
Proof.
  unfold Registrations.create.
  destruct (existsb _ l) eqn:Hid; [discriminate |].
  destruct (existsb (Registrations.sameUserEvent _ _) l) eqn:Hue;
    [discriminate |].
  intros [= <-]. split; [reflexivity |].
  split; apply existsb_false_find; assumption.
Qed.

Lemma create_duplicate doc l existing :
  Registrations.findOne (Registration.user doc) (Registration.event doc) l
  = Some existing ->
  exists error, Registrations.create doc l = Throw error.
Proof.
  intros Hf. unfold Registrations.create.
  destruct (existsb _ l); [eauto |].
  unfold Registrations.findOne in Hf.
  rewrite (find_some_existsb _ _ _ Hf). eauto.
Qed.

Lemma pre_save_id r : Registration._id (Registration.pre_save r) = Registration._id r.
Proof.
  unfold Registration.pre_save. destruct (Registration.attendance r);
    [destruct (bool_decide _) |]; reflexivity.
Qed.

Lemma findById_save_same doc l :
  Registrations.findById (Registration._id doc) l <> None ->
  Registrations.findById (Registration._id doc) (Registrations.save doc l)
  = Some doc.
Proof.
  unfold Registrations.findById.
  induction l as [|a l IH]; cbn; [congruence |].
  destruct (bool_decide (Registration._id a = Registration._id doc)) eqn:E; cbn.
  - intros _. rewrite bool_decide_eq_true_2 by reflexivity. reflexivity.
  - rewrite E. exact IH.
Qed.

Lemma findById_save_other doc id l :
  id <> Registration._id doc ->
  Registrations.findById id (Registrations.save doc l)
  = Registrations.findById id l.
Proof.
  intros Hne. unfold Registrations.findById.
  induction l as [|a l IH]; cbn; [reflexivity |].
  destruct (bool_decide (Registration._id a = Registration._id doc)) eqn:E; cbn.
  - apply bool_decide_eq_true_1 in E.
    rewrite !bool_decide_eq_false_2 by congruence. reflexivity.
  - destruct (bool_decide (Registration._id a = id)); [reflexivity | exact IH].
Qed.

(** C3, counterexample: alice holds a registration for the full workshop;
    her second attempt is rejected as "closed", not as a duplicate. *)
Lemma C3_second_attempt_on_full_event :
  (exists existing,
     Registrations.findOne "u-alice" "e-workshop"
       (registrations (snd Sample.alice_registers)) = Some existing)
  /\ Sample.alice_again_full
     = (json 400 false "Registration for this event is closed",
        snd Sample.alice_registers)
  /\ fst Sample.alice_again_full
     <> json 400 false "You are already registered for this event".
Proof.
  split; [eexists; vm_compute; reflexivity |].
  split; [vm_compute; reflexivity | vm_compute; discriminate].
Qed.

(** C3, as amended: when the user already holds a registration for the event
    (in any status: the query does not look at it), a further registration
    request never succeeds and leaves the store unchanged; it is answered by
    "You are already registered for this event" whenever the event still
    passes the checks made before the duplicate test (it exists, is approved
    and its registration is open); and the collection itself refuses a second
    document for the pair. *)
Theorem C3_duplicate_registration_rejected `{Runtime} now newId uid eventId
    teamInfo db user existing :
  auth.authenticate uid db = inr user ->
  Registrations.findOne (User._id user) eventId (registrations db)
  = Some existing ->
  (exists status message,
     registrations.register now newId uid eventId teamInfo db
     = (json status false message, db))
  /\ (forall event,
        events db !! eventId = Some event ->
        Event.isRegistrationOpen now event = true ->
        registrations.register now newId uid eventId teamInfo db
        = (json 400 false "You are already registered for this event", db))
  /\ (forall doc,
        Registration.user doc = User._id user ->
        Registration.event doc = eventId ->
        exists error, Registrations.create doc (registrations db) = Throw error).
Proof.
  intros Hauth Hdup. split; [| split].
  - unfold registrations.register. rewrite Hauth.
    destruct (events db !! eventId) as [event|]; [| eauto].
    destruct (negb (bool_decide _)); [eauto |].
    destruct (negb (Event.isRegistrationOpen now event)); [eauto |].
    rewrite Hdup. eauto.
  - intros event Hev Hopen. unfold registrations.register.
    rewrite Hauth, Hev, Hopen, Hdup. cbn [negb].
    unfold Event.isRegistrationOpen in Hopen.
    apply andb_true_iff in Hopen as [Hopen _].
    apply andb_true_iff in Hopen as [_ ->]. reflexivity.
  - intros doc Hu He. apply create_duplicate with existing.
    rewrite Hu, He. exact Hdup.
Qed.

(** Witness of C3: alice's registration for the workshop is [cancelled] and
    the workshop is open again; her new request is rejected as a duplicate. *)
Lemma C3_witness_cancelled_registration :
  (exists existing,
     Registrations.findOne "u-alice" "e-workshop"
       (registrations (snd Sample.alice_cancels)) = Some existing
     /\ Registration.status existing = Registration.cancelled)
  /\ Sample.alice_again_cancelled
     = (json 400 false "You are already registered for this event",
        snd Sample.alice_cancels).
Proof.
  split.
  - eexists. split; vm_compute; reflexivity.
  - eapply (fun user existing Hauth Hdup =>
              proj1 (proj2 (C3_duplicate_registration_rejected
                              (H := Sample.runtime) 1003 "r3" "u-alice"
                              "e-workshop" None (snd Sample.alice_cancels)
                              user existing Hauth Hdup)));
      vm_compute; reflexivity.
Defined.

(** *** A successful registration *)


Lemma registrationData_pre_save now newId user eventId event teamInfo :
  Registration.pre_save
    (registrations.registrationData now newId user eventId event teamInfo)
  = registrations.registrationData now newId user eventId event teamInfo.
Proof. reflexivity. Qed.

(** After [create], the store holds the new document under its id, with the
    QR code when it could be generated and as created otherwise. *)
Lemma attachQR_findById `{Runtime} now doc eventId db l :
  Registration.attendance doc = None ->
  Registrations.findById (Registration._id doc) l = None ->
  registrations db = l ++ [doc] ->
  Registrations.findById (Registration._id doc)
    (registrations (registrations.attachQR now doc eventId db))
  = Some
      match qrCode.generateEventQR now (Registration._id doc) eventId with
      | Ok generated =>
          Registration.set_qrCode
            (Some {| Registration.code := qrCode.code generated;
                     Registration.url := qrCode.dataURL generated |}) doc
      | Throw _ => doc
      end.
Proof.
  intros Hatt Hnew Hdb. unfold registrations.attachQR.
  assert (Hfound : Registrations.findById (Registration._id doc) (l ++ [doc])
                   = Some doc).
  { unfold Registrations.findById in *. rewrite find_app_none by exact Hnew.
    rewrite bool_decide_eq_true_2 by reflexivity. reflexivity. }
  destruct (qrCode.generateEventQR now (Registration._id doc) eventId)
    as [generated | message]; cbn.
  - rewrite Hdb.
    set (q := Some _).
    assert (Hps : Registration.pre_save (Registration.set_qrCode q doc)
                  = Registration.set_qrCode q doc).
    { unfold Registration.pre_save. cbn. rewrite Hatt. reflexivity. }
    rewrite Hps.
    apply (findById_save_same (Registration.set_qrCode q doc) (l ++ [doc])).
    change (Registration._id (Registration.set_qrCode q doc))
      with (Registration._id doc).
    rewrite Hfound. discriminate.
  - rewrite Hdb. exact Hfound.
Qed.



(** ** Check-in *)

Lemma mayCheckIn_spec user event :
  registrations.mayCheckIn user event = true
  <-> Event.organizer event = User._id user
      \/ In (User._id user) (Event.coOrganizers event)
      \/ User.role user = User.admin.
Proof.
  unfold registrations.mayCheckIn. rewrite negb_true_iff.
  rewrite !andb_false_iff, !negb_false_iff, existsb_exists.
  rewrite !bool_decide_eq_true. split.
  - intros [[Ho | (c & Hin & Hc)] | Ha]; auto.
    apply bool_decide_eq_true in Hc. subst c. auto.
  - intros [Ho | [Hin | Ha]]; auto.
    left. right. exists (User._id user). split; [exact Hin |].
    apply bool_decide_eq_true. reflexivity.
Qed.

(** The validation block is entered only for the method [qr-code] with a
    non-empty payload. *)
Lemma validateQR_skipped `{Runtime} now method qrData registration event :
  method <> Registration.qr_code \/ qrData = None \/ qrData = Some ""%string ->
  registrations.validateQR now method qrData registration event = None.
Proof.
  unfold registrations.validateQR.
  intros [Hm | [-> | ->]].
  - destruct method; congruence.
  - destruct method; reflexivity.
  - destruct method; reflexivity.
Qed.

(** C6, counterexample: alice owns the registration [r1] and is neither the
    organizer, nor a co-organizer, nor an admin; her [self-checkin] request
    is answered 403 and changes nothing. *)
Lemma C6_self_checkin_by_owner_is_rejected :
  Registration.user
    <$> Registrations.findById "r1" (registrations (snd Sample.alice_registers))
  = Some "u-alice"
  /\ registrations.mayCheckIn Sample.alice Sample.workshop = false
  /\ Sample.alice_self_checkin
     = (json 403 false "Not authorized to check-in users for this event",
        snd Sample.alice_registers).
Proof. repeat split; vm_compute; reflexivity. Qed.

(** The validation block rejects with the status 400. *)
Lemma validateQR_rejection `{Runtime} now method qrData registration event
    rejection :
  registrations.validateQR now method qrData registration event
  = Some rejection ->
  exists m, rejection = json 400 false m.
Proof.
  unfold registrations.validateQR.
  destruct method; try discriminate.
  destruct qrData as [s|]; [| discriminate].
  destruct (bool_decide (s = ""%string)); [discriminate |].
  destruct (negb (qrCode.success _)); [intros [= <-]; eauto |].
  destruct (negb (qrCode.valid _)); [intros [= <-]; eauto |].
  destruct (negb (JSON.strict_eq_string _ _)); [intros [= <-]; eauto |].
  discriminate.
Qed.

(** C6, as amended: whatever the method ([self-checkin] included), a
    check-in request passes the authorization test exactly when the caller is
    the event's organizer, one of its co-organizers or an admin; any other
    caller, the owner of the registration included, is answered 403 and the
    store is unchanged; an authorized caller is never answered 403, by hand,
    by QR code or by [self-checkin]. *)
Theorem C6_who_may_check_in `{Runtime} now uid id method location qrData db
    user registration event :
  auth.authenticate uid db = inr user ->
  Registrations.findById id (registrations db) = Some registration ->
  events db !! Registration.event registration = Some event ->
  (registrations.mayCheckIn user event = true
   <-> Event.organizer event = User._id user
       \/ In (User._id user) (Event.coOrganizers event)
       \/ User.role user = User.admin)
  /\ (registrations.mayCheckIn user event = false ->
      registrations.checkin now uid id method location qrData db
      = (json 403 false "Not authorized to check-in users for this event", db))
  /\ (registrations.mayCheckIn user event = true ->
      forall success message,
        fst (registrations.checkin now uid id method location qrData db)
        <> json 403 success message).
Proof.
  intros Hauth Hreg Hev. split; [apply mayCheckIn_spec |]. split.
  - intros Hno. unfold registrations.checkin.
    rewrite Hauth, Hreg, Hev, Hno. reflexivity.
  - intros Hyes success message. unfold registrations.checkin.
    rewrite Hauth, Hreg, Hev, Hyes. cbn [negb].
    destruct (Registration.isCheckedIn _); [discriminate |].
    destruct (registrations.validateQR _ _ _ _ _) as [rejection|] eqn:Hqr.
    + apply validateQR_rejection in Hqr as [m ->]. discriminate.
    + discriminate.
Qed.

(** Witness of C6: alice is refused; the organizer's request passes the
    authorization test. *)
Lemma C6_witness_owner_and_organizer :
  Sample.alice_self_checkin
  = (json 403 false "Not authorized to check-in users for this event",
     snd Sample.alice_registers)
  /\ fst Sample.olga_checks_in
     <> json 403 false "Not authorized to check-in users for this event".
Proof.
  split.
  - eapply (fun user registration event H1 H2 H3 =>
              proj1 (proj2 (C6_who_may_check_in (H := Sample.runtime) 2100
                              "u-alice" "r1" (Some Registration.self_checkin)
                              None None (snd Sample.alice_registers)
                              user registration event H1 H2 H3)));
      vm_compute; reflexivity.
  - eapply (fun user registration event H1 H2 H3 H4 =>
              proj2 (proj2 (C6_who_may_check_in (H := Sample.runtime) 2100
                              "u-olga" "r1" None None None
                              (snd Sample.alice_registers)
                              user registration event H1 H2 H3)) H4 _ _);
      vm_compute; reflexivity.
Defined.

(** *** The call of the check-in method *)

Lemma findById_id id l r :
  Registrations.findById id l = Some r -> Registration._id r = id.
Proof.
  intros Hf. apply find_some in Hf as [_ Hp].
  apply bool_decide_eq_true in Hp. exact Hp.
Qed.

Lemma pre_save_fields r :
  Registration.user (Registration.pre_save r) = Registration.user r
  /\ Registration.event (Registration.pre_save r) = Registration.event r
  /\ Registration.status (Registration.pre_save r) = Registration.status r
  /\ Registration.checkIn (Registration.pre_save r) = Registration.checkIn r
  /\ Registration.teamInfo (Registration.pre_save r) = Registration.teamInfo r.
Proof.
  unfold Registration.pre_save. destruct (Registration.attendance r);
    [destruct (bool_decide _) |]; repeat split; reflexivity.
Qed.

(** No check-in request succeeds or changes the store. *)
Lemma checkin_fails `{Runtime} now uid id method location qrData db :
  snd (registrations.checkin now uid id method location qrData db) = db
  /\ succeeded
       (fst (registrations.checkin now uid id method location qrData db))
     = false.
Proof.
  unfold registrations.checkin.
  destruct (auth.authenticate _ db) as [res | user] eqn:Hauth.
  - apply authenticate_inl in Hauth as [m ->]. auto.
  - destruct (Registrations.findById _ _) as [registration|]; [| auto].
    destruct (events db !! _) as [event|]; [| auto].
    destruct (negb (registrations.mayCheckIn user event)); [auto |].
    destruct (Registration.isCheckedIn _); [auto |].
    destruct (registrations.validateQR _ _ _ _ _) as [rejection|] eqn:Hqr.
    + apply validateQR_rejection in Hqr as [m ->]. auto.
    + auto.
Qed.

Lemma checkin_calls_fail `{Runtime} id calls :
  forall db,
    snd (checkin_calls id calls db) = db
    /\ Forall (fun res => succeeded res = false)
         (fst (checkin_calls id calls db)).
Proof.
  induction calls as [|c calls IH]; intros db; cbn.
  - split; [reflexivity | constructor].
  - destruct (checkin_fails (call_now c) (call_user c) id (call_method c)
                (call_location c) (call_qrData c) db) as [Hdb Hres].
    fold (checkin_call id c db) in Hdb, Hres.
    rewrite Hdb. destruct (IH db) as [IHdb IHres].
    split; [exact IHdb |]. constructor; assumption.
Qed.

(** The request that the specification accepts (an authorized caller, a
    registration that is not checked in, no rejection by the QR validation)
    reaches the call [registration.checkIn(...)], which throws. *)
Lemma checkin_throws `{Runtime} now uid id method location qrData db user
    registration event :
  auth.authenticate uid db = inr user ->
  Registrations.findById id (registrations db) = Some registration ->
  events db !! Registration.event registration = Some event ->
  registrations.mayCheckIn user event = true ->
  Registration.isCheckedIn (Registration.checkIn registration) = false ->
  registrations.validateQR now (default Registration.manual method) qrData
    registration event = None ->
  registrations.checkin now uid id method location qrData db
  = (next "TypeError: registration.checkIn is not a function", db).
Proof.
  intros Hauth Hreg Hev Hmay Hnot Hqr. unfold registrations.checkin.
  rewrite Hauth, Hreg, Hev, Hmay, Hnot. cbn [negb]. rewrite Hqr.
  reflexivity.
Qed.

(** The branch "already checked in" of the handler, for a registration
    that some other writer has marked. *)
Lemma checkin_again_authorized `{Runtime} id c db r event caller :
  Registrations.findById id (registrations db) = Some r ->
  Registration.isCheckedIn (Registration.checkIn r) = true ->
  events db !! Registration.event r = Some event ->
  auth.authenticate (call_user c) db = inr caller ->
  registrations.mayCheckIn caller event = true ->
  checkin_call id c db = (json 400 false "User is already checked in", db).
Proof.
  intros Hr Hin Hev Hauth Hmay. unfold checkin_call, registrations.checkin.
  rewrite Hauth, Hr, Hev, Hmay, Hin. reflexivity.
Qed.

(** C7, where the code departs from it.  The handler calls
    [registration.checkIn(method, location, req.user._id)]; the schema gives
    the name [checkIn] to a path and to a method, on a document it is the
    sub-document, and the call throws.  So no check-in request succeeds:
    every sequence of requests on a registration, by anybody and by any
    method, consists of failures and leaves the store as it was.  The request
    that should succeed (an authorized caller, a registration that is not
    checked in, no rejection by the QR validation) ends in the error
    handler.  In the scenario the organizer's request by hand on alice's
    registration is such a request: the registration stays [confirmed] and
    not checked in, alice's balance stays at the 10 points of her
    registration, and of the requests that follow none is answered "User is
    already checked in". *)
Theorem C7_no_check_in_succeeds :
  (forall (H : Runtime) id calls db,
      snd (checkin_calls id calls db) = db
      /\ Forall (fun res => succeeded res = false)
           (fst (checkin_calls id calls db)))
  /\ (forall (H : Runtime) now uid id method location qrData db user
        registration event,
        auth.authenticate uid db = inr user ->
        Registrations.findById id (registrations db) = Some registration ->
        events db !! Registration.event registration = Some event ->
        registrations.mayCheckIn user event = true ->
        Registration.isCheckedIn (Registration.checkIn registration) = false ->
        registrations.validateQR now (default Registration.manual method)
          qrData registration event = None ->
        registrations.checkin now uid id method location qrData db
        = (next "TypeError: registration.checkIn is not a function", db))
  /\ auth.authenticate "u-olga" (snd Sample.alice_registers) = inr Sample.olga
  /\ registrations.mayCheckIn Sample.olga Sample.workshop1 = true
  /\ Registrations.findById "r1" (registrations (snd Sample.alice_registers))
     = Some Sample.r1
  /\ Registration.isCheckedIn (Registration.checkIn Sample.r1) = false
  /\ Sample.olga_checks_in
     = (next "TypeError: registration.checkIn is not a function",
        snd Sample.alice_registers)
  /\ Registration.status
       <$> Registrations.findById "r1"
             (registrations (snd Sample.olga_checks_in))
     = Some Registration.confirmed
  /\ pointsOf "u-alice" (snd Sample.alice_registers) = Some 10
  /\ pointsOf "u-alice" (snd Sample.olga_checks_in) = Some 10
  /\ fst (@checkin_calls Sample.runtime "r1" Sample.later_calls
            (snd Sample.olga_checks_in))
     = [ next "TypeError: registration.checkIn is not a function";
         json 400 false "Invalid QR code type for check-in";
         json 403 false "Not authorized to check-in users for this event" ]
  /\ pointsOf "u-alice"
       (snd (@checkin_calls Sample.runtime "r1" Sample.later_calls
               (snd Sample.olga_checks_in)))
     = Some 10.
Proof.
  split; [intros H id calls db; apply checkin_calls_fail |].
  split; [intros H; intros; apply checkin_throws with user registration event;
          assumption |].
  repeat split; vm_compute; reflexivity.
Qed.

(** *** Validation of a QR payload at check-in *)

(** [parseQRData] never reports a failure and never returns [null]: a string
    that is not JSON, and the JSON text [null], come back wrapped as a URL. *)
Lemma parseQRData_total `{Runtime} s :
  qrCode.success (qrCode.parseQRData s) = true
  /\ qrCode.parsed_data (qrCode.parseQRData s) <> JSON.JNull
  /\ (JSON_parse s = None ->
      qrCode.parsed_data (qrCode.parseQRData s)
      = JSON.JObject [("url"%string, JSON.JString s)]).
Proof.
  unfold qrCode.parseQRData.
  destruct (JSON_parse s) as [data|]; [| repeat split; discriminate].
  destruct data; cbn; repeat split; discriminate.
Qed.

Lemma validateCheckInQR_not_null `{Runtime} now d expectedEventId :
  d <> JSON.JNull ->
  qrCode.validateCheckInQR now d expectedEventId
  = if negb (JSON.strict_eq_string (JSON.prop "type" d) "event-checkin")
    then qrCode.invalid "Invalid QR code type for check-in"
    else if negb (JSON.strict_eq_string (JSON.prop "eventId" d) expectedEventId)
    then qrCode.invalid "QR code is for a different event"
    else if Js.gt (Js.sub (Some now)
                     (qrCode.toNumber (JSON.prop "timestamp" d)))
              (Some qrCode.maxAge)
    then qrCode.invalid "QR code has expired"
    else {| qrCode.valid := true; qrCode.message := None;
            qrCode.registrationId := JSON.prop "registrationId" d;
            qrCode.eventId := JSON.prop "eventId" d |}.
Proof. destruct d; [congruence | reflexivity ..]. Qed.

(** A payload that is not JSON is wrapped as a URL; it has no [type] and
    fails the first check of the validation. *)
Lemma unparsable_payload_fails_type_check `{Runtime} s :
  JSON_parse s = None ->
  JSON.strict_eq_string
    (JSON.prop "type" (qrCode.parsed_data (qrCode.parseQRData s)))
    "event-checkin" = false.
Proof.
  intros Hparse. destruct (parseQRData_total s) as (_ & _ & Hurl).
  rewrite (Hurl Hparse). reflexivity.
Qed.

(** The answer "Invalid QR code format" is written in the handler and in
    [validateCheckInQR], but the validation block never gives it. *)
Lemma validateQR_never_answers_format `{Runtime} now method qrData
    registration event :
  registrations.validateQR now method qrData registration event
  <> Some (json 400 false "Invalid QR code format").
Proof.
  unfold registrations.validateQR.
  destruct method; try discriminate.
  destruct qrData as [s|]; [| discriminate].
  destruct (bool_decide (s = ""%string)); [discriminate |].
  destruct (parseQRData_total s) as (Hsucc & Hnull & _).
  rewrite Hsucc. cbn [negb].
  rewrite (validateCheckInQR_not_null now _ (Event._id event) Hnull).
  destruct (JSON.strict_eq_string (JSON.prop "type" _) _); [| discriminate].
  destruct (JSON.strict_eq_string (JSON.prop "eventId" _) _); [| discriminate].
  destruct (Js.gt _ _); [discriminate |]. cbn.
  destruct (JSON.strict_eq_string _ _); discriminate.
Qed.


(** The four reasons on sample payloads, and the payload generated at
    registration, accepted within 24 hours. *)
Example scan_examples :
  Sample.scan 2100 "team-join" "r1" "e-workshop" 1000
  = Some (json 400 false "Invalid QR code type for check-in")
  /\ Sample.scan 2100 "event-checkin" "r1" "e-openday" 1000
     = Some (json 400 false "QR code is for a different event")
  /\ Sample.scan (1000 + 86400001) "event-checkin" "r1" "e-workshop" 1000
     = Some (json 400 false "QR code has expired")
  /\ Sample.scan 2100 "event-checkin" "r2" "e-workshop" 1000
     = Some (json 400 false "QR code does not match this registration")
  /\ Sample.scan (1000 + 86400000) "event-checkin" "r1" "e-workshop" 1000
     = None.
Proof. repeat split; vm_compute; reflexivity. Qed.




(** ** Lists *)

Lemma find_app_some {A} (p : A -> bool) l k x :
  List.find p l = Some x -> List.find p (l ++ k) = Some x.
Proof.
  induction l as [|a l IH]; cbn; [discriminate |].
  destruct (p a); [auto | exact IH].
Qed.

Lemma NoDup_snoc (l : list string) x : NoDup l -> ~ In x l -> NoDup (l ++ [x]).
Proof.
  intros Hnd Hx. apply NoDup_app. split; [exact Hnd |].
  split; [| apply NoDup_singleton].
  intros y Hy Hy'. apply list_elem_of_In in Hy.
  apply list_elem_of_singleton in Hy'. subst y. exact (Hx Hy).
Qed.

(** ** Session attendance *)

(** With undefined counters the hook before a save changes nothing. *)
Lemma pre_save_untouched r :
  Registration.attendance r = None -> Registration.pre_save r = r.
Proof. unfold Registration.pre_save. intros ->. reflexivity. Qed.

(** On a registration whose counters are undefined every call fails. *)
Lemma markSessionAttendance_undefined now name att r :
  Registration.attendance r = None ->
  Registration.methods.markSessionAttendance now name att r
  = Throw "ValidationError: attendance.totalSessions: Cast to Number failed for value NaN".
Proof.
  unfold Registration.methods.markSessionAttendance. intros ->. reflexivity.
Qed.

Lemma markAll_undefined calls r :
  Registration.attendance r = None -> markAll calls r = r.
Proof.
  intros Hr. induction calls as [|c calls IH]; [reflexivity |].
  unfold markAll in *. cbn [fold_left]. unfold mark at 2.
  rewrite markSessionAttendance_undefined by exact Hr. exact IH.
Qed.

(** *** No route writes the check-in or the counters *)

Lemma Forall_save (P : Registration.t -> Prop) doc l :
  Forall P l -> P doc -> Forall P (Registrations.save doc l).
Proof.
  intros Hl Hdoc. induction Hl as [|a l Ha Hl IH]; cbn; [constructor |].
  destruct (bool_decide _); constructor; assumption.
Qed.

Lemma untouched_pre_save r : untouched r -> untouched (Registration.pre_save r).
Proof. intros [Hc Ha]. rewrite pre_save_untouched by exact Ha. split; assumption. Qed.

Lemma attachQR_untouched `{Runtime} now doc eventId db :
  untouched doc ->
  Forall untouched (registrations db) ->
  Forall untouched (registrations (registrations.attachQR now doc eventId db)).
Proof.
  intros Hdoc Hdb. unfold registrations.attachQR.
  destruct (qrCode.generateEventQR _ _ _); [| exact Hdb].
  cbn [registrations set_registrations].
  apply Forall_save; [exact Hdb |].
  apply untouched_pre_save. exact Hdoc.
Qed.

Lemma register_untouched `{Runtime} now newId uid eventId teamInfo db :
  Forall untouched (registrations db) ->
  Forall untouched
    (registrations
       (snd (registrations.register now newId uid eventId teamInfo db))).
Proof.
  intros Hdb. unfold registrations.register.
  destruct (auth.authenticate uid db) as [res | user]; [exact Hdb |].
  destruct (events db !! eventId) as [event|]; [| exact Hdb].
  destruct (negb (bool_decide _)); [exact Hdb |].
  destruct (negb (Event.isRegistrationOpen now event)); [exact Hdb |].
  destruct (Registrations.findOne _ _ _); [exact Hdb |].
  destruct (Js.ge _ _); [exact Hdb |].
  set (data := registrations.registrationData now newId user eventId event
                 teamInfo).
  assert (Hdata : untouched data) by (split; reflexivity).
  destruct (Registrations.create data (registrations db)) as [created | ?]
    eqn:Hcreate; [| exact Hdb].
  apply create_inv in Hcreate as (-> & _ & _).
  assert (Hqr : Forall untouched
                  (registrations
                     (registrations.attachQR now (Registration.pre_save data)
                        eventId
                        (set_registrations
                           (registrations db ++ [Registration.pre_save data])
                           db)))).
  { apply attachQR_untouched; [apply untouched_pre_save; exact Hdata |].
    cbn [registrations set_registrations]. apply Forall_app. split; [exact Hdb |].
    constructor; [apply untouched_pre_save; exact Hdata | constructor]. }
  destruct (Event.addParticipant event); exact Hqr.
Qed.

Lemma joinTeam_untouched newId uid teamCode eventId db :
  Forall untouched (registrations db) ->
  Forall untouched
    (registrations (snd (registrations.joinTeam newId uid teamCode eventId db))).
Proof.
  intros Hdb. unfold registrations.joinTeam.
  destruct (auth.authenticate uid db) as [res | user]; [exact Hdb |].
  destruct (Registrations.findTeamLead teamCode eventId (registrations db))
    as [lead|] eqn:Hlead; [| exact Hdb].
  destruct (Registrations.findOne _ _ _); [exact Hdb |].
  destruct (Js.ge _ _); [exact Hdb |].
  destruct (events db !! Registration.event lead) as [event|]; [| exact Hdb].
  set (data := registrations.memberData _ _ _ _ _ _).
  assert (Hdata : untouched data) by (split; reflexivity).
  destruct (Registrations.create data (registrations db)) as [created | ?]
    eqn:Hcreate; [| exact Hdb].
  apply create_inv in Hcreate as (-> & _ & _).
  assert (Hall : Forall untouched
                   (registrations db ++ [Registration.pre_save data])).
  { apply Forall_app. split; [exact Hdb |].
    constructor; [apply untouched_pre_save; exact Hdata | constructor]. }
  assert (Hl : untouched lead).
  { apply find_some in Hlead as [Hin _].
    rewrite Forall_forall in Hdb. apply Hdb. apply list_elem_of_In. exact Hin. }
  unfold Registration.methods.addTeamMember.
  destruct (Js.ge _ _); [exact Hall |].
  assert (Hsaved :
            Forall untouched
              (Registrations.save
                 (Registration.pre_save
                    (Registration.set_teamInfo
                       (Some
                          (Registration.methods.push_member
                             {| Registration.member_user := User._id user;
                                Registration.member_name := User.name user;
                                Registration.member_email := User.email user;
                                Registration.member_role := "Member" |}
                             (default Registration.methods.emptyTeamInfo
                                (Registration.teamInfo lead))))
                       lead))
                 (registrations db ++ [Registration.pre_save data]))).
  { apply Forall_save; [exact Hall |].
    apply untouched_pre_save. destruct Hl as [Hc Ha]. split; assumption. }
  destruct (Event.addParticipant event); exact Hsaved.
Qed.

Lemma cancel_untouched now uid id db :
  Forall untouched (registrations db) ->
  Forall untouched (registrations (snd (registrations.cancel now uid id db))).
Proof.
  intros Hdb. unfold registrations.cancel.
  destruct (auth.authenticate uid db) as [res | user]; [exact Hdb |].
  destruct (Registrations.findById id (registrations db))
    as [registration|] eqn:Hreg; [| exact Hdb].
  destruct (negb _ && negb _); [exact Hdb |].
  destruct (events db !! Registration.event registration) as [event|];
    [| exact Hdb].
  destruct (bool_decide _); [exact Hdb |].
  assert (Hr : untouched registration).
  { apply find_some in Hreg as [Hin _].
    rewrite Forall_forall in Hdb. apply Hdb. apply list_elem_of_In. exact Hin. }
  assert (Hsaved :
            Forall untouched
              (Registrations.save
                 (Registration.pre_save
                    (Registration.set_status Registration.cancelled
                       registration))
                 (registrations db))).
  { apply Forall_save; [exact Hdb |].
    apply untouched_pre_save. destruct Hr as [Hc Ha]. split; assumption. }
  cbn [snd]. destruct (Event.removeParticipant event); exact Hsaved.
Qed.

Lemma handle_untouched `{Runtime} req db :
  Forall untouched (registrations db) ->
  Forall untouched (registrations (snd (handle req db))).
Proof.
  intros Hdb. destruct req; cbn [handle].
  - apply register_untouched; exact Hdb.
  - apply joinTeam_untouched; exact Hdb.
  - apply cancel_untouched; exact Hdb.
  - rewrite (proj1 (checkin_fails now req_user_id id method location qrData db)).
    exact Hdb.
Qed.

(** From a store of untouched registrations (the empty store is one), the
    registration, join-team, cancellation and check-in requests only reach
    stores of untouched registrations. *)
Lemma run_untouched `{Runtime} requests :
  forall db,
    Forall untouched (registrations db) ->
    Forall untouched (registrations (run requests db)).
Proof.
  induction requests as [|req requests IH]; intros db Hdb; [exact Hdb |].
  change (run (req :: requests) db)
    with (run requests (snd (handle req db))).
  apply IH. apply handle_untouched. exact Hdb.
Qed.

(** The percentage is computed in floating point: 11 sessions of 20 do not
    give 55, and one of three gives the number that is printed
    33.33333333333333. *)
Example percentage_examples :
  Registration.percentage 1 2 = 50%float
  /\ Registration.percentage 11 20 = 55.000000000000007%float
  /\ Registration.percentage 11 20 <> 55%float
  /\ Registration.percentage 1 3 = 33.333333333333329%float.
Proof.
  repeat split; try (vm_compute; reflexivity).
  vm_compute. discriminate.
Qed.

(** C9, where the code departs from it.  The schema gives the counters
    [totalSessions] and [attendedSessions] no default, and the branch of
    [markSessionAttendance] that would write them 0 tests [!this.attendance],
    which is false on every document.  On a registration that the routes have
    created the counters are therefore undefined: the first call computes
    [undefined + 1], the save is refused, and so is every call after it.
    Whatever requests the registration routes have handled from the empty
    store, every call [markSessionAttendance] on every stored registration
    fails, and a sequence of calls leaves the registration as it was: no
    session is recorded and [attendancePercentage] stays at its default 0.
    This is so on alice's registration with the calls of the scenario (the
    session [keynote] marked attended).  Only with the two counters written
    as 0 by hand, which nothing in the program does, do the same calls count
    three sessions once each, one of them attended, with the percentage
    [1 / 3 * 100]. *)
Theorem C9_no_session_attendance_is_recorded :
  (forall (H : Runtime) requests,
      Forall
        (fun r =>
           (forall now name att,
               Registration.methods.markSessionAttendance now name att r
               = Throw "ValidationError: attendance.totalSessions: Cast to Number failed for value NaN")
           /\ (forall calls, markAll calls r = r))
        (registrations (run requests Sample.db0)))
  /\ Registrations.findById "r1" (registrations (snd Sample.alice_registers))
     = Some Sample.r1
  /\ Registration.attendance Sample.r1 = None
  /\ Registration.methods.markSessionAttendance 2100 "keynote" true Sample.r1
     = Throw "ValidationError: attendance.totalSessions: Cast to Number failed for value NaN"
  /\ markAll Sample.attendance_calls Sample.r1 = Sample.r1
  /\ Registration.attendance (markAll Sample.attendance_calls Sample.r1_counted)
     = Some
         {| Registration.sessions :=
              [ {| Registration.sessionName := "keynote";
                   Registration.attended := true;
                   Registration.session_checkInTime := Some 2500 |};
                {| Registration.sessionName := "lab";
                   Registration.attended := false;
                   Registration.session_checkInTime := None |};
                {| Registration.sessionName := "panel";
                   Registration.attended := false;
                   Registration.session_checkInTime := None |} ];
            Registration.totalSessions := 3;
            Registration.attendedSessions := 1;
            Registration.attendancePercentage := 33.333333333333329%float |}.
Proof.
  split.
  { intros H requests.
    eapply Forall_impl; [apply run_untouched; constructor |].
    intros r [_ Ha]. split.
    - intros now name att. apply markSessionAttendance_undefined. exact Ha.
    - intros calls. apply markAll_undefined. exact Ha. }
  repeat split; vm_compute; reflexivity.
Qed.

(** ** Certificate verification *)

Lemma find_none_iff {A} (p : A -> bool) l :
  List.find p l = None <-> forall x, In x l -> p x = false.
Proof.
  split; [apply find_none |].
  induction l as [|a l IH]; cbn; [reflexivity |].
  intros Hall. rewrite (Hall a) by auto. apply IH. auto.
Qed.

Lemma unique_code (l : list Certificate.t) x y :
  NoDup (map Certificate.verificationCode l) ->
  In x l -> In y l ->
  Certificate.verificationCode x = Certificate.verificationCode y -> x = y.
Proof.
  induction l as [|a l IH]; cbn; [tauto |].
  intros Hnd Hx Hy Hxy. apply NoDup_cons in Hnd as [Ha Hnd].
  rewrite list_elem_of_In in Ha.
  destruct Hx as [-> | Hx], Hy as [-> | Hy]; auto.
  - exfalso. apply Ha. rewrite Hxy. apply in_map. exact Hy.
  - exfalso. apply Ha. rewrite <- Hxy. apply in_map. exact Hx.
Qed.

(** A certificate that is stored and not [active] does not verify, the
    verification codes being unique. *)
Lemma inactive_does_not_verify (l : list Certificate.t) c :
  NoDup (map Certificate.verificationCode l) ->
  In c l ->
  Certificate.status c <> Certificate.active ->
  Certificate.verifyCertificate (Certificate.verificationCode c) l = None.
Proof.
  intros Hnd Hin Hst. apply find_none_iff. intros x Hx.
  unfold Certificate.verifiable.
  destruct (bool_decide_reflect
              (Certificate.verificationCode x = Certificate.verificationCode c))
    as [Hcode | Hcode]; [| reflexivity].
  rewrite (unique_code l x c Hnd Hx Hin Hcode).
  rewrite bool_decide_eq_false_2 by exact Hst. reflexivity.
Qed.

(** Saving a document that kept its id and its code keeps the codes, and
    stores the document. *)
Lemma certificate_save (l : list Certificate.t) c c' :
  Certificate.findById (Certificate._id c) l = Some c ->
  Certificate._id c' = Certificate._id c ->
  Certificate.verificationCode c' = Certificate.verificationCode c ->
  map Certificate.verificationCode (Certificate.save c' l)
  = map Certificate.verificationCode l
  /\ In c' (Certificate.save c' l)
  /\ Certificate.findById (Certificate._id c) (Certificate.save c' l) = Some c'.
Proof.
  intros Hf Hid Hcode. unfold Certificate.findById in *.
  induction l as [|a l IH]; cbn in *; [discriminate |].
  rewrite Hid.
  destruct (bool_decide (Certificate._id a = Certificate._id c)) eqn:E; cbn.
  - injection Hf as ->. rewrite Hcode, Hid.
    rewrite bool_decide_eq_true_2 by reflexivity. auto.
  - rewrite E. destruct (IH Hf) as (Hm & Hin & Hfind).
    rewrite Hm. auto.
Qed.

(** C10: the public lookup returns a certificate only if its status is
    [active] (and its code is the one asked for).  When an admin revokes a
    stored certificate, the certificate is stored with the status [revoked]
    and its verification code unchanged, and verifying that code returns
    nothing (404); more generally no stored certificate whose status is
    [revoked], [expired] or [pending] verifies.  The verification codes of
    the collection are unique (index [unique: true]). *)
Theorem C10_only_active_certificates_verify now uid id reason db admin c :
  NoDup (map Certificate.verificationCode (certificates db)) ->
  auth.authenticate uid db = inr admin ->
  User.role admin = User.admin ->
  Certificate.findById id (certificates db) = Some c ->
  let db' := snd (certificates.revoke now uid id reason db) in
  (forall code collection found,
     Certificate.verifyCertificate code collection = Some found ->
     Certificate.status found = Certificate.active
     /\ Certificate.verificationCode found = code)
  /\ (exists c',
        Certificate.findById id (certificates db') = Some c'
        /\ Certificate.status c' = Certificate.revoked
        /\ Certificate.verificationCode c' = Certificate.verificationCode c)
  /\ certificates.verify (Certificate.verificationCode c) db'
     = (json 404 false "Certificate not found or invalid verification code",
        None)
  /\ (forall other,
        In other (certificates db') ->
        Certificate.status other <> Certificate.active ->
        certificates.verify (Certificate.verificationCode other) db'
        = (json 404 false "Certificate not found or invalid verification code",
           None)).
Proof.
  intros Hnd Hauth Hrole Hfind db'.
  assert (Hid : Certificate._id c = id).
  { apply find_some in Hfind as [_ Hp]. apply bool_decide_eq_true in Hp.
    exact Hp. }
  assert (Hstored : exists c',
             Certificate.findById id (certificates db') = Some c'
             /\ In c' (certificates db')
             /\ Certificate.status c' = Certificate.revoked
             /\ Certificate.verificationCode c' = Certificate.verificationCode c
             /\ NoDup (map Certificate.verificationCode (certificates db'))).
  { subst db'. unfold certificates.revoke.
    rewrite Hauth, Hrole, Hfind.
    rewrite bool_decide_eq_true_2 by reflexivity. cbn [negb].
    destruct (bool_decide_reflect
                (Certificate.status c = Certificate.revoked)) as [Hrev | Hrev].
    - exists c. cbn [snd]. apply find_some in Hfind as Hin.
      destruct Hin as [Hin _]. auto.
    - set (c' := Certificate.revoke now (User._id admin) reason c).
      destruct (certificate_save (certificates db) c c') as (Hm & Hin & Hf);
        [rewrite Hid; exact Hfind | reflexivity | reflexivity |].
      exists c'. cbn [snd certificates set_certificates].
      rewrite Hm, <- Hid. auto. }
  destruct Hstored as (c' & Hfind' & Hin' & Hst' & Hcode' & Hnd').
  assert (Hnone : forall other,
             In other (certificates db') ->
             Certificate.status other <> Certificate.active ->
             certificates.verify (Certificate.verificationCode other) db'
             = (json 404 false
                  "Certificate not found or invalid verification code", None)).
  { intros other Hin Hst. unfold certificates.verify.
    rewrite (inactive_does_not_verify _ other Hnd' Hin Hst). reflexivity. }
  split; [| split; [| split]].
  - intros code collection found Hv. apply find_some in Hv as [_ Hp].
    unfold Certificate.verifiable in Hp.
    apply andb_true_iff in Hp as [Hc Hs].
    apply bool_decide_eq_true in Hc, Hs. auto.
  - exists c'. auto.
  - rewrite <- Hcode'. apply Hnone; [exact Hin' |]. rewrite Hst'. discriminate.
  - exact Hnone.
Qed.

(** Witness of C10: alice's certificate verifies until the admin revokes
    it; bob's pending certificate does not verify. *)
Lemma C10_witness_revocation :
  snd (certificates.verify "4F7K2M9QX1AB" Sample.db_certificates)
  = Some (Sample.mkCertificate "c1" "u-alice" "4F7K2M9QX1AB" Certificate.active)
  /\ fst Sample.adam_revokes = json 200 true "Certificate revoked successfully"
  /\ certificates.verify "4F7K2M9QX1AB" (snd Sample.adam_revokes)
     = (json 404 false "Certificate not found or invalid verification code",
        None)
  /\ certificates.verify "8H3N5P0RZ6CD" (snd Sample.adam_revokes)
     = (json 404 false "Certificate not found or invalid verification code",
        None).
Proof.
  destruct (C10_only_active_certificates_verify 5000 "u-adam" "c1"
              "issued by mistake" Sample.db_certificates Sample.adam
              (Sample.mkCertificate "c1" "u-alice" "4F7K2M9QX1AB"
                 Certificate.active))
    as (_ & _ & Hrevoked & Hother); try reflexivity.
  - cbn. repeat (apply NoDup_cons; split;
                   [rewrite ?elem_of_cons, elem_of_nil; intuition discriminate |]).
    apply NoDup_nil_2.
  - split; [reflexivity |]. split; [reflexivity |].
    split; [exact Hrevoked |].
    apply (Hother (Sample.mkCertificate "c2" "u-bob" "8H3N5P0RZ6CD"
                     Certificate.pending)).
    + vm_compute. auto.
    + discriminate.
Defined.

(** ** Teams *)

Lemma save_ids doc l :
  map Registration._id (Registrations.save doc l) = map Registration._id l.
Proof.
  induction l as [|a l IH]; cbn; [reflexivity |].
  destruct (bool_decide_reflect (Registration._id a = Registration._id doc))
    as [Ha | Ha]; cbn; congruence.
Qed.

Lemma In_save doc l r :
  NoDup (map Registration._id l) ->
  In r (Registrations.save doc l) ->
  r = doc \/ (In r l /\ Registration._id r <> Registration._id doc).
Proof.
  induction l as [|a l IH]; cbn; [tauto |].
  intros Hnd. apply NoDup_cons in Hnd as [Ha Hnd].
  rewrite list_elem_of_In in Ha.
  destruct (bool_decide_reflect (Registration._id a = Registration._id doc))
    as [Hid | Hid]; cbn.
  - intros [<- | Hr]; [auto |]. right. split; [auto |].
    intros Heq. apply Ha. rewrite Hid, <- Heq. apply in_map. exact Hr.
  - intros [<- | Hr]; [auto |].
    destruct (IH Hnd Hr) as [-> | [Hin Hne]]; auto.
Qed.

Lemma In_save_doc doc l :
  Registrations.findById (Registration._id doc) l <> None ->
  In doc (Registrations.save doc l).
Proof.
  unfold Registrations.findById.
  induction l as [|a l IH]; cbn; [congruence |].
  destruct (bool_decide (Registration._id a = Registration._id doc)); cbn; auto.
Qed.

Lemma findById_In id l r :
  Registrations.findById id l = Some r -> In r l.
Proof. intros Hf. apply find_some in Hf. tauto. Qed.

Lemma findById_fresh id l :
  Registrations.findById id l = None -> ~ In id (map Registration._id l).
Proof.
  intros Hf Hin. apply in_map_iff in Hin as (r & Hid & Hr).
  apply (find_none _ _ Hf) in Hr. apply bool_decide_eq_false in Hr. auto.
Qed.

Lemma sharing_save code doc l old :
  Registrations.findById (Registration._id doc) l = Some old ->
  codeOf doc = codeOf old ->
  sharing code (Registrations.save doc l) = sharing code l.
Proof.
  unfold sharing, Registrations.findById.
  induction l as [|a l IH]; cbn; [reflexivity |].
  destruct (bool_decide (Registration._id a = Registration._id doc)); cbn.
  - intros [= ->] Hcode. unfold hasCode. rewrite Hcode.
    destruct (bool_decide (codeOf old = Some code)); reflexivity.
  - intros Hf Hcode. destruct (hasCode code a); cbn; rewrite IH; auto.
Qed.

Lemma sharing_app code l d :
  sharing code (l ++ [d])
  = (sharing code l + (if hasCode code d then 1 else 0))%nat.
Proof.
  unfold sharing. rewrite List.filter_app, length_app. cbn.
  destruct (hasCode code d); reflexivity.
Qed.

Lemma sharing_pos code l r :
  In r l -> codeOf r = Some code -> (1 <= sharing code l)%nat.
Proof.
  intros Hin Hcode. unfold sharing.
  assert (Hf : In r (List.filter (hasCode code) l)).
  { apply filter_In. split; [exact Hin |].
    unfold hasCode. apply bool_decide_eq_true. exact Hcode. }
  destruct (List.filter (hasCode code) l); [destruct Hf | cbn; lia].
Qed.

Lemma NoDup_ids_snoc l d :
  NoDup (map Registration._id l) ->
  Registrations.findById (Registration._id d) l = None ->
  NoDup (map Registration._id (l ++ [d])).
Proof.
  intros Hnd Hf. rewrite map_app. cbn.
  apply NoDup_snoc; [exact Hnd |]. apply findById_fresh. exact Hf.
Qed.

Lemma findById_of_In l r :
  NoDup (map Registration._id l) -> In r l ->
  Registrations.findById (Registration._id r) l = Some r.
Proof.
  unfold Registrations.findById.
  induction l as [|a l IH]; cbn; [tauto |].
  intros Hnd. apply NoDup_cons in Hnd as [Ha Hnd].
  rewrite list_elem_of_In in Ha.
  intros [-> | Hin].
  - rewrite bool_decide_eq_true_2 by reflexivity. reflexivity.
  - rewrite bool_decide_eq_false_2; [auto |].
    intros Heq. apply Ha. rewrite Heq. apply in_map. exact Hin.
Qed.

(** What the team invariant reads of a registration is its [teamInfo]. *)
Lemma team_fields r r0 :
  Registration.teamInfo r0 = Registration.teamInfo r ->
  codeOf r0 = codeOf r /\ isLead r0 = isLead r
  /\ maxMembersOf r0 = maxMembersOf r
  /\ Registration.teamSize r0 = Registration.teamSize r.
Proof.
  unfold codeOf, isLead, maxMembersOf, Registration.teamSize.
  intros ->. auto.
Qed.

(** Saving a document whose [teamInfo] is the stored one keeps the teams. *)
Lemma teams_ok_neutral_save l doc old :
  teams_ok l ->
  Registrations.findById (Registration._id doc) l = Some old ->
  Registration.teamInfo doc = Registration.teamInfo old ->
  teams_ok (Registrations.save doc l).
Proof.
  intros [Hnd Huniq Hcount] Hfind Hti.
  destruct (team_fields old doc Hti) as (Hcode & Hlead & Hmax & Hsize).
  pose proof (findById_In _ _ _ Hfind) as Hold.
  pose proof (findById_id _ _ _ Hfind) as Hid.
  assert (Hsh : forall code,
             sharing code (Registrations.save doc l) = sharing code l)
    by (intros code; apply (sharing_save code doc l old Hfind Hcode)).
  assert (Hback : forall r,
             In r (Registrations.save doc l) ->
             exists r0, In r0 l
                        /\ Registration._id r0 = Registration._id r
                        /\ Registration.teamInfo r0 = Registration.teamInfo r).
  { intros r Hr. destruct (In_save doc l r Hnd Hr) as [-> | [Hin _]].
    - exists old. auto.
    - exists r. auto. }
  split.
  - rewrite save_ids. exact Hnd.
  - intros l1 l2 code H1 H2 Hl1 Hl2 Hc1 Hc2.
    destruct (Hback l1 H1) as (a1 & Ha1 & <- & Ht1).
    destruct (Hback l2 H2) as (a2 & Ha2 & <- & Ht2).
    destruct (team_fields l1 a1 Ht1) as (Ec1 & El1 & _).
    destruct (team_fields l2 a2 Ht2) as (Ec2 & El2 & _).
    apply (Huniq a1 a2 code); congruence.
  - intros lead code Hin Hl Hc.
    destruct (Hback lead Hin) as (a & Ha & _ & Ht).
    destruct (team_fields lead a Ht) as (Ec & El & Em & Es).
    destruct (Hcount a code Ha) as (m & Hm & Hs & Hle); [congruence .. |].
    exists m. rewrite Hsh, <- Em, <- Es. auto.
Qed.

(** A new registration that carries no team code keeps the teams. *)
Lemma teams_ok_append_plain l d :
  teams_ok l ->
  Registrations.findById (Registration._id d) l = None ->
  codeOf d = None ->
  teams_ok (l ++ [d]).
Proof.
  intros [Hnd Huniq Hcount] Hfresh Hcode.
  assert (Hsh : forall code, sharing code (l ++ [d]) = sharing code l).
  { intros code. rewrite sharing_app. unfold hasCode. rewrite Hcode.
    rewrite bool_decide_eq_false_2 by discriminate. lia. }
  assert (Hback : forall r code,
             In r (l ++ [d]) -> codeOf r = Some code -> In r l).
  { intros r code Hr Hc. apply in_app_iff in Hr as [Hr | [<- | []]];
      [exact Hr | congruence]. }
  split.
  - apply NoDup_ids_snoc; assumption.
  - intros l1 l2 code H1 H2 Hl1 Hl2 Hc1 Hc2.
    apply (Huniq l1 l2 code); eauto.
  - intros lead code Hin Hl Hc. rewrite Hsh.
    apply Hcount; eauto.
Qed.

(** A new team lead with a fresh code and room for itself keeps the teams. *)
Lemma teams_ok_append_lead l d code m :
  teams_ok l ->
  Registrations.findById (Registration._id d) l = None ->
  codeOf d = Some code ->
  maxMembersOf d = Js.Num m ->
  Registration.teamSize d = 1 ->
  1 <= m ->
  sharing code l = 0%nat ->
  teams_ok (l ++ [d]).
Proof.
  intros [Hnd Huniq Hcount] Hfresh Hcode Hmax Hsize Hm Hnew.
  assert (Hother : forall r c, In r l -> codeOf r = Some c -> c <> code).
  { intros r c Hr Hc ->. pose proof (sharing_pos code l r Hr Hc). lia. }
  split.
  - apply NoDup_ids_snoc; assumption.
  - intros l1 l2 c H1 H2 Hl1 Hl2 Hc1 Hc2.
    apply in_app_iff in H1 as [H1 | [<- | []]];
      apply in_app_iff in H2 as [H2 | [<- | []]].
    + apply (Huniq l1 l2 c); assumption.
    + exfalso. apply (Hother l1 c H1 Hc1). congruence.
    + exfalso. apply (Hother l2 c H2 Hc2). congruence.
    + reflexivity.
  - intros lead c Hin Hl Hc. rewrite sharing_app.
    apply in_app_iff in Hin as [Hin | [<- | []]].
    + unfold hasCode. rewrite Hcode.
      rewrite bool_decide_eq_false_2
        by (intros [= ->]; apply (Hother lead c Hin Hc); reflexivity).
      rewrite Nat.add_0_r. apply Hcount; assumption.
    + assert (c = code) as -> by congruence.
      exists m. unfold hasCode. rewrite Hcode.
      rewrite bool_decide_eq_true_2 by reflexivity.
      rewrite Hnew, Hsize. repeat split; [assumption | lia].
Qed.

Lemma findTeamLead_inv code eventId l lead :
  Registrations.findTeamLead code eventId l = Some lead ->
  In lead l
  /\ exists ti,
       Registration.teamInfo lead = Some ti
       /\ Registration.teamCode ti = Some code
       /\ Registration.isTeamLead ti = true.
Proof.
  intros Hf. apply find_some in Hf as [Hin Hp]. split; [exact Hin |].
  unfold Registrations.isLeadOf in Hp.
  destruct (Registration.teamInfo lead) as [ti|]; [| discriminate].
  apply andb_true_iff in Hp as [Hp Hlead].
  apply andb_true_iff in Hp as [Hcode _].
  apply bool_decide_eq_true in Hcode. eauto.
Qed.

(** Joining a team that has room: [addTeamMember] does not throw, and once
    the member's registration is stored and the lead is saved, the teams are
    in order again. *)
Lemma teams_ok_join l lead code eventId d member :
  teams_ok l ->
  Registrations.findTeamLead code eventId l = Some lead ->
  Js.ge
    (Some (Z.of_nat
             (length (Registration.teamMembers
                        (default Registration.methods.emptyTeamInfo
                           (Registration.teamInfo lead)))) + 1))
    (Js.toNumber
       (Registration.maxMembers
          (default Registration.methods.emptyTeamInfo
             (Registration.teamInfo lead)))) = false ->
  Registrations.findById (Registration._id d) l = None ->
  codeOf d = Some code ->
  isLead d = false ->
  exists lead',
    Registration.methods.addTeamMember member lead = Ok lead'
    /\ teams_ok (Registrations.save lead' (l ++ [d])).
Proof.
  intros Hok Hlead Hroom Hfresh Hdcode Hdlead.
  destruct Hok as [Hnd Huniq Hcount].
  destruct (findTeamLead_inv _ _ _ _ Hlead) as (Hin & ti & Hti & Hcode & Hisl).
  assert (HLcode : codeOf lead = Some code)
    by (unfold codeOf; rewrite Hti; exact Hcode).
  assert (HLlead : isLead lead = true)
    by (unfold isLead; rewrite Hti; exact Hisl).
  destruct (Hcount lead code Hin HLlead HLcode) as (m & Hmax & Hshare & Hle).
  unfold maxMembersOf in Hmax. unfold Registration.teamSize in Hshare, Hle.
  rewrite Hti in Hroom, Hmax, Hshare, Hle. cbn in Hroom. rewrite Hmax in Hroom.
  cbn in Hroom. apply bool_decide_eq_false in Hroom.
  set (lead' := Registration.pre_save
                  (Registration.set_teamInfo
                     (Some (Registration.methods.push_member member ti)) lead)).
  assert (Hadd : Registration.methods.addTeamMember member lead = Ok lead').
  { unfold Registration.methods.addTeamMember. rewrite Hti. cbn.
    rewrite Hmax. cbn. rewrite bool_decide_eq_false_2 by lia. reflexivity. }
  exists lead'. split; [exact Hadd |].
  destruct (pre_save_fields
              (Registration.set_teamInfo
                 (Some (Registration.methods.push_member member ti)) lead))
    as (_ & _ & _ & _ & Hti').
  fold lead' in Hti'. cbn in Hti'.
  assert (Hid' : Registration._id lead' = Registration._id lead)
    by (unfold lead'; rewrite pre_save_id; reflexivity).
  assert (Hcode' : codeOf lead' = Some code)
    by (unfold codeOf; rewrite Hti'; exact Hcode).
  assert (Hmax' : maxMembersOf lead' = Js.Num m)
    by (unfold maxMembersOf; rewrite Hti'; exact Hmax).
  assert (Hsize' : Registration.teamSize lead'
                   = Z.of_nat (length (Registration.teamMembers ti)) + 2).
  { unfold Registration.teamSize. rewrite Hti'. cbn.
    rewrite length_app. cbn. lia. }
  assert (Hstored : Registrations.findById (Registration._id lead') (l ++ [d])
                    = Some lead).
  { rewrite Hid'. apply find_app_some. apply findById_of_In; assumption. }
  assert (Hnd1 : NoDup (map Registration._id (l ++ [d])))
    by (apply NoDup_ids_snoc; assumption).
  assert (Hsh : forall c,
             sharing c (Registrations.save lead' (l ++ [d]))
             = (sharing c l + (if hasCode c d then 1 else 0))%nat).
  { intros c. rewrite (sharing_save c lead' (l ++ [d]) lead Hstored)
      by congruence. apply sharing_app. }
  assert (Hcases : forall r,
             In r (Registrations.save lead' (l ++ [d])) ->
             r = lead' \/ r = d
             \/ (In r l /\ Registration._id r <> Registration._id lead)).
  { intros r Hr. destruct (In_save lead' (l ++ [d]) r Hnd1 Hr)
      as [-> | [Hrl Hne]]; [auto |].
    rewrite Hid' in Hne.
    apply in_app_iff in Hrl as [Hrl | [<- | []]]; auto. }
  assert (Hnotc : forall r c,
             In r l -> Registration._id r <> Registration._id lead ->
             isLead r = true -> codeOf r = Some c -> c <> code).
  { intros r c Hr Hne Hl Hc ->. apply Hne.
    apply (Huniq r lead code); assumption. }
  split.
  - rewrite save_ids. exact Hnd1.
  - intros l1 l2 c H1 H2 Hl1 Hl2 Hc1 Hc2.
    destruct (Hcases l1 H1) as [-> | [-> | [H1' Hn1]]];
      destruct (Hcases l2 H2) as [-> | [-> | [H2' Hn2]]];
      try congruence.
    + exfalso. apply (Hnotc l2 c H2' Hn2 Hl2 Hc2). congruence.
    + exfalso. apply (Hnotc l1 c H1' Hn1 Hl1 Hc1). congruence.
    + apply (Huniq l1 l2 c); assumption.
  - intros r c Hr Hl Hc. rewrite Hsh.
    destruct (Hcases r Hr) as [-> | [-> | [Hr' Hn]]].
    + assert (c = code) as -> by congruence.
      exists m. unfold hasCode. rewrite Hdcode.
      rewrite bool_decide_eq_true_2 by reflexivity.
      rewrite Hsize'. repeat split; [exact Hmax' | lia | lia].
    + congruence.
    + unfold hasCode. rewrite Hdcode.
      rewrite bool_decide_eq_false_2
        by (intros [= <-]; apply (Hnotc r code Hr' Hn Hl Hc); reflexivity).
      rewrite Nat.add_0_r. apply Hcount; assumption.
Qed.

Lemma team_policy_events db db' :
  events db' = events db -> team_policy db -> team_policy db'.
Proof. unfold team_policy. intros ->. auto. Qed.

Lemma team_policy_save_event db event n k :
  events db !! k = Some event ->
  team_policy db ->
  team_policy (save_event (Event.set_currentParticipants n event) db).
Proof.
  intros Hev Hpol k' e. cbn.
  destruct (decide (Event._id event = k')) as [<- | Hne].
  - rewrite lookup_insert_eq. intros [= <-]. cbn. exact (Hpol k event Hev).
  - rewrite lookup_insert_ne by exact Hne. apply Hpol.
Qed.

Lemma attachQR_teams `{Runtime} now doc eventId db :
  teams_ok (registrations db) ->
  Registrations.findById (Registration._id doc) (registrations db) = Some doc ->
  teams_ok (registrations (registrations.attachQR now doc eventId db))
  /\ events (registrations.attachQR now doc eventId db) = events db
  /\ users (registrations.attachQR now doc eventId db) = users db.
Proof.
  intros Hok Hfind. unfold registrations.attachQR.
  destruct (qrCode.generateEventQR _ _ _) as [generated | ?]; [| auto].
  cbn. split; [| auto].
  set (q := Some _).
  destruct (pre_save_fields (Registration.set_qrCode q doc))
    as (_ & _ & _ & _ & Hti).
  apply teams_ok_neutral_save with (old := doc); [exact Hok | | exact Hti].
  rewrite pre_save_id. exact Hfind.
Qed.

(** The team part of the document that [POST /] creates. *)
Lemma registrationData_team now newId user eventId event teamInfo :
  let data :=
    registrations.registrationData now newId user eventId event teamInfo in
  codeOf data = None
  \/ (teamInfo <> None
      /\ codeOf data = Some (registrations.newTeamCode now)
      /\ maxMembersOf data = Js.Num (Event.teamSize_max event)
      /\ Registration.teamSize data = 1).
Proof.
  cbn. unfold codeOf, maxMembersOf, Registration.teamSize. cbn.
  destruct teamInfo as [input|]; [| auto].
  destruct (Event.isTeamEvent event); [| auto].
  right. cbn. repeat split. discriminate.
Qed.

Lemma register_preserves `{Runtime} now newId uid eventId teamInfo db :
  teams_invariant db ->
  freshCode (Register now newId uid eventId teamInfo) db ->
  teams_invariant
    (snd (registrations.register now newId uid eventId teamInfo db)).
Proof.
  intros [Hok Hpol] Hfresh. unfold registrations.register.
  destruct (auth.authenticate uid db) as [res | user]; [split; assumption |].
  destruct (events db !! eventId) as [event|] eqn:Hev; [| split; assumption].
  destruct (negb (bool_decide _)); [split; assumption |].
  destruct (negb (Event.isRegistrationOpen now event)); [split; assumption |].
  destruct (Registrations.findOne _ _ _); [split; assumption |].
  destruct (Js.ge _ _); [split; assumption |].
  set (data := registrations.registrationData now newId user eventId event
                 teamInfo).
  destruct (Registrations.create data (registrations db)) as [created | ?]
    eqn:Hcreate; [| split; assumption].
  apply create_inv in Hcreate as (-> & Hnew & _).
  change (Registration.pre_save data) with data.
  assert (Hok1 : teams_ok (registrations db ++ [data])).
  { destruct (registrationData_team now newId user eventId event teamInfo)
      as [Hnone | (Hteam & Hcode & Hmax & Hsize)].
    - apply teams_ok_append_plain; assumption.
    - apply teams_ok_append_lead
        with (code := registrations.newTeamCode now)
             (m := Event.teamSize_max event); try assumption.
      + exact (Hpol eventId event Hev).
      + destruct teamInfo; [exact Hfresh | congruence]. }
  destruct (attachQR_teams now data eventId
              (set_registrations (registrations db ++ [data]) db))
    as (Hok2 & Hev2 & Hus2).
  { exact Hok1. }
  { cbn. unfold Registrations.findById in *. rewrite find_app_none by exact Hnew.
    rewrite bool_decide_eq_true_2 by reflexivity. reflexivity. }
  assert (Hpol2 : team_policy
                    (registrations.attachQR now data eventId
                       (set_registrations (registrations db ++ [data]) db)))
    by (apply (team_policy_events db); assumption).
  unfold Event.addParticipant.
  destruct (Event.belowCapacity event); cbn [snd]; [| split; assumption].
  split.
  - exact Hok2.
  - apply (team_policy_events
             (save_event
                (Event.set_currentParticipants
                   (Event.currentParticipants event + 1) event)
                (registrations.attachQR now data eventId
                   (set_registrations (registrations db ++ [data]) db))));
      [reflexivity |].
    apply team_policy_save_event with (k := eventId); [| exact Hpol2].
    rewrite Hev2. exact Hev.
Qed.

Lemma joinTeam_preserves newId uid teamCode eventId db :
  teams_invariant db ->
  teams_invariant (snd (registrations.joinTeam newId uid teamCode eventId db)).
Proof.
  intros [Hok Hpol]. unfold registrations.joinTeam.
  destruct (auth.authenticate uid db) as [res | user]; [split; assumption |].
  destruct (Registrations.findTeamLead teamCode eventId (registrations db))
    as [lead|] eqn:Hlead; [| split; assumption].
  destruct (Registrations.findOne _ _ _); [split; assumption |].
  destruct (Js.ge _ _) eqn:Hroom; [split; assumption |].
  destruct (events db !! Registration.event lead) as [event|] eqn:Hev;
    [| split; assumption].
  set (d := registrations.memberData newId user eventId event teamCode _).
  destruct (Registrations.create d (registrations db)) as [created | ?]
    eqn:Hcreate; [| split; assumption].
  apply create_inv in Hcreate as (-> & Hnew & _).
  change (Registration.pre_save d) with d.
  set (member := {| Registration.member_user := _ |}).
  destruct (teams_ok_join (registrations db) lead teamCode eventId d member
              Hok Hlead Hroom Hnew eq_refl eq_refl) as (lead' & Hadd & Hok').
  rewrite Hadd. cbn [registrations set_registrations].
  unfold Event.addParticipant.
  destruct (Event.belowCapacity event); cbn [snd]; split;
    try exact Hok'; try exact Hpol.
  apply (team_policy_events
           (save_event
              (Event.set_currentParticipants
                 (Event.currentParticipants event + 1) event) db));
    [reflexivity |].
  apply team_policy_save_event with (k := Registration.event lead);
    assumption.
Qed.

Lemma cancel_preserves now uid id db :
  teams_invariant db ->
  teams_invariant (snd (registrations.cancel now uid id db)).
Proof.
  intros [Hok Hpol]. unfold registrations.cancel.
  destruct (auth.authenticate uid db) as [res | user]; [split; assumption |].
  destruct (Registrations.findById id (registrations db))
    as [registration|] eqn:Hreg; [| split; assumption].
  destruct (negb _ && negb _); [split; assumption |].
  destruct (events db !! Registration.event registration) as [event|] eqn:Hev;
    [| split; assumption].
  destruct (bool_decide _); [split; assumption |].
  cbn [snd].
  set (registration' := Registration.pre_save _).
  assert (Hok' : teams_ok (Registrations.save registration' (registrations db))).
  { apply teams_ok_neutral_save with (old := registration); [exact Hok | |].
    - unfold registration'. rewrite pre_save_id. cbn.
      rewrite (findById_id _ _ _ Hreg). exact Hreg.
    - unfold registration'.
      destruct (pre_save_fields
                  (Registration.set_status Registration.cancelled registration))
        as (_ & _ & _ & _ & Hti).
      exact Hti. }
  unfold Event.removeParticipant.
  destruct (bool_decide _); split; try exact Hok'; try exact Hpol.
  apply (team_policy_events
           (save_event
              (Event.set_currentParticipants
                 (Event.currentParticipants event - 1) event) db));
    [reflexivity |].
  apply team_policy_save_event with (k := Registration.event registration);
    assumption.
Qed.

Lemma checkin_preserves `{Runtime} now uid id method location qrData db :
  teams_invariant db ->
  teams_invariant
    (snd (registrations.checkin now uid id method location qrData db)).
Proof.
  intros Hinv.
  rewrite (proj1 (checkin_fails now uid id method location qrData db)).
  exact Hinv.
Qed.

Lemma handle_preserves `{Runtime} req db :
  teams_invariant db -> freshCode req db ->
  teams_invariant (snd (handle req db)).
Proof.
  intros Hinv Hfresh. destruct req; cbn [handle].
  - apply register_preserves; assumption.
  - apply joinTeam_preserves; assumption.
  - apply cancel_preserves; assumption.
  - apply checkin_preserves; assumption.
Qed.

Lemma run_preserves `{Runtime} requests :
  forall db,
    teams_invariant db -> freshCodes requests db ->
    teams_invariant (run requests db).
Proof.
  induction requests as [|req requests IH]; intros db Hinv Hfresh.
  - exact Hinv.
  - destruct Hfresh as [Hreq Hrest].
    change (run (req :: requests) db)
      with (run requests (snd (handle req db))).
    apply IH; [apply handle_preserves; assumption | exact Hrest].
Qed.

(** Where each newly generated team code is not yet in use and every event
    has [teamSize.max >= 1], the registrations sharing a lead's code stay
    within its [maxMembers]: start from a store whose registrations form
    teams and handle any sequence of registration, join-team, cancellation
    and check-in requests. *)
Lemma teams_bounded_with_fresh_codes `{Runtime} requests db :
  teams_invariant db ->
  freshCodes requests db ->
  forall lead code,
    In lead (registrations (run requests db)) ->
    isLead lead = true ->
    codeOf lead = Some code ->
    exists m,
      maxMembersOf lead = Js.Num m
      /\ Z.of_nat (sharing code (registrations (run requests db))) <= m.
Proof.
  intros Hinv Hfresh lead code Hin Hlead Hcode.
  destruct (run_preserves requests db Hinv Hfresh) as [[_ _ Hcount] _].
  destruct (Hcount lead code Hin Hlead Hcode) as (m & Hm & Hs & Hle).
  exists m. split; [exact Hm | lia].
Qed.

Lemma sample_store_invariant : teams_invariant Sample.db0.
Proof.
  split.
  - split; cbn; [apply NoDup_nil_2 | tauto | tauto].
  - intros k e He. unfold Sample.db0 in He. cbn [events] in He.
    repeat (apply lookup_insert_Some in He as [[_ <-] | [_ He]];
            [vm_compute; discriminate |]).
    rewrite lookup_empty in He. discriminate.
Qed.

(** *** The team code is the clock reading *)

Lemma digitValue_digit36 d : 0 <= d < 36 -> digitValue (digit36 d) = d.
Proof.
  intros Hd. unfold digitValue, digit36.
  destruct (bool_decide_reflect (d < 10)) as [Hlt | Hge].
  - rewrite Ascii.nat_ascii_embedding by lia.
    rewrite bool_decide_eq_true_2 by lia. lia.
  - rewrite Ascii.nat_ascii_embedding by lia.
    rewrite bool_decide_eq_false_2 by lia. lia.
Qed.

Lemma append_cons a s t : String a s +:+ t = String a (s +:+ t).
Proof. reflexivity. Qed.

Lemma parse36_app s1 s2 :
  forall v, parse36 (s1 +:+ s2) v = parse36 s2 (parse36 s1 v).
Proof.
  induction s1 as [|c s1 IH]; intros v; [reflexivity |].
  rewrite append_cons. cbn [parse36]. apply IH.
Qed.

Lemma append_snoc s c acc : (s +:+ String c "") +:+ acc = s +:+ String c acc.
Proof.
  induction s as [|a s IH]; [reflexivity |].
  rewrite !append_cons, IH. reflexivity.
Qed.

Lemma append_empty s : s +:+ "" = s.
Proof.
  induction s as [|a s IH]; [reflexivity |].
  rewrite append_cons, IH. reflexivity.
Qed.

Lemma digits36_spec fuel : forall n acc,
  0 <= n < 36 ^ Z.of_nat fuel ->
  exists ds, digits36 fuel n acc = ds +:+ acc /\ parse36 ds 0 = n.
Proof.
  induction fuel as [|fuel IH]; intros n acc Hn.
  - exists ""%string. cbn in *. split; [reflexivity | lia].
  - cbn [digits36].
    assert (Hmod : 0 <= n `mod` 36 < 36) by (apply Z.mod_pos_bound; lia).
    assert (Hdiv : n = 36 * (n `div` 36) + n `mod` 36) by (apply Z.div_mod; lia).
    destruct (bool_decide_reflect (n `div` 36 = 0)) as [Hz | Hnz].
    + exists (String (digit36 (n `mod` 36)) ""). split; [reflexivity |].
      cbn. rewrite digitValue_digit36 by exact Hmod. lia.
    + destruct (IH (n `div` 36) (String (digit36 (n `mod` 36)) acc))
        as (ds & Hds & Hval).
      { rewrite Nat2Z.inj_succ, Z.pow_succ_r in Hn by lia.
        split; [apply Z.div_pos; lia |].
        apply Z.div_lt_upper_bound; lia. }
      exists (ds +:+ String (digit36 (n `mod` 36)) ""). split.
      * rewrite Hds, append_snoc. reflexivity.
      * rewrite parse36_app, Hval. cbn.
        rewrite digitValue_digit36 by exact Hmod. lia.
Qed.

(** The digits written for a clock reading denote it. *)
Lemma parse36_toString36 n : 0 <= n -> parse36 (toString36 n) 0 = n.
Proof.
  intros Hn. unfold toString36. rewrite bool_decide_eq_false_2 by lia.
  destruct (digits36_spec (S (Z.to_nat (Z.log2 n))) n "") as (ds & Hds & Hval).
  { split; [exact Hn |].
    rewrite Nat2Z.inj_succ, Z2Nat.id by apply Z.log2_nonneg.
    destruct (Z.eq_dec n 0) as [-> | Hpos]; [cbn; lia |].
    apply Z.lt_le_trans with (2 ^ Z.succ (Z.log2 n)).
    - apply Z.log2_spec. lia.
    - apply Z.pow_le_mono_l. lia. }
  rewrite Hds, append_empty. exact Hval.
Qed.

(** Two team codes are the same exactly when they were generated at the
    same clock reading. *)
Lemma newTeamCode_injective a b :
  0 <= a -> 0 <= b ->
  registrations.newTeamCode a = registrations.newTeamCode b -> a = b.
Proof.
  intros Ha Hb Heq. unfold registrations.newTeamCode in Heq.
  apply (inj (String.app _)) in Heq.
  rewrite <- (parse36_toString36 a Ha), <- (parse36_toString36 b Hb), Heq.
  reflexivity.
Qed.

(** C8, where the code departs from it.  The scenario of C8 holds:
    with [teamSize.max = 3], alice registers with the team name "Rocket" and
    gets a team code; bob and carol join with it (three registrations share
    the code, the lead's team size is 3); dave's attempt with the same code is
    answered "Team is already full" and leaves the store as it was.  The
    invariant does not hold of every run.  The team code is the clock reading
    and nothing else, written in base 36: two codes are the same exactly when
    the readings are, and neither the route nor the index on
    [teamInfo.teamCode] refuses a code that is in use.  When alice and dave
    both register a team for the hackathon at the reading 1000 they get the
    same code; bob and carol join with it, and four registrations share the
    code of a lead whose [maxMembers] is 3 (had dave registered at 1001, the
    code would be shared by three).  And [teamSize.max] is not validated: an
    event with [teamSize] from 0 to 0 passes the validation of the model, and
    the lead who registers for it has [maxMembers = 0] and one registration
    with the code. *)
Theorem C8_team_can_exceed_maxMembers :
  Event.teamSize_max Sample.hackathon = 3
  /\ (exists lead,
        Registrations.findTeamLead Sample.rocket "e-hack"
          (registrations Sample.team_of_three) = Some lead
        /\ Registration.user lead = "u-alice"
        /\ maxMembersOf lead = Js.Num 3
        /\ Registration.teamSize lead = 3)
  /\ map Registration.user
       (List.filter (hasCode Sample.rocket)
          (registrations Sample.team_of_three))
     = ["u-alice"; "u-bob"; "u-carol"]%string
  /\ sharing Sample.rocket (registrations Sample.team_of_three) = 3%nat
  /\ Sample.dave_joins
     = (json 400 false "Team is already full", Sample.team_of_three)
  /\ (forall a b,
        0 <= a -> 0 <= b ->
        registrations.newTeamCode a = registrations.newTeamCode b <-> a = b)
  /\ (exists lead,
        Registrations.findTeamLead Sample.rocket "e-hack"
          (registrations Sample.two_leads) = Some lead
        /\ Registration.user lead = "u-alice"
        /\ maxMembersOf lead = Js.Num 3)
  /\ map (fun r => (Registration.user r, isLead r, maxMembersOf r))
       (List.filter (hasCode Sample.rocket) (registrations Sample.two_leads))
     = [ ("u-alice", true, Js.Num 3); ("u-dave", true, Js.Num 3);
         ("u-bob", false, Js.Undefined);
         ("u-carol", false, Js.Undefined) ]%string
  /\ sharing Sample.rocket (registrations Sample.two_leads) = 4%nat
  /\ sharing Sample.rocket
       (registrations
          (@run Sample.runtime Sample.next_tick_requests Sample.db0))
     = 3%nat
  /\ EventMore.pre_save 0 Sample.solo = Ok Sample.solo
  /\ fst Sample.alice_leads_solo
     = json 201 true "Successfully registered for the event"
  /\ map (fun r => (Registration.user r, isLead r, maxMembersOf r))
       (List.filter (hasCode Sample.rocket)
          (registrations (snd Sample.alice_leads_solo)))
     = [ ("u-alice"%string, true, Js.Num 0) ]
  /\ sharing Sample.rocket (registrations (snd Sample.alice_leads_solo))
     = 1%nat.
Proof.
  split; [reflexivity |].
  split; [eexists; repeat split; vm_compute; reflexivity |].
  do 3 (split; [vm_compute; reflexivity |]).
  split.
  { intros a b Ha Hb. split; [apply newTeamCode_injective; assumption |].
    intros ->. reflexivity. }
  split; [eexists; repeat split; vm_compute; reflexivity |].
  repeat split; vm_compute; reflexivity.
Qed.

(** ** The dates, the phases and the counter of an event *)

Lemma ceilDiv_bounds a d :
  0 < d -> (EventMore.ceilDiv a d - 1) * d < a <= EventMore.ceilDiv a d * d.
Proof.
  intros Hd. unfold EventMore.ceilDiv.
  pose proof (Z.div_mod (- a) d ltac:(lia)) as Hdm.
  pose proof (Z.mod_pos_bound (- a) d Hd) as Hm.
  generalize dependent ((- a) `div` d). generalize dependent ((- a) `mod` d).
  intros r Hr q Hq. nia.
Qed.

(** X1 (models/Event.js, the validation before a save and the virtuals
    [isRegistrationOpen] and [eventStatus]): for an event the validation
    accepts, registration is open only while the event is upcoming, or at
    the very instant it starts; it is never open once the event is
    completed. *)
Theorem validated_event_open_before_start (m : Z) (e e' : Event.t) (now : Date) :
  EventMore.pre_save m e = Ok e' ->
  Event.isRegistrationOpen now e' = true ->
  EventMore.eventStatus now e' = EventMore.upcoming
  \/ (now = Event.startDate e'
      /\ now = Event.registrationDeadline e'
      /\ EventMore.eventStatus now e' = EventMore.ongoing).
Proof.
  unfold EventMore.pre_save, Event.isRegistrationOpen, EventMore.eventStatus.
  destruct (bool_decide_reflect (Event.startDate e >= Event.endDate e));
    [discriminate |].
  destruct (bool_decide_reflect
              (Event.registrationDeadline e > Event.startDate e));
    [discriminate |].
  destruct (Event.isTeamEvent e && _); [discriminate |].
  intros [= <-] Hopen.
  apply andb_true_iff in Hopen as [Hopen _].
  apply andb_true_iff in Hopen as [Hd _].
  apply bool_decide_eq_true in Hd.
  destruct (bool_decide_reflect (now < Event.startDate e)); [left; reflexivity |].
  right. split; [lia |]. split; [lia |].
  rewrite !bool_decide_eq_true_2 by lia. reflexivity.
Qed.

Lemma validated_event_open_before_start_witness :
  EventMore.eventStatus 10 Sample.workshop = EventMore.upcoming
  \/ (10 = Event.startDate Sample.workshop
      /\ 10 = Event.registrationDeadline Sample.workshop
      /\ EventMore.eventStatus 10 Sample.workshop = EventMore.ongoing).
Proof.
  apply (validated_event_open_before_start 1 Sample.workshop);
    vm_compute; reflexivity.
Defined.

(** X2 (models/Event.js, the validation before a save and the virtual
    [duration]): an event the validation accepts lasts [duration] days
    rounded up: its span is more than [duration - 1] days and at most
    [duration] days, so [duration] is at least 1. *)
Theorem validated_event_duration (m : Z) (e e' : Event.t) :
  EventMore.pre_save m e = Ok e' ->
  (EventMore.duration e' - 1) * EventMore.day
    < Event.endDate e' - Event.startDate e'
    <= EventMore.duration e' * EventMore.day
  /\ 1 <= EventMore.duration e'.
Proof.
  unfold EventMore.pre_save.
  destruct (bool_decide_reflect (Event.startDate e >= Event.endDate e));
    [discriminate |].
  destruct (bool_decide _); [discriminate |].
  destruct (Event.isTeamEvent e && _); [discriminate |].
  intros [= <-]. unfold EventMore.duration.
  rewrite Z.abs_eq by lia.
  pose proof (ceilDiv_bounds (Event.endDate e - Event.startDate e)
                EventMore.day ltac:(reflexivity)) as Hb.
  split; [exact Hb |].
  assert (0 < EventMore.day) by reflexivity. nia.
Qed.

Lemma validated_event_duration_witness :
  (EventMore.duration Sample.workshop - 1) * EventMore.day
    < Event.endDate Sample.workshop - Event.startDate Sample.workshop
    <= EventMore.duration Sample.workshop * EventMore.day
  /\ 1 <= EventMore.duration Sample.workshop.
Proof.
  apply (validated_event_duration 1 Sample.workshop); vm_compute; reflexivity.
Defined.

(** X3 (models/Event.js, the virtual [eventStatus]): the phase of an event
    never goes back as time passes: upcoming, then ongoing, then completed,
    whatever its dates are. *)
Theorem eventStatus_monotone (e : Event.t) (now1 now2 : Date) :
  now1 <= now2 ->
  EventMore.rank (EventMore.eventStatus now1 e)
  <= EventMore.rank (EventMore.eventStatus now2 e).
Proof.
  intros Hle. unfold EventMore.eventStatus.
  repeat match goal with
         | |- context [bool_decide ?P] =>
             destruct (bool_decide_reflect P); cbn [andb]
         end; cbn; lia.
Qed.

Lemma eventStatus_monotone_witness :
  EventMore.rank (EventMore.eventStatus 10 Sample.workshop)
  <= EventMore.rank (EventMore.eventStatus 5000 Sample.workshop).
Proof.
  apply (eventStatus_monotone Sample.workshop 10 5000). lia.
Defined.

(** ** Badges *)

Lemma addBadge_spec b bs :
  NoDup (map Badges.name bs) ->
  NoDup (map Badges.name (Badges.addBadge b bs))
  /\ (exists rest, Badges.addBadge b bs = bs ++ rest)
  /\ forall n, In n (map Badges.name (Badges.addBadge b bs))
               <-> In n (map Badges.name bs) \/ n = Badges.name b.
Proof.
  intros Hnd. unfold Badges.addBadge.
  destruct (List.find _ bs) as [x|] eqn:Hf.
  - split; [exact Hnd |]. split; [exists []; symmetry; apply app_nil_r |].
    intros n. split; [auto |]. intros [Hn | ->]; [exact Hn |].
    apply find_some in Hf as [Hin Hx]. apply bool_decide_eq_true in Hx.
    rewrite <- Hx. apply in_map. exact Hin.
  - split; [| split; [eauto |]].
    + rewrite map_app. cbn. apply NoDup_snoc; [exact Hnd |].
      intros Hin. apply in_map_iff in Hin as (x & Hx & Hin).
      apply (find_none _ _ Hf) in Hin. apply bool_decide_eq_false in Hin. auto.
    + intros n. rewrite map_app, in_app_iff. cbn. intuition auto.
Qed.

(** X4 (models/User.js, [addBadge]): whatever badges are added, in whatever
    order, the names of a user's badges stay pairwise different, the badges
    the user had are kept as they are and in place (a second badge under a
    name the user has is dropped), and the names afterwards are the old ones
    and the added ones. *)
Theorem addBadges_keeps_names_unique (new badges : list Badges.Badge) :
  NoDup (map Badges.name badges) ->
  NoDup (map Badges.name (Badges.addBadges new badges))
  /\ (exists rest, Badges.addBadges new badges = badges ++ rest)
  /\ forall n, In n (map Badges.name (Badges.addBadges new badges))
               <-> In n (map Badges.name badges) \/ In n (map Badges.name new).
Proof.
  unfold Badges.addBadges. revert badges.
  induction new as [|b new IH]; intros badges Hnd; cbn [fold_left].
  - split; [exact Hnd |]. split; [exists []; symmetry; apply app_nil_r |].
    intros n. cbn. tauto.
  - destruct (addBadge_spec b badges Hnd) as (Hnd1 & [rest1 Hpre1] & Hn1).
    destruct (IH _ Hnd1) as (Hnd2 & [rest2 Hpre2] & Hn2).
    split; [exact Hnd2 |]. split.
    + exists (rest1 ++ rest2). rewrite Hpre2, Hpre1. symmetry. apply app_assoc.
    + intros n. rewrite Hn2, Hn1. cbn. intuition auto.
Qed.

Lemma addBadges_keeps_names_unique_witness :
  NoDup (map Badges.name
           (Badges.addBadges [Sample2.badge "Winner" 2; Sample2.badge "Helper" 3]
              [Sample2.badge "Winner" 1])).
Proof.
  apply (addBadges_keeps_names_unique
           [Sample2.badge "Winner" 2; Sample2.badge "Helper" 3]
           [Sample2.badge "Winner" 1]).
  cbn. apply NoDup_cons. split; [rewrite elem_of_nil; tauto | apply NoDup_nil_2].
Defined.

(** ** Team members *)

Lemma pre_save_pre_save r :
  Registration.pre_save (Registration.pre_save r) = Registration.pre_save r.
Proof.
  unfold Registration.pre_save.
  destruct (Registration.attendance r) as [a|] eqn:Ha.
  - destruct (bool_decide (Registration.totalSessions a > 0)) eqn:Hb.
    + cbn. rewrite Hb. reflexivity.
    + rewrite Ha, Hb. reflexivity.
  - rewrite Ha. reflexivity.
Qed.

Lemma pre_save_set_teamInfo ti r :
  Registration.pre_save (Registration.set_teamInfo ti r)
  = Registration.set_teamInfo ti (Registration.pre_save r).
Proof.
  unfold Registration.pre_save. cbn.
  destruct (Registration.attendance r) as [a|]; [| reflexivity].
  destruct (bool_decide _); reflexivity.
Qed.

Lemma filter_keep_others_all userId l :
  (forall x, In x l -> Registration.member_user x <> userId) ->
  List.filter (RegistrationMore.keep_others userId) l = l.
Proof.
  induction l as [|a l IH]; cbn; [reflexivity |].
  intros Hall. unfold RegistrationMore.keep_others at 1.
  rewrite bool_decide_eq_false_2 by (apply Hall; auto). cbn.
  f_equal. apply IH. auto.
Qed.

Lemma removeTeamMember_eq userId this ti :
  Registration.teamInfo this = Some ti ->
  RegistrationMore.removeTeamMember userId this
  = Registration.set_teamInfo
      (Some (RegistrationMore.filter_members userId ti))
      (Registration.pre_save this).
Proof.
  intros Hti. unfold RegistrationMore.removeTeamMember. rewrite Hti.
  apply pre_save_set_teamInfo.
Qed.

Lemma keep_others_true userId m :
  RegistrationMore.keep_others userId m = true ->
  Registration.member_user m <> userId.
Proof.
  unfold RegistrationMore.keep_others. intros Hk.
  apply negb_true_iff, bool_decide_eq_false in Hk. exact Hk.
Qed.

Lemma filter_members_twice userId ti :
  RegistrationMore.filter_members userId
    (RegistrationMore.filter_members userId ti)
  = RegistrationMore.filter_members userId ti.
Proof.
  unfold RegistrationMore.filter_members. cbn. f_equal.
  apply filter_keep_others_all. intros x Hx.
  apply filter_In in Hx as [_ Hk]. apply keep_others_true. exact Hk.
Qed.

(** X5 (models/Registration.js, [removeTeamMember]): after
    [removeTeamMember(userId)] on a registration with team information, the
    member list holds no entry of that user and keeps the entries of the
    others in their order, the team size has not grown, and a second call
    changes nothing. *)
Theorem removeTeamMember_removes_every_entry (userId : ObjectId)
    (this : Registration.t) (ti : Registration.TeamInfo) :
  Registration.teamInfo this = Some ti ->
  let r := RegistrationMore.removeTeamMember userId this in
  RegistrationMore.members r
  = List.filter (RegistrationMore.keep_others userId)
      (Registration.teamMembers ti)
  /\ (forall m, In m (RegistrationMore.members r) ->
                Registration.member_user m <> userId)
  /\ Registration.teamSize r <= Registration.teamSize this
  /\ RegistrationMore.removeTeamMember userId r = r.
Proof.
  intros Hti r.
  assert (Hr : r = Registration.set_teamInfo
                     (Some (RegistrationMore.filter_members userId ti))
                     (Registration.pre_save this))
    by (apply removeTeamMember_eq; exact Hti).
  assert (Hm : RegistrationMore.members r
               = List.filter (RegistrationMore.keep_others userId)
                   (Registration.teamMembers ti))
    by (rewrite Hr; reflexivity).
  split; [exact Hm |]. split; [| split].
  - intros m Hin. rewrite Hm in Hin. apply filter_In in Hin as [_ Hk].
    apply keep_others_true. exact Hk.
  - unfold Registration.teamSize. rewrite Hti, Hr. cbn.
    pose proof (filter_length_le (RegistrationMore.keep_others userId)
                  (Registration.teamMembers ti)). lia.
  - rewrite (removeTeamMember_eq userId r
               (RegistrationMore.filter_members userId ti))
      by (rewrite Hr; reflexivity).
    rewrite filter_members_twice. rewrite Hr at 1.
    rewrite pre_save_set_teamInfo, pre_save_pre_save.
    rewrite Hr. reflexivity.
Qed.

Lemma removeTeamMember_removes_every_entry_witness :
  RegistrationMore.removeTeamMember "u-eve"
    (RegistrationMore.removeTeamMember "u-eve" Sample2.lead)
  = RegistrationMore.removeTeamMember "u-eve" Sample2.lead.
Proof.
  eapply (fun ti H =>
            proj2 (proj2 (proj2 (removeTeamMember_removes_every_entry
                                   "u-eve" Sample2.lead ti H)))).
  reflexivity.
Defined.

(** X6 (models/Registration.js, [addTeamMember] and [removeTeamMember]):
    removing a member who has just been added, and who had no entry before,
    gives back the team information the registration had. *)
Theorem removeTeamMember_undoes_addTeamMember (m : Registration.TeamMember)
    (this this' : Registration.t) (ti : Registration.TeamInfo) :
  Registration.teamInfo this = Some ti ->
  (forall x, In x (Registration.teamMembers ti) ->
             Registration.member_user x <> Registration.member_user m) ->
  Registration.methods.addTeamMember m this = Ok this' ->
  Registration.teamInfo
    (RegistrationMore.removeTeamMember (Registration.member_user m) this')
  = Some ti
  /\ Registration.teamSize
       (RegistrationMore.removeTeamMember (Registration.member_user m) this')
     = Registration.teamSize this.
Proof.
  intros Hti Hnew Hadd. unfold Registration.methods.addTeamMember in Hadd.
  rewrite Hti in Hadd. cbn [default] in Hadd.
  destruct (Js.ge _ _); [discriminate |]. injection Hadd as <-.
  rewrite pre_save_set_teamInfo.
  rewrite (removeTeamMember_eq _ _ (Registration.methods.push_member m ti))
    by reflexivity.
  assert (Hf : RegistrationMore.filter_members (Registration.member_user m)
                 (Registration.methods.push_member m ti) = ti).
  { unfold RegistrationMore.filter_members, Registration.methods.push_member.
    cbn. rewrite List.filter_app. cbn.
    unfold RegistrationMore.keep_others at 2.
    rewrite bool_decide_eq_true_2 by reflexivity. cbn.
    rewrite app_nil_r, filter_keep_others_all by exact Hnew.
    destruct ti; reflexivity. }
  rewrite Hf. split; [reflexivity |].
  unfold Registration.teamSize. cbn. rewrite Hti. reflexivity.
Qed.

Lemma removeTeamMember_undoes_addTeamMember_witness :
  exists this',
    Registration.methods.addTeamMember Sample2.eve Sample2.lead = Ok this'
    /\ Registration.teamInfo (RegistrationMore.removeTeamMember "u-eve" this')
       = Registration.teamInfo Sample2.lead.
Proof.
  eexists. split; [reflexivity |].
  eapply (fun ti H1 H2 H3 =>
            proj1 (removeTeamMember_undoes_addTeamMember
                     Sample2.eve Sample2.lead _ ti H1 H2 H3)).
  - reflexivity.
  - cbn. tauto.
  - reflexivity.
Defined.

(** ** Downloads and shares of a certificate *)

Lemma lastN_all {A} n (l : list A) :
  (length l <= n)%nat -> CertificateMore.lastN n l = l.
Proof.
  intros Hle. unfold CertificateMore.lastN.
  replace (length l - n)%nat with 0%nat by lia. reflexivity.
Qed.

Lemma lastN_length {A} n (l : list A) :
  length (CertificateMore.lastN n l) = Nat.min n (length l).
Proof. unfold CertificateMore.lastN. rewrite length_skipn. lia. Qed.

Lemma lastN_app {A} n (l k : list A) :
  CertificateMore.lastN n (CertificateMore.lastN n l ++ k)
  = CertificateMore.lastN n (l ++ k).
Proof.
  unfold CertificateMore.lastN.
  replace (skipn (length l - n) l ++ k) with (skipn (length l - n) (l ++ k)).
  - rewrite skipn_skipn, length_skipn, !length_app. f_equal. lia.
  - rewrite skipn_app. replace (length l - n - length l)%nat with 0%nat by lia.
    reflexivity.
Qed.

Lemma recordDownload_history now ip ua d :
  CertificateMore.downloadHistory (CertificateMore.recordDownload now ip ua d)
  = CertificateMore.lastN 100
      (CertificateMore.downloadHistory d
         ++ [{| CertificateMore.downloadedAt := now;
                CertificateMore.ipAddress := ip;
                CertificateMore.userAgent := ua |}]).
Proof.
  unfold CertificateMore.recordDownload.
  cbn [CertificateMore.downloadHistory].
  destruct (bool_decide_reflect
              (Z.of_nat (length (CertificateMore.downloadHistory d
                 ++ [{| CertificateMore.downloadedAt := now;
                        CertificateMore.ipAddress := ip;
                        CertificateMore.userAgent := ua |}])) > 100))
    as [Hgt | Hle]; [reflexivity |].
  symmetry. apply lastN_all. lia.
Qed.

Lemma recordDownloads_spec calls : forall d,
  CertificateMore.count (CertificateMore.recordDownloads calls d)
  = CertificateMore.count d + Z.of_nat (length calls)
  /\ CertificateMore.lastN 100
       (CertificateMore.downloadHistory
          (CertificateMore.recordDownloads calls d))
     = CertificateMore.lastN 100 (CertificateMore.downloadHistory d ++ calls)
  /\ (calls <> [] ->
      CertificateMore.downloadHistory (CertificateMore.recordDownloads calls d)
      = CertificateMore.lastN 100 (CertificateMore.downloadHistory d ++ calls)).
Proof.
  unfold CertificateMore.recordDownloads.
  induction calls as [|c calls IH]; intros d; cbn [fold_left].
  - rewrite app_nil_r. split; [cbn; lia |]. split; [reflexivity | congruence].
  - destruct (IH (CertificateMore.recordDownload
                    (CertificateMore.downloadedAt c)
                    (CertificateMore.ipAddress c)
                    (CertificateMore.userAgent c) d)) as (Hc & Hl & Hh).
    rewrite recordDownload_history in Hl, Hh.
    rewrite lastN_app in Hl, Hh.
    replace {| CertificateMore.downloadedAt := CertificateMore.downloadedAt c;
               CertificateMore.ipAddress := CertificateMore.ipAddress c;
               CertificateMore.userAgent := CertificateMore.userAgent c |}
      with c in Hl, Hh by (destruct c; reflexivity).
    rewrite <- app_assoc in Hl, Hh. cbn [app] in Hl, Hh.
    split; [rewrite Hc; cbn; lia |]. split; [exact Hl |].
    intros _. destruct calls as [|c' calls'].
    + cbn [fold_left]. rewrite recordDownload_history.
      destruct c; reflexivity.
    + apply Hh. congruence.
Qed.

(** X7 (models/Certificate.js, [recordDownload]): however many downloads
    are recorded on a certificate whose history holds at most 100 records,
    the counter has grown by their number, and the history holds the last
    100 of the old and the new records, in order: never more than 100, and
    the newest last. *)
Theorem recordDownload_keeps_last_100 (calls : list CertificateMore.DownloadRecord)
    (d : CertificateMore.Downloads) :
  (length (CertificateMore.downloadHistory d) <= 100)%nat ->
  let d' := CertificateMore.recordDownloads calls d in
  CertificateMore.count d'
  = CertificateMore.count d + Z.of_nat (length calls)
  /\ CertificateMore.downloadHistory d'
     = CertificateMore.lastN 100 (CertificateMore.downloadHistory d ++ calls)
  /\ length (CertificateMore.downloadHistory d')
     = Nat.min 100 (length (CertificateMore.downloadHistory d) + length calls).
Proof.
  intros Hle d'. destruct (recordDownloads_spec calls d) as (Hc & _ & Hh).
  assert (Hd : CertificateMore.downloadHistory d'
               = CertificateMore.lastN 100
                   (CertificateMore.downloadHistory d ++ calls)).
  { destruct calls as [|c calls]; [| apply Hh; congruence].
    subst d'. cbn. rewrite app_nil_r. symmetry. apply lastN_all. exact Hle. }
  split; [exact Hc |]. split; [exact Hd |].
  rewrite Hd, lastN_length, length_app. reflexivity.
Qed.

Lemma recordDownload_keeps_last_100_witness :
  length (CertificateMore.downloadHistory
            (CertificateMore.recordDownloads
               (map Sample2.download (seqZ 1 150)) Sample2.noDownloads))
  = Nat.min 100
      (length (CertificateMore.downloadHistory Sample2.noDownloads)
       + length (map Sample2.download (seqZ 1 150))).
Proof.
  apply (recordDownload_keeps_last_100
           (map Sample2.download (seqZ 1 150)) Sample2.noDownloads).
  cbn. lia.
Defined.

Lemma recordShare_unset p s :
  (forall q, CertificateMore.truthy (CertificateMore.socialShares q s) = false) ->
  CertificateMore.shareCount (CertificateMore.recordShare p s)
  = CertificateMore.shareCount s + 1
  /\ forall q, CertificateMore.socialShares q (CertificateMore.recordShare p s)
               = CertificateMore.socialShares q s.
Proof.
  intros Hs. split; [reflexivity |].
  intros q. unfold CertificateMore.recordShare.
  rewrite (Hs p). destruct q; reflexivity.
Qed.

(** X8 (models/Certificate.js, [recordShare]): on a certificate whose
    per-platform counters are unset, null or 0, as they are on a new
    certificate, every recorded share adds one to [shareCount] and none of
    the per-platform counters ever changes. *)
Theorem recordShare_never_starts_a_platform_counter
    (ps : list CertificateMore.Platform) (s : CertificateMore.Sharing) :
  (forall q, CertificateMore.truthy (CertificateMore.socialShares q s) = false) ->
  CertificateMore.shareCount (CertificateMore.recordShares ps s)
  = CertificateMore.shareCount s + Z.of_nat (length ps)
  /\ forall q, CertificateMore.socialShares q (CertificateMore.recordShares ps s)
               = CertificateMore.socialShares q s.
Proof.
  unfold CertificateMore.recordShares. revert s.
  induction ps as [|p ps IH]; intros s Hs; cbn [fold_left].
  - split; [cbn; lia | reflexivity].
  - destruct (recordShare_unset p s Hs) as [Hc Hq].
    destruct (IH (CertificateMore.recordShare p s)) as [Hc' Hq'].
    + intros q. rewrite Hq. apply Hs.
    + split.
      * rewrite Hc', Hc. cbn [length]. lia.
      * intros q. rewrite Hq'. apply Hq.
Qed.

Lemma recordShare_never_starts_a_platform_counter_witness :
  CertificateMore.shareCount
    (CertificateMore.recordShares
       [CertificateMore.linkedin; CertificateMore.linkedin;
        CertificateMore.twitter] Sample2.notShared) = 3
  /\ CertificateMore.socialShares CertificateMore.linkedin
       (CertificateMore.recordShares
          [CertificateMore.linkedin; CertificateMore.linkedin;
           CertificateMore.twitter] Sample2.notShared) = Js.Undefined.
Proof.
  destruct (recordShare_never_starts_a_platform_counter
              [CertificateMore.linkedin; CertificateMore.linkedin;
               CertificateMore.twitter] Sample2.notShared) as [Hc Hq].
  - intros []; reflexivity.
  - split; [exact Hc | apply Hq].
Defined.

(** ** The counter of an event under the registration routes *)

Lemma attachQR_events `{Runtime} now doc eventId db :
  events (registrations.attachQR now doc eventId db) = events db.
Proof.
  unfold registrations.attachQR.
  destruct (qrCode.generateEventQR _ _ _); reflexivity.
Qed.

(** What a request does to the events: nothing, or one [addParticipant] or
    [removeParticipant] on a stored event, saved under its [_id]. *)
Lemma handle_events `{Runtime} req db :
  events (snd (handle req db)) = events db
  \/ exists k e e',
       events db !! k = Some e
       /\ (Event.addParticipant e = Ok e' \/ Event.removeParticipant e = Some e')
       /\ events (snd (handle req db)) = <[Event._id e' := e']> (events db).
Proof.
  destruct req as [now newId uid eventId teamInfo | newId uid teamCode eventId
                  | now uid id | now uid id method location qrData];
    cbn [handle].
  - unfold registrations.register.
    destruct (auth.authenticate uid db) as [res | user]; [left; reflexivity |].
    destruct (events db !! eventId) as [event|] eqn:Hev; [| left; reflexivity].
    destruct (negb (bool_decide _)); [left; reflexivity |].
    destruct (negb (Event.isRegistrationOpen now event)); [left; reflexivity |].
    destruct (Registrations.findOne _ _ _); [left; reflexivity |].
    destruct (Js.ge _ _); [left; reflexivity |].
    destruct (Registrations.create _ _) as [created | ?]; [| left; reflexivity].
    destruct (Event.addParticipant event) as [event' | ?] eqn:Hadd.
    + right. exists eventId, event, event'. split; [exact Hev |].
      split; [left; exact Hadd |]. cbn. rewrite attachQR_events. reflexivity.
    + left. cbn. rewrite attachQR_events. reflexivity.
  - unfold registrations.joinTeam.
    destruct (auth.authenticate uid db) as [res | user]; [left; reflexivity |].
    destruct (Registrations.findTeamLead _ _ _) as [lead|]; [| left; reflexivity].
    destruct (Registrations.findOne _ _ _); [left; reflexivity |].
    destruct (Js.ge _ _); [left; reflexivity |].
    destruct (events db !! Registration.event lead) as [event|] eqn:Hev;
      [| left; reflexivity].
    destruct (Registrations.create _ _) as [created | ?]; [| left; reflexivity].
    destruct (Registration.methods.addTeamMember _ _) as [lead' | ?];
      [| left; reflexivity].
    destruct (Event.addParticipant event) as [event' | ?] eqn:Hadd.
    + right. exists (Registration.event lead), event, event'.
      split; [exact Hev |]. split; [left; exact Hadd | reflexivity].
    + left. reflexivity.
  - unfold registrations.cancel.
    destruct (auth.authenticate uid db) as [res | user]; [left; reflexivity |].
    destruct (Registrations.findById _ _) as [registration|];
      [| left; reflexivity].
    destruct (negb _ && negb _); [left; reflexivity |].
    destruct (events db !! Registration.event registration) as [event|] eqn:Hev;
      [| left; reflexivity].
    destruct (bool_decide _); [left; reflexivity |].
    destruct (Event.removeParticipant event) as [event'|] eqn:Hrem.
    + right. exists (Registration.event registration), event, event'.
      split; [exact Hev |]. split; [right; exact Hrem | reflexivity].
    + left. reflexivity.
  - left.
    rewrite (proj1 (checkin_fails now uid id method location qrData db)).
    reflexivity.
Qed.











(** ** Joining a team *)

Lemma find_none_existsb {A} (p : A -> bool) l :
  List.find p l = None -> existsb p l = false.
Proof.
  induction l as [|a l IH]; cbn; [reflexivity |].
  destruct (p a); [discriminate | exact IH].
Qed.

Lemma create_fresh doc l :
  Registrations.findById (Registration._id doc) l = None ->
  Registrations.findOne (Registration.user doc) (Registration.event doc) l
  = None ->
  Registrations.create doc l = Ok (l ++ [Registration.pre_save doc]).
Proof.
  intros Hid Hone. unfold Registrations.create.
  unfold Registrations.findById in Hid. unfold Registrations.findOne in Hone.
  rewrite (find_none_existsb _ _ Hid), (find_none_existsb _ _ Hone).
  reflexivity.
Qed.

(** X11 (routes/registrations.js, [POST /join-team], with [addTeamMember]
    of models/Registration.js): the route never hands the error
    "Team is full" of [addTeamMember] to the error handler: whenever the
    route's own test lets a request through, [addTeamMember] accepts the
    member. *)
Theorem joinTeam_never_fails_in_addTeamMember (newId uid : ObjectId)
    (teamCode : string) (eventId : ObjectId) (db : DB) :
  fst (registrations.joinTeam newId uid teamCode eventId db)
  <> next "Team is full".
Proof.
  unfold registrations.joinTeam.
  destruct (auth.authenticate uid db) as [res | user] eqn:Hauth.
  - apply authenticate_inl in Hauth as [message ->]. discriminate.
  - destruct (Registrations.findTeamLead _ _ _) as [lead|]; [| discriminate].
    destruct (Registrations.findOne _ _ _); [discriminate |].
    destruct (Js.ge _ _) eqn:Hroom; [discriminate |].
    destruct (events db !! Registration.event lead) as [event|];
      [| discriminate].
    unfold Registrations.create.
    destruct (existsb _ _); [discriminate |].
    destruct (existsb _ _); [discriminate |].
    unfold Registration.methods.addTeamMember.
    destruct (Js.ge (Some (Z.of_nat _)) (Js.sub _ _)) eqn:Hfull.
    + exfalso. revert Hroom Hfull.
      destruct (Js.toNumber _) as [m|]; cbn; [| discriminate].
      intros Hroom Hfull. apply bool_decide_eq_false in Hroom.
      apply bool_decide_eq_true in Hfull. lia.
    + unfold Event.addParticipant.
      destruct (Event.belowCapacity event); discriminate.
Qed.

(** X12 (routes/registrations.js, [POST /join-team], with [addParticipant]
    of models/Event.js): the route does not test the capacity of the event
    before it writes.  When a user joins a team that has room, of an event
    that is full, the answer is the error "Event is full" of
    [addParticipant], handed to the error handler, and yet the member's
    registration is stored, confirmed and with the team code, and the lead's
    team has grown by one; the event's counter and the points are as
    before. *)
Theorem joinTeam_on_full_event_is_half_done (newId uid : ObjectId)
    (teamCode : string) (eventId : ObjectId) (db : DB) (user : User.t)
    (lead : Registration.t) (event : Event.t) (m : Z) :
  auth.authenticate uid db = inr user ->
  Registrations.findTeamLead teamCode eventId (registrations db) = Some lead ->
  Registrations.findOne (User._id user) eventId (registrations db) = None ->
  Registrations.findById newId (registrations db) = None ->
  maxMembersOf lead = Js.Num m ->
  Registration.teamSize lead < m ->
  events db !! Registration.event lead = Some event ->
  Event.belowCapacity event = false ->
  let res := registrations.joinTeam newId uid teamCode eventId db in
  fst res = next "Event is full"
  /\ events (snd res) = events db
  /\ users (snd res) = users db
  /\ (exists member,
        Registrations.findById newId (registrations (snd res)) = Some member
        /\ Registration.user member = User._id user
        /\ Registration.event member = eventId
        /\ Registration.status member = Registration.confirmed
        /\ codeOf member = Some teamCode)
  /\ (exists lead',
        Registrations.findById (Registration._id lead)
          (registrations (snd res)) = Some lead'
        /\ Registration.teamSize lead' = Registration.teamSize lead + 1).
Proof.
  intros Hauth Hlead Hone Hnew Hmax Hsize Hev Hfull.
  destruct (findTeamLead_inv _ _ _ _ Hlead) as (Hin & ti & Hti & _ & _).
  unfold maxMembersOf in Hmax. unfold Registration.teamSize in Hsize.
  rewrite Hti in Hmax, Hsize.
  unfold registrations.joinTeam. rewrite Hauth, Hlead, Hone, Hti.
  change (default Registration.methods.emptyTeamInfo (Some ti)) with ti.
  rewrite Hmax. cbn [Js.toNumber Js.ge].
  rewrite bool_decide_eq_false_2 by lia. rewrite Hev.
  set (d := registrations.memberData newId user eventId event teamCode ti).
  rewrite (create_fresh d (registrations db) Hnew Hone).
  change (Registration.pre_save d) with d.
  unfold Registration.methods.addTeamMember. rewrite Hti.
  change (default Registration.methods.emptyTeamInfo (Some ti)) with ti.
  rewrite Hmax. cbn [Js.toNumber Js.sub Js.ge].
  rewrite bool_decide_eq_false_2 by lia.
  unfold Event.addParticipant. rewrite Hfull.
  set (member := {| Registration.member_user := _ |}).
  set (lead' := Registration.pre_save _).
  cbn [fst snd registrations events users set_registrations].
  assert (Hid' : Registration._id lead' = Registration._id lead)
    by (unfold lead'; rewrite pre_save_id; reflexivity).
  assert (Hne : newId <> Registration._id lead).
  { intros ->. apply findById_fresh in Hnew. apply Hnew.
    apply in_map. exact Hin. }
  split; [reflexivity |]. split; [reflexivity |]. split; [reflexivity |].
  split.
  - exists d. split; [| repeat split].
    rewrite findById_save_other by (rewrite Hid'; exact Hne).
    unfold Registrations.findById in *.
    rewrite (find_app_none _ _ d Hnew). cbn.
    rewrite bool_decide_eq_true_2 by reflexivity. reflexivity.
  - exists lead'. split.
    + rewrite <- Hid'. apply findById_save_same. rewrite Hid'.
      unfold Registrations.findById.
      assert (Hfl : List.find
                      (fun r => bool_decide
                                  (Registration._id r = Registration._id lead))
                      (registrations db) <> None).
      { intros Hnone. apply (find_none _ _ Hnone) in Hin.
        apply bool_decide_eq_false in Hin. auto. }
      destruct (List.find _ (registrations db)) as [x|] eqn:Hx;
        [| congruence].
      rewrite (find_app_some _ _ [d] x Hx). discriminate.
    + unfold lead'.
      destruct (pre_save_fields
                  (Registration.set_teamInfo
                     (Some (Registration.methods.push_member member ti)) lead))
        as (_ & _ & _ & _ & Hti').
      unfold Registration.teamSize. rewrite Hti', Hti. cbn.
      rewrite length_app. cbn. lia.
Qed.

Lemma joinTeam_on_full_event_is_half_done_witness :
  fst Sample2.bob_joins_duo = next "Event is full"
  /\ participantsOf "e-duo" (snd Sample2.bob_joins_duo) = Some 1
  /\ exists member,
       Registrations.findById "d2" (registrations (snd Sample2.bob_joins_duo))
       = Some member
       /\ Registration.status member = Registration.confirmed.
Proof.
  destruct (joinTeam_on_full_event_is_half_done
              "d2" "u-bob" Sample.rocket "e-duo" Sample2.db_duo
              Sample.bob Sample2.duo_lead Sample2.duo_full 3
              ltac:(vm_compute; reflexivity) ltac:(vm_compute; reflexivity)
              ltac:(vm_compute; reflexivity) ltac:(vm_compute; reflexivity)
              ltac:(vm_compute; reflexivity) ltac:(vm_compute; reflexivity)
              ltac:(vm_compute; reflexivity) ltac:(vm_compute; reflexivity))
    as (Hres & _ & _ & (member & Hfind & _ & _ & Hstatus & _) & _).
  split; [exact Hres |]. split; [vm_compute; reflexivity |].
  exists member. split; [exact Hfind | exact Hstatus].
Defined.

(** ** The name of a team *)

(** Saving a document that keeps the code, the lead flag, the bound and the
    size of the stored one keeps the teams. *)
Lemma teams_ok_save_fields l doc old :
  teams_ok l ->
  Registrations.findById (Registration._id doc) l = Some old ->
  codeOf doc = codeOf old ->
  isLead doc = isLead old ->
  maxMembersOf doc = maxMembersOf old ->
  Registration.teamSize doc = Registration.teamSize old ->
  teams_ok (Registrations.save doc l).
Proof.
  intros [Hnd Huniq Hcount] Hfind Hcode Hlead Hmax Hsize.
  pose proof (findById_In _ _ _ Hfind) as Hold.
  pose proof (findById_id _ _ _ Hfind) as Hid.
  assert (Hsh : forall code,
             sharing code (Registrations.save doc l) = sharing code l)
    by (intros code; apply (sharing_save code doc l old Hfind Hcode)).
  assert (Hback : forall r,
             In r (Registrations.save doc l) ->
             exists r0, In r0 l
                        /\ Registration._id r0 = Registration._id r
                        /\ codeOf r0 = codeOf r
                        /\ isLead r0 = isLead r
                        /\ maxMembersOf r0 = maxMembersOf r
                        /\ Registration.teamSize r0 = Registration.teamSize r).
  { intros r Hr. destruct (In_save doc l r Hnd Hr) as [-> | [Hin _]].
    - exists old. auto 10.
    - exists r. auto 10. }
  split.
  - rewrite save_ids. exact Hnd.
  - intros l1 l2 code H1 H2 Hl1 Hl2 Hc1 Hc2.
    destruct (Hback l1 H1) as (a1 & Ha1 & <- & Ec1 & El1 & _).
    destruct (Hback l2 H2) as (a2 & Ha2 & <- & Ec2 & El2 & _).
    apply (Huniq a1 a2 code); congruence.
  - intros lead code Hin Hl Hc.
    destruct (Hback lead Hin) as (a & Ha & _ & Ec & El & Em & Es).
    destruct (Hcount a code Ha) as (m & Hm & Hs & Hle); [congruence .. |].
    exists m. rewrite Hsh, <- Em, <- Es. auto.
Qed.

Ltac store_unchanged :=
  cbn [fst snd];
  split; [assumption |];
  split; [reflexivity |];
  split; [reflexivity |];
  split; [intros; reflexivity |].

(** X13 (routes/registrations.js, [PUT /:id/team]): a request for a new team
    name succeeds only for the user who owns the registration and is its
    team lead.  Whatever the request, the registrations still form teams
    afterwards, the events and the users are as before, and no registration
    other than the addressed one is changed: the copies of the team name on
    the members' registrations are left as they were. *)
Theorem updateTeam_touches_only_the_leads_registration (uid id : ObjectId)
    (teamName : option string) (db : DB) :
  teams_ok (registrations db) ->
  let res := registrationsMore.updateTeam uid id teamName db in
  teams_ok (registrations (snd res))
  /\ events (snd res) = events db
  /\ users (snd res) = users db
  /\ (forall id', id' <> id ->
        Registrations.findById id' (registrations (snd res))
        = Registrations.findById id' (registrations db))
  /\ (succeeded (fst res) = true ->
      exists user registration,
        auth.authenticate uid db = inr user
        /\ Registrations.findById id (registrations db) = Some registration
        /\ isLead registration = true
        /\ Registration.user registration = User._id user).
Proof.
  intros Hok. unfold registrationsMore.updateTeam.
  destruct (auth.authenticate uid db) as [res | user] eqn:Hauth.
  { apply authenticate_inl in Hauth as [message ->].
    store_unchanged. discriminate. }
  destruct (Registrations.findById id (registrations db))
    as [registration|] eqn:Hfind.
  2: { store_unchanged. discriminate. }
  destruct (isLead registration) eqn:Hlead.
  2: { store_unchanged. discriminate. }
  destruct (bool_decide_reflect
              (Registration.user registration = User._id user)) as [Hown | Hown].
  2: { store_unchanged. discriminate. }
  cbn [negb orb fst snd].
  assert (Hwho : succeeded
                   (json 200 true "Team information updated successfully")
                 = true ->
                 exists user0 registration0,
                   @inr Response User.t user = inr user0
                   /\ Some registration = Some registration0
                   /\ isLead registration0 = true
                   /\ Registration.user registration0 = User._id user0)
    by (intros _; exists user, registration; auto).
  destruct teamName as [name|]; [| store_unchanged; exact Hwho].
  destruct (Registration.teamInfo registration) as [ti|] eqn:Hti;
    [| store_unchanged; exact Hwho].
  destruct (bool_decide (name = ""%string)); [store_unchanged; exact Hwho |].
  set (doc := Registration.pre_save _).
  assert (Hid : Registration._id doc = id).
  { unfold doc. rewrite pre_save_id. cbn. exact (findById_id _ _ _ Hfind). }
  assert (Hdti : Registration.teamInfo doc
                 = Some (registrationsMore.rename name ti)).
  { unfold doc.
    destruct (pre_save_fields
                (Registration.set_teamInfo
                   (Some (registrationsMore.rename name ti)) registration))
      as (_ & _ & _ & _ & H). exact H. }
  cbn [registrations events users set_registrations].
  split; [| split; [reflexivity | split; [reflexivity | split; [| exact Hwho]]]].
  - apply teams_ok_save_fields with (old := registration);
      [exact Hok | rewrite Hid; exact Hfind | | | |];
      unfold codeOf, isLead, maxMembersOf, Registration.teamSize;
      rewrite Hdti, Hti; reflexivity.
  - intros id' Hne. apply findById_save_other. rewrite Hid. exact Hne.
Qed.

Lemma updateTeam_touches_only_the_leads_registration_witness :
  teams_ok
    (registrations
       (snd (registrationsMore.updateTeam "u-alice" "t1" (Some "Comet"%string)
               Sample.team_of_three))).
Proof.
  apply (updateTeam_touches_only_the_leads_registration
           "u-alice" "t1" (Some "Comet"%string) Sample.team_of_three).
  apply (run_preserves (H := Sample.runtime) Sample.team_requests Sample.db0
           sample_store_invariant).
  vm_compute. tauto.
Defined.

(** ** Access to an event, and deleting it *)

(** X14 (middleware/auth.js, [authorizeEventAccess], and the check-in of
    routes/registrations.js): the middleware lets through exactly the users
    who may check in the participants of the event: its organizer, its
    co-organizers and the administrators; the others are answered 403. *)
Theorem authorizeEventAccess_lets_in_who_may_check_in (req_user : User.t)
    (eventId : string) (event : Event.t) (db : DB) :
  eventId <> ""%string ->
  events db !! eventId = Some event ->
  authMore.authorizeEventAccess req_user eventId db
  = if registrations.mayCheckIn req_user event
    then inr event
    else inl (json 403 false "Not authorized to access this event").
Proof.
  intros Hid Hev. unfold authMore.authorizeEventAccess, registrations.mayCheckIn.
  rewrite bool_decide_eq_false_2 by exact Hid. rewrite Hev.
  destruct (bool_decide (User.role req_user = User.admin));
    destruct (bool_decide (Event.organizer event = User._id req_user));
    destruct (existsb _ (Event.coOrganizers event)); reflexivity.
Qed.

Lemma authorizeEventAccess_lets_in_who_may_check_in_witness :
  authMore.authorizeEventAccess Sample.olga "e-workshop" Sample.db0
  = inr Sample.workshop
  /\ authMore.authorizeEventAccess Sample.alice "e-workshop" Sample.db0
     = inl (json 403 false "Not authorized to access this event").
Proof.
  split.
  - apply (authorizeEventAccess_lets_in_who_may_check_in
             Sample.olga "e-workshop" Sample.workshop Sample.db0);
      [discriminate | vm_compute; reflexivity].
  - apply (authorizeEventAccess_lets_in_who_may_check_in
             Sample.alice "e-workshop" Sample.workshop Sample.db0);
      [discriminate | vm_compute; reflexivity].
Defined.

Lemma authorizeEventAccess_inr req_user eventId db event :
  authMore.authorizeEventAccess req_user eventId db = inr event ->
  events db !! eventId = Some event.
Proof.
  unfold authMore.authorizeEventAccess.
  destruct (bool_decide _); [discriminate |].
  destruct (events db !! eventId) as [e|]; [| discriminate].
  destruct (negb _); [discriminate |]. intros [= <-]. reflexivity.
Qed.

(** X15 (routes/events.js, [DELETE /:id]): the route never removes an event
    that has a registration.  For every stored registration whose event
    exists, the event exists afterwards too: unchanged, or, when the request
    came from an administrator and addressed it, with the status
    [cancelled]; the registrations are as before. *)
Theorem deleteEvent_keeps_events_with_registrations (uid : ObjectId)
    (id : string) (db : DB) (r : Registration.t) (e : Event.t) :
  keyed db ->
  In r (registrations db) ->
  events db !! Registration.event r = Some e ->
  let res := eventRoutes.deleteEvent uid id db in
  registrations (snd res) = registrations db
  /\ (events (snd res) !! Registration.event r = Some e
      \/ (events (snd res) !! Registration.event r
          = Some (EventMore.set_status Event.cancelled e)
          /\ id = Registration.event r
          /\ exists user,
               auth.authenticate uid db = inr user
               /\ User.role user = User.admin)).
Proof.
  intros Hkeyed Hin He. unfold eventRoutes.deleteEvent.
  destruct (auth.authenticate uid db) as [res | user] eqn:Hauth;
    [split; [reflexivity | left; exact He] |].
  destruct (authMore.authorizeEventAccess user id db) as [res | event] eqn:Hacc;
    [split; [reflexivity | left; exact He] |].
  apply authorizeEventAccess_inr in Hacc.
  pose proof (Hkeyed _ _ Hacc) as Hkey.
  destruct (bool_decide_reflect
              (eventRoutes.registrationCount (Event._id event)
                 (registrations db) > 0)) as [Hpos | Hzero]; cbn [andb].
  - destruct (bool_decide_reflect (User.role user = User.admin))
      as [Hadmin | Hadmin]; cbn [negb fst snd];
      [| split; [reflexivity | left; exact He]].
    split; [reflexivity |]. cbn [events save_event EventMore.set_status Event._id].
    rewrite Hkey.
    destruct (decide (id = Registration.event r)) as [-> | Hne].
    + right. rewrite lookup_insert_eq.
      assert (Some event = Some e) as [= ->]
        by (rewrite <- Hacc, <- He; reflexivity).
      split; [reflexivity |]. split; [reflexivity |]. eauto.
    + left. rewrite lookup_insert_ne by exact Hne. exact He.
  - cbn [fst snd]. split; [reflexivity |]. left.
    cbn [events eventRoutes.set_events]. rewrite Hkey.
    rewrite lookup_delete_ne; [exact He |].
    intros ->. apply Hzero. unfold eventRoutes.registrationCount. rewrite Hkey.
    assert (Hr : In r (List.filter
                         (fun r0 => bool_decide
                                      (Registration.event r0
                                       = Registration.event r))
                         (registrations db))).
    { apply filter_In. split; [exact Hin |].
      apply bool_decide_eq_true_2. reflexivity. }
    destruct (List.filter _ (registrations db)); [destruct Hr |]. cbn. lia.
Qed.

Lemma sample_keyed : keyed Sample.db0.
Proof.
  intros k e He. unfold Sample.db0 in He.
  cbn [events] in He.
  repeat (apply lookup_insert_Some in He as [[<- <-] | [_ He]];
          [reflexivity |]).
  rewrite lookup_empty in He. discriminate.
Qed.

Lemma handle_keyed `{Runtime} req db :
  keyed db -> keyed (snd (handle req db)).
Proof.
  intros Hk.
  destruct (handle_events req db) as [Hsame | (k & e & e' & _ & _ & Hev)];
    unfold keyed.
  - rewrite Hsame. exact Hk.
  - rewrite Hev. intros k' e0 Hlook.
    apply lookup_insert_Some in Hlook as [[<- <-] | [_ Hold]];
      [reflexivity | exact (Hk _ _ Hold)].
Qed.

Lemma deleteEvent_keeps_events_with_registrations_witness :
  let res :=
    eventRoutes.deleteEvent "u-adam" "e-workshop" (snd Sample.alice_registers) in
  registrations (snd res) = registrations (snd Sample.alice_registers)
  /\ (events (snd res) !! "e-workshop" = Some Sample.workshop1
      \/ (events (snd res) !! "e-workshop"
          = Some (EventMore.set_status Event.cancelled Sample.workshop1)
          /\ "e-workshop"%string = "e-workshop"%string
          /\ exists user,
               auth.authenticate "u-adam" (snd Sample.alice_registers)
               = inr user
               /\ User.role user = User.admin)).
Proof.
  apply (deleteEvent_keeps_events_with_registrations
           "u-adam" "e-workshop" (snd Sample.alice_registers)
           Sample.r1 Sample.workshop1).
  - apply (handle_keyed (H := Sample.runtime)
             (Register 1000 "r1" "u-alice" "e-workshop" None) Sample.db0).
    exact sample_keyed.
  - vm_compute. left. reflexivity.
  - vm_compute. reflexivity.
Defined.

(** ** Feedback *)

(** X16 (routes/registrations.js, [POST /:id/feedback], with
    [submitFeedback] of models/Registration.js and [addPoints] of
    models/User.js): feedback on a registration is accepted once.  When a
    request succeeds, the user has 5 points more, and every later request
    for the same registration, whoever sends it and whenever, fails and
    leaves the store as it is. *)
Theorem feedback_is_rewarded_once (now : Date) (uid id : ObjectId)
    (body : registrationsMore.FeedbackInput)
    (st st1 : registrationsMore.Store) :
  registrationsMore.feedback now uid id body st
  = (json 200 true "Feedback submitted successfully", st1) ->
  (exists user,
     auth.authenticate uid (registrationsMore.db st) = inr user
     /\ pointsOf (User._id user) (registrationsMore.db st1)
        = Some (User.points user + 5))
  /\ forall now' uid' body',
       succeeded (fst (registrationsMore.feedback now' uid' id body' st1))
       = false
       /\ snd (registrationsMore.feedback now' uid' id body' st1) = st1.
Proof.
  unfold registrationsMore.feedback at 1.
  destruct (auth.authenticate uid (registrationsMore.db st))
    as [res | user] eqn:Hauth.
  { apply authenticate_inl in Hauth as [message ->]. discriminate. }
  destruct (Registrations.findById id _) as [registration|] eqn:Hfind;
    [| discriminate].
  destruct (negb _); [discriminate |].
  destruct (events _ !! _) as [event|]; [| discriminate].
  destruct (bool_decide _); [discriminate |].
  destruct (registrationsMore.feedbacks st !! _) as [given|]; [discriminate |].
  intros Heq. injection Heq as Hst1.
  assert (Hgiven : exists given, registrationsMore.feedbacks st1 !! id = Some given).
  { rewrite <- Hst1. cbn. rewrite (findById_id _ _ _ Hfind).
    rewrite lookup_insert_eq. eauto. }
  assert (Hpoints : pointsOf (User._id user) (registrationsMore.db st1)
                    = Some (User.points user + 5)).
  { rewrite <- Hst1. unfold pointsOf. cbn. rewrite lookup_insert_eq.
    reflexivity. }
  clear Hst1 Hfind. split; [eauto |].
  intros now' uid' body'. unfold registrationsMore.feedback.
  destruct (auth.authenticate uid' (registrationsMore.db st1))
    as [res | user'] eqn:Hauth'.
  { apply authenticate_inl in Hauth' as [message ->]. auto. }
  destruct (Registrations.findById id (registrations (registrationsMore.db st1)))
    as [registration'|] eqn:Hfind'; [| auto].
  destruct (negb _); [auto |].
  destruct (events _ !! _) as [event'|]; [| auto].
  destruct (bool_decide _); [auto |].
  rewrite (findById_id _ _ _ Hfind').
  destruct Hgiven as [given ->]. auto.
Qed.

Lemma feedback_is_rewarded_once_witness :
  pointsOf "u-alice" (registrationsMore.db (snd Sample2.alice_feedback))
  = Some 15
  /\ succeeded
       (fst (registrationsMore.feedback 5000 "u-alice" "r1"
               Sample2.someFeedback (snd Sample2.alice_feedback)))
     = false.
Proof.
  destruct (feedback_is_rewarded_once 4000 "u-alice" "r1" Sample2.someFeedback
              Sample2.store1 (snd Sample2.alice_feedback)
              ltac:(vm_compute; reflexivity)) as [_ Hlater].
  split; [vm_compute; reflexivity |].
  exact (proj1 (Hlater 5000 "u-alice"%string Sample2.someFeedback)).
Defined.

(** ** The limit on attempts *)

Lemma attempts_length userId times : forall st,
  length (fst (authMore.attempts userId times st)) = length times.
Proof.
  induction times as [|t times IH]; intros st; cbn; [reflexivity |].
  rewrite IH. reflexivity.
Qed.

(** Inside the window of an entry, the requests are counted and the entry
    keeps its first attempt. *)
Lemma attempts_in_window userId times : forall st a,
  st !! userId = Some a ->
  (forall t, In t times -> t - authMore.firstAttempt a <= authMore.windowMs) ->
  (forall i r,
     fst (authMore.attempts userId times st) !! i = Some r ->
     r = if bool_decide (authMore.count a + Z.of_nat i + 1 > authMore.maxAttempts)
         then Some authMore.tooMany else None)
  /\ snd (authMore.attempts userId times st) !! userId
     = Some {| authMore.count := authMore.count a + Z.of_nat (length times);
               authMore.firstAttempt := authMore.firstAttempt a |}.
Proof.
  induction times as [|t times IH]; intros st a Hst Hwin.
  - split; [intros i r Hi; destruct i; discriminate |].
    cbn. rewrite Hst. f_equal. destruct a; cbn. f_equal. lia.
  - cbn [authMore.attempts fst snd].
    set (a' := {| authMore.count := authMore.count a + 1;
                  authMore.firstAttempt := authMore.firstAttempt a |}).
    assert (Hstep : authMore.sensitiveOperationLimit t userId st
                    = (if bool_decide (authMore.count a + 1 > authMore.maxAttempts)
                       then Some authMore.tooMany else None,
                       <[userId := a']> st)).
    { unfold authMore.sensitiveOperationLimit. rewrite Hst.
      rewrite bool_decide_eq_false_2
        by (specialize (Hwin t (or_introl eq_refl)); lia).
      cbn [authMore.count]. fold a'.
      destruct (bool_decide _); reflexivity. }
    rewrite Hstep. cbn [fst snd].
    destruct (IH (<[userId := a']> st) a') as [Hrest Hfinal].
    + apply lookup_insert_eq.
    + intros t' Ht'. apply Hwin. right. exact Ht'.
    + split.
      * intros [|i] r Hi.
        -- cbn in Hi. injection Hi as <-.
           replace (authMore.count a + Z.of_nat 0 + 1)
             with (authMore.count a + 1) by lia.
           reflexivity.
        -- cbn in Hi. rewrite (Hrest i r Hi). cbn [authMore.count a'].
           replace (authMore.count a + 1 + Z.of_nat i + 1)
             with (authMore.count a + Z.of_nat (S i) + 1) by lia.
           reflexivity.
      * rewrite Hfinal. cbn [authMore.count authMore.firstAttempt a' length].
        do 2 f_equal. lia.
Qed.

(** X17 (middleware/auth.js, [sensitiveOperationLimit]): of the requests a
    user sends within 15 minutes of the first one, the first five pass and
    every further one is answered 429; a request that comes more than 15
    minutes after the first one passes again. *)
Theorem sensitiveOperationLimit_lets_five_through (userId : ObjectId)
    (t0 : Date) (times : list Date)
    (st : gmap ObjectId authMore.Attempts) :
  st !! userId = None ->
  (forall t, In t times -> t - t0 <= authMore.windowMs) ->
  let run := authMore.attempts userId (t0 :: times) st in
  length (fst run) = S (length times)
  /\ (forall i r,
        fst run !! i = Some r ->
        r = if bool_decide (i < 5)%nat then None else Some authMore.tooMany)
  /\ (forall t,
        t - t0 > authMore.windowMs ->
        fst (authMore.sensitiveOperationLimit t userId (snd run)) = None).
Proof.
  intros Hnew Hwin run.
  split; [apply attempts_length |].
  subst run. cbn [authMore.attempts].
  set (a := {| authMore.count := 1; authMore.firstAttempt := t0 |}).
  assert (Hfirst : authMore.sensitiveOperationLimit t0 userId st
                   = (None, <[userId := a]> st))
    by (unfold authMore.sensitiveOperationLimit; rewrite Hnew; reflexivity).
  rewrite !Hfirst. cbn [fst snd].
  destruct (attempts_in_window userId times (<[userId := a]> st) a)
    as [Hrest Hfinal]; [apply lookup_insert_eq | exact Hwin |].
  split.
  - intros [|i] r Hi.
    + cbn in Hi. injection Hi as <-. reflexivity.
    + cbn in Hi. rewrite (Hrest i r Hi). cbn [authMore.count a].
      unfold authMore.maxAttempts.
      destruct (bool_decide_reflect (1 + Z.of_nat i + 1 > 5));
        destruct (bool_decide_reflect (S i < 5)%nat); (reflexivity || lia).
  - intros t Ht. unfold authMore.sensitiveOperationLimit.
    rewrite Hfinal. cbn [authMore.firstAttempt].
    rewrite bool_decide_eq_true_2 by exact Ht. reflexivity.
Qed.

Lemma sensitiveOperationLimit_lets_five_through_witness :
  fst (authMore.attempts "u-alice" [0; 1; 2; 3; 4; 5; 6] ∅)
  = [None; None; None; None; None;
     Some authMore.tooMany; Some authMore.tooMany]
  /\ fst (authMore.sensitiveOperationLimit 900001 "u-alice"
            (snd (authMore.attempts "u-alice" [0; 1; 2; 3; 4; 5; 6] ∅)))
     = None.
Proof.
  destruct (sensitiveOperationLimit_lets_five_through
              "u-alice" 0 [1; 2; 3; 4; 5; 6] ∅) as (_ & _ & Hlater).
  - apply lookup_empty.
  - intros t Ht. unfold authMore.windowMs. cbn in Ht.
    repeat (destruct Ht as [<- | Ht]; [lia |]). destruct Ht.
  - split; [vm_compute; reflexivity |]. apply Hlater. reflexivity.
Defined.

(** ** The forum: likes *)

Lemma find_by_user_none userId l :
  List.find (ForumPost.by_user userId) l = None ->
  ~ In userId (map ForumPost.mark_user l).
Proof.
  intros Hf Hin. apply in_map_iff in Hin as (x & Hx & Hin).
  apply (find_none _ _ Hf) in Hin. unfold ForumPost.by_user in Hin.
  apply bool_decide_eq_false in Hin. auto.
Qed.






(** ** The forum: applications for a team *)







(** ** The forum: views *)

Lemma ForallOrdPairs_snoc {A} (R : A -> A -> Prop) l x :
  ForallOrdPairs R l -> Forall (fun y => R y x) l ->
  ForallOrdPairs R (l ++ [x]).
Proof.
  induction 1 as [|a l Ha Hl IH]; intros Hx; cbn.
  - constructor; constructor.
  - apply Forall_cons_iff in Hx as [Hax Hx]. constructor; [| auto].
    apply Forall_app. split; [exact Ha |]. constructor; [exact Hax | constructor].
Qed.

Lemma addView_spaced now userId ip post :
  ForumPost.spaced (ForumPost.views post) ->
  ForumPost.spaced (ForumPost.views (ForumPost.addView now userId ip post)).
Proof.
  intros Hsp. unfold ForumPost.addView.
  destruct (List.find _ _) as [recentView|] eqn:Hfind; [exact Hsp |].
  cbn. apply ForallOrdPairs_snoc; [exact Hsp |].
  apply Forall_forall. intros v Hv Huser.
  apply list_elem_of_In in Hv.
  apply (find_none _ _ Hfind) in Hv. unfold ForumPost.recent in Hv.
  cbn in Huser. rewrite (bool_decide_eq_true_2 _ Huser) in Hv. cbn in Hv.
  apply bool_decide_eq_false in Hv. cbn. lia.
Qed.

(** X22 (models/ForumPost.js, [addView]): a user's views of a post are
    counted at most once an hour.  Whatever calls of [addView] are made, in
    whatever order of their clock readings, any two recorded views of one
    user lie at least an hour apart, if that held of the post before (it
    does of a post without views). *)
Theorem addView_counts_a_user_once_an_hour (calls : list ForumPost.View)
    (post : ForumPost.t) :
  ForumPost.spaced (ForumPost.views post) ->
  ForumPost.spaced (ForumPost.views (ForumPost.addViews calls post)).
Proof.
  unfold ForumPost.addViews. revert post.
  induction calls as [|c calls IH]; intros post Hsp; cbn [fold_left].
  - exact Hsp.
  - apply IH. apply addView_spaced. exact Hsp.
Qed.

Lemma addView_counts_a_user_once_an_hour_witness :
  ForumPost.spaced
    (ForumPost.views
       (ForumPost.addViews
          [Sample2.view "u-bob" 0; Sample2.view "u-bob" 1000;
           Sample2.view "u-carol" 2000; Sample2.view "u-bob" 3600000]
          Sample2.teamPost))
  /\ map ForumPost.viewedAt
       (ForumPost.views
          (ForumPost.addViews
             [Sample2.view "u-bob" 0; Sample2.view "u-bob" 1000;
              Sample2.view "u-carol" 2000; Sample2.view "u-bob" 3600000]
             Sample2.teamPost))
     = [0; 2000; 3600000].
Proof.
  split; [| vm_compute; reflexivity].
  apply (addView_counts_a_user_once_an_hour
           [Sample2.view "u-bob" 0; Sample2.view "u-bob" 1000;
            Sample2.view "u-carol" 2000; Sample2.view "u-bob" 3600000]
           Sample2.teamPost).
  constructor.
Defined.

(** ** QR codes *)

Lemma generateEventQR_Ok `{Runtime} now registrationId eventId g :
  qrCode.generateEventQR now registrationId eventId = Ok g ->
  qrCode.data g
  = JSON.JObject
      [("type", JSON.JString "event-checkin");
       ("registrationId", JSON.JString registrationId);
       ("eventId", JSON.JString eventId);
       ("timestamp", JSON.JNumber now)]%string
  /\ qrCode.code g = JSON_stringify (qrCode.data g).
Proof.
  unfold qrCode.generateEventQR.
  destruct (toDataURL _); [| discriminate]. intros [= <-]. auto.
Qed.

(** The validation block on a payload that parses to the data of a
    generated code. *)
Lemma validateQR_generated `{Runtime} now now' s registrationId eventId
    registration event :
  s <> ""%string ->
  JSON_parse s
  = Some (JSON.JObject
            [("type", JSON.JString "event-checkin");
             ("registrationId", JSON.JString registrationId);
             ("eventId", JSON.JString eventId);
             ("timestamp", JSON.JNumber now)]%string) ->
  registrations.validateQR now' Registration.qr_code (Some s) registration event
  = if negb (bool_decide (eventId = Event._id event))
    then Some (json 400 false "QR code is for a different event")
    else if bool_decide (now' - now > qrCode.maxAge)
    then Some (json 400 false "QR code has expired")
    else if negb (bool_decide (registrationId = Registration._id registration))
    then Some (json 400 false "QR code does not match this registration")
    else None.
Proof.
  intros Hs Hparse. unfold registrations.validateQR.
  rewrite bool_decide_eq_false_2 by exact Hs.
  unfold qrCode.parseQRData. rewrite Hparse.
  cbn [JSON.get List.find fst snd fmap option_fmap option_map].
  rewrite bool_decide_eq_true_2 by reflexivity.
  cbn [fmap option_fmap option_map snd JSON.truthy qrCode.success
       qrCode.parsed_data negb].
  unfold qrCode.validateCheckInQR, JSON.prop, JSON.get.
  cbn [List.find fst snd].
  rewrite (bool_decide_eq_true_2 ("type"%string = "type"%string)) by reflexivity.
  rewrite (bool_decide_eq_false_2 ("type"%string = "eventId"%string))
    by discriminate.
  rewrite (bool_decide_eq_false_2 ("registrationId"%string = "eventId"%string))
    by discriminate.
  rewrite (bool_decide_eq_true_2 ("eventId"%string = "eventId"%string))
    by reflexivity.
  rewrite (bool_decide_eq_false_2 ("type"%string = "timestamp"%string))
    by discriminate.
  rewrite (bool_decide_eq_false_2 ("registrationId"%string = "timestamp"%string))
    by discriminate.
  rewrite (bool_decide_eq_false_2 ("eventId"%string = "timestamp"%string))
    by discriminate.
  rewrite (bool_decide_eq_true_2 ("timestamp"%string = "timestamp"%string))
    by reflexivity.
  rewrite (bool_decide_eq_false_2 ("type"%string = "registrationId"%string))
    by discriminate.
  rewrite (bool_decide_eq_true_2
             ("registrationId"%string = "registrationId"%string))
    by reflexivity.
  cbn [fmap option_fmap option_map snd JSON.strict_eq_string negb
       qrCode.toNumber Js.sub Js.gt Js.lt].
  rewrite (bool_decide_eq_true_2 ("event-checkin"%string = "event-checkin"%string))
    by reflexivity.
  cbn [negb].
  destruct (bool_decide (eventId = Event._id event)); cbn [negb];
    [| reflexivity].
  unfold qrCode.maxAge in *.
  destruct (bool_decide_reflect (24 * 60 * 60 * 1000 < now' - now));
    destruct (bool_decide_reflect (now' - now > 24 * 60 * 60 * 1000));
    try lia; cbn; [reflexivity |].
  destruct (bool_decide (registrationId = Registration._id registration));
    reflexivity.
Qed.

(** X23 ([generateEventQR] of utils/qrCode.js and the QR validation of
    [POST /:id/checkin] in routes/registrations.js): the code generated for
    a registration is the code the check-in expects.  Where [JSON.parse]
    gives back the data that was written, the code passes the validation of
    a check-in of that registration up to 24 hours after it was generated
    and is answered "QR code has expired" later; on another registration of
    the event it is answered "QR code does not match this registration", and
    on an event with another id "QR code is for a different event". *)
Theorem generated_QR_passes_the_checkin_validation `{Runtime} (now now' : Date)
    (registration : Registration.t) (event : Event.t) (g : qrCode.Generated) :
  qrCode.generateEventQR now (Registration._id registration) (Event._id event)
  = Ok g ->
  JSON_parse (qrCode.code g) = Some (qrCode.data g) ->
  qrCode.code g <> ""%string ->
  registrations.validateQR now' Registration.qr_code (Some (qrCode.code g))
    registration event
  = (if bool_decide (now' - now > qrCode.maxAge)
     then Some (json 400 false "QR code has expired") else None)
  /\ (forall other,
        Registration._id other <> Registration._id registration ->
        now' - now <= qrCode.maxAge ->
        registrations.validateQR now' Registration.qr_code
          (Some (qrCode.code g)) other event
        = Some (json 400 false "QR code does not match this registration"))
  /\ (forall other,
        Event._id other <> Event._id event ->
        registrations.validateQR now' Registration.qr_code
          (Some (qrCode.code g)) registration other
        = Some (json 400 false "QR code is for a different event")).
Proof.
  intros Hgen Hparse Hcode.
  destruct (generateEventQR_Ok _ _ _ _ Hgen) as [Hdata _].
  rewrite Hdata in Hparse.
  split; [| split].
  - rewrite (validateQR_generated now now' _ _ _ registration event Hcode Hparse).
    rewrite (bool_decide_eq_true_2 (Event._id event = Event._id event))
      by reflexivity.
    rewrite (bool_decide_eq_true_2
               (Registration._id registration = Registration._id registration))
      by reflexivity.
    cbn [negb]. destruct (bool_decide _); reflexivity.
  - intros other Hother Hage.
    rewrite (validateQR_generated now now' _ _ _ other event Hcode Hparse).
    rewrite (bool_decide_eq_true_2 (Event._id event = Event._id event))
      by reflexivity.
    rewrite bool_decide_eq_false_2 by lia.
    rewrite bool_decide_eq_false_2 by congruence. reflexivity.
  - intros other Hother.
    rewrite (validateQR_generated now now' _ _ _ registration other Hcode Hparse).
    rewrite bool_decide_eq_false_2 by congruence. reflexivity.
Qed.

Lemma generated_QR_passes_the_checkin_validation_witness :
  @registrations.validateQR Sample.runtime 2100 Registration.qr_code
    (Some Sample.r1_code) Sample.r1 Sample.workshop = None.
Proof.
  apply (proj1 (generated_QR_passes_the_checkin_validation
                  (H := Sample.runtime) 1000 2100 Sample.r1 Sample.workshop
                  Sample2.r1_generated
                  ltac:(vm_compute; reflexivity)
                  ltac:(vm_compute; reflexivity)
                  ltac:(vm_compute; discriminate))).
Defined.

Lemma loop_spec `{Runtime} registrations : forall qrCodes,
  match qrCodeMore.loop registrations qrCodes with
  | Ok all =>
      exists new, all = qrCodes ++ new
                  /\ Forall2 qrCodeMore.entryOf registrations new
  | Throw message =>
      exists now registration,
        In (now, registration) registrations
        /\ qrCode.generateEventQR now (Registration._id registration)
             (Registration.event registration) = Throw message
  end.
Proof.
  induction registrations as [|[now registration] rest IH]; intros qrCodes;
    cbn [qrCodeMore.loop].
  - exists []. split; [symmetry; apply app_nil_r | constructor].
  - destruct (qrCode.generateEventQR now _ _) as [qr | message] eqn:Hqr.
    + specialize (IH (qrCodes
                        ++ [{| qrCodeMore.registrationId :=
                                 Registration._id registration;
                               qrCodeMore.userId := Registration.user registration;
                               qrCodeMore.qrCode_ := qr |}])).
      destruct (qrCodeMore.loop rest _) as [all | message].
      * destruct IH as (new & -> & Hnew). eexists. split.
        -- rewrite <- app_assoc. reflexivity.
        -- constructor; [| exact Hnew]. split; [exact Hqr |]. split; reflexivity.
      * destruct IH as (now' & registration' & Hin & Hfail).
        exists now', registration'. split; [right; exact Hin | exact Hfail].
    + exists now, registration. split; [left; reflexivity | exact Hqr].
Qed.

(** X24 (utils/qrCode.js, [generateBulkEventQRs]): the codes of a list of
    registrations are generated all or none.  The result holds one entry for
    each registration, in order, with the registration's id, its user and
    the code that [generateEventQR] makes for it; or, as soon as the
    generation fails for one registration, the whole call throws, with that
    failure in its message. *)
Theorem generateBulkEventQRs_all_or_none `{Runtime}
    (registrations : list (Date * Registration.t)) :
  match qrCodeMore.generateBulkEventQRs registrations with
  | Ok qrCodes =>
      Forall2 qrCodeMore.entryOf registrations qrCodes
      /\ length qrCodes = length registrations
  | Throw message =>
      exists now registration failure,
        In (now, registration) registrations
        /\ qrCode.generateEventQR now (Registration._id registration)
             (Registration.event registration) = Throw failure
        /\ message = ("Failed to generate bulk QR codes: " +:+ failure)%string
  end.
Proof.
  unfold qrCodeMore.generateBulkEventQRs.
  pose proof (loop_spec registrations []) as Hloop.
  destruct (qrCodeMore.loop registrations []) as [all | message].
  - destruct Hloop as (new & -> & Hnew). cbn [app].
    split; [exact Hnew |]. symmetry. exact (Forall2_length _ _ _ Hnew).
  - destruct Hloop as (now & registration & Hin & Hfail).
    exists now, registration, message. auto.
Qed.

(** ** From the registration to the check-in *)

Lemma attachQR_users `{Runtime} now doc eventId db :
  users (registrations.attachQR now doc eventId db) = users db.
Proof.
  unfold registrations.attachQR.
  destruct (qrCode.generateEventQR _ _ _); reflexivity.
Qed.

(** A successful registration, spelled out. *)
Lemma register_success_inv `{Runtime} now newId uid eventId teamInfo db :
  succeeded (fst (registrations.register now newId uid eventId teamInfo db))
  = true ->
  exists user event event',
    auth.authenticate uid db = inr user
    /\ events db !! eventId = Some event
    /\ Registrations.findById newId (registrations db) = None
    /\ Event.addParticipant event = Ok event'
    /\ snd (registrations.register now newId uid eventId teamInfo db)
       = save_user (User.addPoints 10 "Event registration" user)
           (save_event event'
              (registrations.attachQR now
                 (registrations.registrationData now newId user eventId event
                    teamInfo)
                 eventId
                 (set_registrations
                    (registrations db
                       ++ [registrations.registrationData now newId user
                             eventId event teamInfo])
                    db))).
Proof.
  unfold registrations.register.
  destruct (auth.authenticate uid db) as [res | user] eqn:Hauth.
  { apply authenticate_inl in Hauth as [m ->]. discriminate. }
  destruct (events db !! eventId) as [event|] eqn:Hev; [| discriminate].
  destruct (negb (bool_decide _)); [discriminate |].
  destruct (negb (Event.isRegistrationOpen now event)); [discriminate |].
  destruct (Registrations.findOne _ _ _); [discriminate |].
  destruct (Js.ge _ _); [discriminate |].
  destruct (Registrations.create _ _) as [created | ?] eqn:Hcreate;
    [| discriminate].
  apply create_inv in Hcreate as (-> & Hnew & _).
  destruct (Event.addParticipant event) as [event' | ?] eqn:Hadd;
    [| discriminate].
  intros _. exists user, event, event'. auto.
Qed.

Lemma mayCheckIn_fields caller caller' event event' :
  User._id caller' = User._id caller ->
  User.role caller' = User.role caller ->
  Event.organizer event' = Event.organizer event ->
  Event.coOrganizers event' = Event.coOrganizers event ->
  registrations.mayCheckIn caller' event' = registrations.mayCheckIn caller event.
Proof.
  unfold registrations.mayCheckIn. intros -> -> -> ->. reflexivity.
Qed.

(** X25 (routes/registrations.js, [POST /] and [POST /:id/checkin], with
    utils/qrCode.js): the QR code stored with a registration passes every
    test of the check-in of that registration, and the request fails in the
    call of the check-in method.  In a store that keeps users and the event
    under their ids, after a successful registration for which the code could
    be generated, the registration is stored with that code; a check-in
    request with the method [qr-code] and the stored code, sent within 24
    hours by a user who may check in at the event, is rejected neither by the
    authorization test nor by the QR validation (where [JSON.parse] gives
    back the data that was written): it ends in the error handler with the
    TypeError of [registration.checkIn(...)], and the store is unchanged. *)
Theorem checkin_with_the_stored_QR_reaches_the_method_call `{Runtime} (now now' : Date)
    (newId uid eventId oid : ObjectId)
    (teamInfo : option registrations.TeamInput) (location : option string)
    (db : DB) (event : Event.t) (caller : User.t) (g : qrCode.Generated) :
  succeeded (fst (registrations.register now newId uid eventId teamInfo db))
  = true ->
  (forall k u, users db !! k = Some u -> User._id u = k) ->
  events db !! eventId = Some event ->
  Event._id event = eventId ->
  auth.authenticate oid db = inr caller ->
  registrations.mayCheckIn caller event = true ->
  qrCode.generateEventQR now newId eventId = Ok g ->
  JSON_parse (qrCode.code g) = Some (qrCode.data g) ->
  qrCode.code g <> ""%string ->
  now' - now <= qrCode.maxAge ->
  let db' := snd (registrations.register now newId uid eventId teamInfo db) in
  (Registration.qrCode <$> Registrations.findById newId (registrations db'))
  = Some (Some {| Registration.code := qrCode.code g;
                  Registration.url := qrCode.dataURL g |})
  /\ registrations.checkin now' oid newId (Some Registration.qr_code)
       location (Some (qrCode.code g)) db'
     = (next "TypeError: registration.checkIn is not a function", db').
Proof.
  intros Hreg Husers Hev Hkey Hcaller Hmay Hgen Hparse Hcode Hage db'.
  destruct (register_success_inv _ _ _ _ _ _ Hreg)
    as (user & event0 & event' & Hauth & Hev0 & Hnew & Hadd & Hdb).
  assert (Some event0 = Some event) as [= ->]
    by (rewrite <- Hev0, <- Hev; reflexivity).
  set (data := registrations.registrationData now newId user eventId event
                 teamInfo) in *.
  set (db1 := set_registrations (registrations db ++ [data]) db) in *.
  set (stored := Registration.set_qrCode
                   (Some {| Registration.code := qrCode.code g;
                            Registration.url := qrCode.dataURL g |}) data).
  assert (Hfind : Registrations.findById newId (registrations db')
                  = Some stored).
  { subst db'. rewrite Hdb. cbn [registrations save_user save_event].
    pose proof (attachQR_findById now data eventId db1 (registrations db)
                  eq_refl Hnew eq_refl) as Hq.
    change (Registration._id data) with newId in Hq.
    rewrite Hgen in Hq. exact Hq. }
  split; [rewrite Hfind; reflexivity |].
  unfold Event.addParticipant in Hadd.
  destruct (Event.belowCapacity event); [| discriminate].
  injection Hadd as <-.
  set (event' := Event.set_currentParticipants _ event) in *.
  apply authenticate_inr in Hauth as [Huser Hactive].
  apply authenticate_inr in Hcaller as [Hcallerdb Hcalleractive].
  pose proof (Husers _ _ Huser) as Huid.
  pose proof (Husers _ _ Hcallerdb) as Hoid.
  set (user' := User.addPoints 10 "Event registration" user) in *.
  assert (Hevents : events db' !! Registration.event stored = Some event').
  { subst db'. rewrite Hdb. cbn [events save_user save_event].
    change (Event._id event') with (Event._id event).
    change (Registration.event stored) with eventId.
    rewrite Hkey. apply lookup_insert_eq. }
  assert (Hattendee : users db' !! Registration.user stored = Some user').
  { subst db'. rewrite Hdb. cbn [users save_user].
    change (Registration.user stored) with (User._id user).
    change (User._id user') with (User._id user).
    apply lookup_insert_eq. }
  assert (Hcaller' : exists caller',
             auth.authenticate oid db' = inr caller'
             /\ User._id caller' = User._id caller
             /\ User.role caller' = User.role caller).
  { destruct (decide (uid = oid)) as [Heq | Hne].
    - assert (Huc : Some caller = Some user)
        by (rewrite <- Huser, <- Hcallerdb, Heq; reflexivity).
      injection Huc as ->.
      exists user'. unfold auth.authenticate.
      change (Registration.user stored) with (User._id user) in Hattendee.
      rewrite <- Hoid, Hattendee.
      change (User.isActive user') with (User.isActive user).
      rewrite Hactive. auto.
    - exists caller. unfold auth.authenticate.
      subst db'. rewrite Hdb. cbn [users save_user save_event].
      change (User._id user') with (User._id user).
      rewrite lookup_insert_ne by (rewrite Huid; exact Hne).
      rewrite attachQR_users. cbn [users set_registrations db1].
      rewrite Hcallerdb, Hcalleractive. auto. }
  destruct Hcaller' as (caller' & Hauth' & Hid' & Hrole').
  apply (checkin_throws now' oid newId (Some Registration.qr_code) location
           (Some (qrCode.code g)) db' caller' stored event' Hauth' Hfind
           Hevents).
  - rewrite (mayCheckIn_fields caller caller' event event'); auto.
  - reflexivity.
  - change (default Registration.manual (Some Registration.qr_code))
      with Registration.qr_code.
    destruct (generateEventQR_Ok _ _ _ _ Hgen) as [Hdata _].
    rewrite Hdata in Hparse.
    rewrite (validateQR_generated now now' _ _ _ stored event' Hcode Hparse).
    change (Event._id event') with (Event._id event). rewrite Hkey.
    change (Registration._id stored) with newId.
    rewrite (bool_decide_eq_true_2 (eventId = eventId)) by reflexivity.
    rewrite bool_decide_eq_false_2 by lia.
    rewrite (bool_decide_eq_true_2 (newId = newId)) by reflexivity.
    reflexivity.
Qed.

Lemma sample_users_keyed k u :
  users Sample.db0 !! k = Some u -> User._id u = k.
Proof.
  intros Hu. unfold Sample.db0 in Hu. cbn [users] in Hu.
  repeat (apply lookup_insert_Some in Hu as [[<- <-] | [_ Hu]];
          [reflexivity |]).
  rewrite lookup_empty in Hu. discriminate.
Qed.

Lemma checkin_with_the_stored_QR_reaches_the_method_call_witness :
  @registrations.checkin Sample.runtime 2100 "u-olga" "r1"
    (Some Registration.qr_code) None (Some Sample.r1_code)
    (snd Sample.alice_registers)
  = (next "TypeError: registration.checkIn is not a function",
     snd Sample.alice_registers).
Proof.
  apply (proj2 (checkin_with_the_stored_QR_reaches_the_method_call
                  (H := Sample.runtime)
                  1000 2100 "r1" "u-alice" "e-workshop" "u-olga" None None
                  Sample.db0 Sample.workshop Sample.olga Sample2.r1_generated
                  ltac:(vm_compute; reflexivity)
                  sample_users_keyed
                  ltac:(vm_compute; reflexivity)
                  ltac:(reflexivity)
                  ltac:(vm_compute; reflexivity)
                  ltac:(vm_compute; reflexivity)
                  ltac:(vm_compute; reflexivity)
                  ltac:(vm_compute; reflexivity)
                  ltac:(vm_compute; discriminate)
                  ltac:(vm_compute; discriminate))).
Defined.
